(** * Kernel-metric lookup and profiling sweep (scripts/perftools)

    A shallow embedding of [csv_parser.py] and [nsys_ncu_profiling.py]:
    Python strings are [string] (ASCII text), Python ints are [Z], the
    [results] dict is a [gmap string cell] (its keys and values; the order
    in which a Python dict keeps its keys is not modelled), printed lines
    are collected in a list, and the outside world (pandas' file readers,
    the profiler processes) is a parameter of the functions that call it. A
    process either exits with a status or cannot be run at all, in which
    case [subprocess.run] raises an exception that the handlers of the sweep
    do not take. *)

From Stdlib Require Import ZArith Ascii String List Bool Lia.
From Stdlib Require Import Decimal DecimalString DecimalPos DecimalZ Permutation.
From stdpp Require Import base option list strings gmap.

Import ListNotations.
Local Open Scope string_scope.
Local Open Scope list_scope.

(** ** Python string primitives *)

Module PyStr.

(** [s.startswith(p)] *)
Fixpoint startswith (s p : string) {struct p} : bool :=
  match p with
  | EmptyString => true
  | String a p' =>
      match s with
      | EmptyString => false
      | String b s' => Ascii.eqb a b && startswith s' p'
      end
  end.

(** [needle in hay]: some suffix of [hay] starts with [needle]. *)
Fixpoint contains (needle hay : string) : bool :=
  startswith hay needle
  || match hay with
     | EmptyString => false
     | String _ hay' => contains needle hay'
     end.

(** [s[n:]]: the text after its first [n] characters *)
Fixpoint drop (n : nat) (s : string) : string :=
  match n, s with
  | S n', String _ s' => drop n' s'
  | _, _ => s
  end.

(** [s.endswith(suf)] *)
Definition endswith (s suf : string) : bool :=
  (String.length suf <=? String.length s)%nat
  && String.eqb (drop (String.length s - String.length suf) s) suf.

(** [c.lower()] on one ASCII character: 'A'..'Z' move to 'a'..'z'. *)
Definition lower_ascii (c : ascii) : ascii :=
  let n := nat_of_ascii c in
  if ((65 <=? n) && (n <=? 90))%nat then ascii_of_nat (n + 32) else c.

Definition upper_ascii (c : ascii) : ascii :=
  let n := nat_of_ascii c in
  if ((97 <=? n) && (n <=? 122))%nat then ascii_of_nat (n - 32) else c.

(** [s.lower()] and [s.upper()] *)
Fixpoint lower (s : string) : string :=
  match s with
  | EmptyString => EmptyString
  | String c s' => String (lower_ascii c) (lower s')
  end.

Fixpoint upper (s : string) : string :=
  match s with
  | EmptyString => EmptyString
  | String c s' => String (upper_ascii c) (upper s')
  end.

(** [sep.join(parts)] *)
Fixpoint join (sep : string) (parts : list string) : string :=
  match parts with
  | [] => ""
  | [p] => p
  | p :: rest => p ++ sep ++ join sep rest
  end.

(** [str(n)] for an int: decimal digits, a leading '-' when negative. *)
Definition str_int (z : Z) : string := NilZero.string_of_int (Z.to_int z).

(** a character occurs in a string *)
Fixpoint has_char (c : ascii) (s : string) : bool :=
  match s with
  | EmptyString => false
  | String a s' => Ascii.eqb a c || has_char c s'
  end.

End PyStr.

(** ** Python's [repr] of a string and of a list of strings

    Used by the line that prints the column labels. ASCII text only. *)

Module PyRepr.

Definition hex_digit (n : nat) : ascii :=
  match n with
  | 0 => "0" | 1 => "1" | 2 => "2" | 3 => "3" | 4 => "4" | 5 => "5" | 6 => "6"
  | 7 => "7" | 8 => "8" | 9 => "9" | 10 => "a" | 11 => "b" | 12 => "c"
  | 13 => "d" | 14 => "e" | _ => "f"
  end%char.

Definition backslash : ascii := ascii_of_nat 92.
Definition squote : ascii := ascii_of_nat 39.
Definition dquote : ascii := ascii_of_nat 34.

Definition repr_char (quote c : ascii) : string :=
  let n := nat_of_ascii c in
  if Ascii.eqb c quote || Ascii.eqb c backslash then String backslash (String c "")
  else if (n =? 9)%nat then String backslash "t"
  else if (n =? 10)%nat then String backslash "n"
  else if (n =? 13)%nat then String backslash "r"
  else if ((n <? 32) || (n =? 127))%nat
       then String backslash (String "x" (String (hex_digit (n / 16)) (String (hex_digit (n mod 16)) "")))
  else String c "".

Fixpoint repr_body (quote : ascii) (s : string) : string :=
  match s with
  | EmptyString => ""
  | String c s' => repr_char quote c ++ repr_body quote s'
  end.

(** [repr(s)]: single quotes, unless [s] has a single quote and no double one. *)
Definition repr_str (s : string) : string :=
  let quote :=
    if PyStr.has_char squote s && negb (PyStr.has_char dquote s) then dquote else squote in
  String quote (repr_body quote s ++ String quote "").

(** [repr(l)] for a list of strings, as [f"{list(df.columns)}"] prints it. *)
Definition repr_list (l : list string) : string :=
  "[" ++ PyStr.join ", " (map repr_str l) ++ "]".

End PyRepr.

(** ** The trace table *)

(** A cell as pandas hands it out. A float is named by its Python [repr]
    (the shortest text that reads back as the same float; a missing value is
    the float "nan"): the program never computes with a cell, it only prints
    it, searches its text and passes it on. *)
Inductive cell : Type :=
| CInt (z : Z)
| CFloat (repr : string)
| CStr (s : string)
| CBool (b : bool).

(** [str(cell)] *)
Definition str_cell (c : cell) : string :=
  match c with
  | CInt z => PyStr.str_int z
  | CFloat r => r
  | CStr s => s
  | CBool true => "True"
  | CBool false => "False"
  end.

(** A DataFrame with the default integer index: the ordered column labels
    and the ordered rows; row [i] has index label [i]. *)
Record DataFrame : Type := {
  columns : list string;
  rows : list (list cell)
}.

(** every row has one cell per column *)
Definition rectangular (df : DataFrame) : Prop :=
  Forall (fun row => length row = length (columns df)) (rows df).

(** Exceptions below [Exception]; [str(e)] is the carried message. *)
Inductive exn : Type :=
| FileNotFoundError (msg : string)
| OtherError (msg : string).

Definition str_exn (e : exn) : string :=
  match e with FileNotFoundError m => m | OtherError m => m end.

(** What [pd.read_csv] / [pd.read_excel] does with a path and a header row. *)
Inductive load : Type :=
| Loaded (df : DataFrame)
| LoadRaises (e : exn).

(** The files as pandas sees them. *)
Record filesystem : Type := {
  read_csv : string -> Z -> load;
  read_excel : string -> Z -> load
}.

(** ** Computations that print and may raise *)

Definition Py (A : Type) : Type := (A + exn) * list string.

Definition ret {A} (a : A) : Py A := (inl a, []).
Definition raise {A} (e : exn) : Py A := (inr e, []).
Definition print (line : string) : Py unit := (inl tt, [line]).

Definition bind {A B} (m : Py A) (f : A -> Py B) : Py B :=
  match m with
  | (inl a, out) => let '(r, out') := f a in (r, out ++ out')
  | (inr e, out) => (inr e, out)
  end.

(** [try: m except Exception as e: h e] *)
Definition try_except {A} (m : Py A) (h : exn -> Py A) : Py A :=
  match m with
  | (inl a, out) => (inl a, out)
  | (inr e, out) => let '(r, out') := h e in (r, out ++ out')
  end.

Notation "'do' x <- m ; k" := (bind m (fun x => k))
  (at level 10, x name, m at level 100, k at level 200).
Notation "m >> k" := (bind m (fun _ => k))
  (at level 100, k at level 200, right associativity).

Definition returned {A} (m : Py A) : option A :=
  match fst m with inl a => Some a | inr _ => None end.
Definition printed {A} (m : Py A) : list string := snd m.

(** ** csv_parser.py *)

Module CsvParser.

(** [' '.join(str(cell) for cell in row.values)] *)
Definition row_str (row : list cell) : string :=
  PyStr.join " " (map str_cell row).

(** The loop over [df.iterrows()]: the index of the first row whose joined
    text has [kernel_name] in it; [idx] is the index of the head row. *)
Fixpoint find_row_from (kernel_name : string) (idx : nat) (rs : list (list cell))
  : option nat :=
  match rs with
  | [] => None
  | row :: rest =>
      if PyStr.contains kernel_name (row_str row) then Some idx
      else find_row_from kernel_name (S idx) rest
  end.

Definition find_row (kernel_name : string) (df : DataFrame) : option nat :=
  find_row_from kernel_name 0 (rows df).

(** The loop over [enumerate(df.columns)]: position and label of the first
    column whose lower-cased label has the lower-cased metric name in it. *)
Fixpoint find_col_from (metric_name_lower : string) (col_idx : nat) (cols : list string)
  : option (nat * string) :=
  match cols with
  | [] => None
  | col_name :: rest =>
      if PyStr.contains metric_name_lower (PyStr.lower col_name)
      then Some (col_idx, col_name)
      else find_col_from metric_name_lower (S col_idx) rest
  end.

Definition find_col (metric_name : string) (df : DataFrame) : option (nat * string) :=
  find_col_from (PyStr.lower metric_name) 0 (columns df).

(** position of the first column labelled [col_id] *)
Fixpoint label_index (col_id : string) (cols : list string) : option nat :=
  match cols with
  | [] => None
  | c :: rest => if String.eqb c col_id then Some 0 else S <$> label_index col_id rest
  end.

(** [df.loc[row_id, col_id]]; a label that is not there is a KeyError. *)
Definition loc (df : DataFrame) (row_id : nat) (col_id : string) : Py cell :=
  match rows df !! row_id with
  | None => raise (OtherError (PyStr.str_int (Z.of_nat row_id)))
  | Some row =>
      match label_index col_id (columns df) with
      | None => raise (OtherError (PyRepr.repr_str col_id))
      | Some j =>
          match row !! j with
          | Some v => ret v
          | None => raise (OtherError (PyRepr.repr_str col_id))
          end
      end
  end.

(** Step 1 of both functions: the reader is chosen by the file extension. *)
Definition read_table (fs : filesystem) (file_path : string) (header_row : Z) : Py DataFrame :=
  let l := if PyStr.endswith file_path ".xlsx" || PyStr.endswith file_path ".xls"
           then read_excel fs file_path header_row
           else read_csv fs file_path header_row in
  match l with
  | Loaded df => ret df
  | LoadRaises e => raise e
  end.

Definition nat_str (n : nat) : string := PyStr.str_int (Z.of_nat n).

Definition find_kernel_metric (fs : filesystem)
    (file_path kernel_name metric_name : string) (header_row : Z)
  : Py (option cell) :=
  try_except
    (do df <- read_table fs file_path header_row;
     print ("Loaded file: " ++ file_path) >>
     print ("Shape: " ++ nat_str (length (rows df)) ++ " rows x "
              ++ nat_str (length (columns df)) ++ " columns") >>
     print ("Columns: " ++ PyRepr.repr_list (columns df)) >>
     match find_row kernel_name df with
     | None =>
         print ("Warning: Kernel '" ++ kernel_name ++ "' not found in file") >>
         ret None
     | Some row_id =>
         print ("Found kernel '" ++ kernel_name ++ "' at row " ++ nat_str row_id) >>
         match find_col metric_name df with
         | None =>
             print ("Warning: Metric '" ++ metric_name ++ "' not found in columns") >>
             ret None
         | Some (col_idx, col_id) =>
             print ("Found metric '" ++ metric_name ++ "' at column '" ++ col_id
                      ++ "' (index " ++ nat_str col_idx ++ ")") >>
             do value <- loc df row_id col_id;
             print ("Value at row " ++ nat_str row_id ++ ", column '" ++ col_id
                      ++ "': " ++ str_cell value) >>
             ret (Some value)
         end
     end)
    (fun e =>
       match e with
       | FileNotFoundError _ =>
           print ("Error: File '" ++ file_path ++ "' not found") >> ret None
       | _ =>
           print ("Error processing file: " ++ str_exn e) >> ret None
       end).

(** The loop over [metric_names], on the shared [results] dict: an exception
    leaves the entries stored so far in place. *)
Fixpoint find_metrics (df : DataFrame) (row_id : nat) (metric_names : list string)
    (results : gmap string cell) : gmap string cell * option exn :=
  match metric_names with
  | [] => (results, None)
  | metric_name :: rest =>
      match find_col metric_name df with
      | None => find_metrics df row_id rest results
      | Some (_, col_name) =>
          match fst (loc df row_id col_name) with
          | inl v => find_metrics df row_id rest (<[metric_name := v]> results)
          | inr e => (results, Some e)
          end
      end
  end.

(** Returns [results] on every path; the second component is what was printed. *)
Definition find_all_kernel_metrics (fs : filesystem)
    (file_path kernel_name : string) (metric_names : list string) (header_row : Z)
  : Py (gmap string cell) :=
  let results : gmap string cell := ∅ in
  match read_table fs file_path header_row with
  | (inr e, _) => print ("Error: " ++ str_exn e) >> ret results
  | (inl df, _) =>
      match find_row kernel_name df with
      | None => print ("Warning: Kernel '" ++ kernel_name ++ "' not found") >> ret results
      | Some row_id =>
          match find_metrics df row_id metric_names results with
          | (results', None) => ret results'
          | (results', Some e) => print ("Error: " ++ str_exn e) >> ret results'
          end
      end
  end.

End CsvParser.

(** The table of the spec's concrete scenario, as pandas types its cells. *)
Definition scenario_df : DataFrame :=
  {| columns := ["Kernel"; "Duration"; "Start"];
     rows := [[CStr "topKStage1_kernel"; CFloat "43392.0"; CInt 100]] |}.

(** A file system with one table, at [path], whatever the header row. *)
Definition one_file (path : string) (df : DataFrame) : filesystem :=
  let rd := fun p (_ : Z) =>
    if String.eqb p path then Loaded df
    else LoadRaises (FileNotFoundError
           ("[Errno 2] No such file or directory: " ++ PyRepr.repr_str p)) in
  {| read_csv := rd; read_excel := rd |}.

(** ** nsys_ncu_profiling.py *)

(** [os.path.join(a, b)] on POSIX *)
Definition path_join (a b : string) : string :=
  if PyStr.startswith b "/" then b
  else if String.eqb a "" || PyStr.endswith a "/" then a ++ b
  else a ++ "/" ++ b.

(** [enumerate(l)] *)
Definition enumerate {A} (l : list A) : list (nat * A) :=
  combine (seq 0 (length l)) l.

(** What [subprocess.run(..., capture_output=True, text=True)] gets back. *)
Record CompletedProcess : Type := {
  returncode : Z;
  stdout : string
}.

(** How running a command ends, before [check=True] looks at the exit
    status: the command ran and exited, or [subprocess.run] raised instead
    of returning (an [OSError] such as [FileNotFoundError] when the program
    cannot be started, a [UnicodeDecodeError] on its output), which is never
    a [CalledProcessError]. *)
Inductive outcome : Type :=
| Exited (res : CompletedProcess)
| Raised (e : exn).

(** One row handed to [writer.writerow] after the header row:
    [[kernel_name, B, N, K, dtype, Avg]]. *)
Record summary_row : Type := {
  row_kernel : string;
  row_B : Z;
  row_N : Z;
  row_K : Z;
  row_dtype : string;
  row_Avg : option cell
}.

(** The fields [csv.writer] writes for a row: [str] of each value, the
    empty string for [None]. *)
Definition csv_fields (r : summary_row) : list string :=
  [row_kernel r; PyStr.str_int (row_B r); PyStr.str_int (row_N r);
   PyStr.str_int (row_K r); row_dtype r;
   match row_Avg r with Some c => str_cell c | None => "" end].

Definition summary_header : list string :=
  ["Kernel"; "B"; "N"; "top-K"; "dtype"; "Average Time(ns)"].

(** One [subprocess.run]: the command, its environment, and its exit status,
    [None] when the call raised instead of returning one. *)
Record call : Type := {
  call_cmd : list string;
  call_env : gmap string string;
  call_code : option Z
}.

(** What a sweep has done so far. [kernel_name] is the local variable of that
    name; [uncaught] is an exception no handler of the sweep took, after
    which nothing more runs. *)
Record sweep_state : Type := {
  files : filesystem;
  kernel_name : string;
  calls : list call;
  out : list string;
  summary : list summary_row;
  uncaught : option exn
}.

Module Profiling.

(** What [subprocess.run(cmd, check=True, ...)] hands to the code around it:
    the completed process, the [CalledProcessError] of a non-zero exit
    status, or another exception. *)
Inductive run_result : Type :=
| Completed (result : CompletedProcess)
| CalledProcessError (code : Z)
| OtherException (e : exn).

Section Sweep.

(** The inherited process environment, [os.environ]. *)
Variable environ : gmap string string.

(** Running a command in an environment: how it ends and what it leaves on
    disk. *)
Variable exec : filesystem -> list string -> gmap string string
                -> outcome * filesystem.

(** [str(e)] for the [CalledProcessError] of a command and its exit status. *)
Variable str_CalledProcessError : list string -> Z -> string.

(** [f"{kernel_name}_B{B}_N{N}_topK{K}_{dtype}"] *)
Definition output_name (kernel_name : string) (B N K : Z) (dtype : string) : string :=
  kernel_name ++ "_B" ++ PyStr.str_int B ++ "_N" ++ PyStr.str_int N
    ++ "_topK" ++ PyStr.str_int K ++ "_" ++ dtype.

(** [env = os.environ.copy()] with the three overrides *)
Definition sweep_env (B N K : Z) : gmap string string :=
  <["TEST_TOP_K" := PyStr.str_int K]>
    (<["TEST_VOCAB_SIZE" := PyStr.str_int N]>
       (<["TEST_BATCH_SIZE" := PyStr.str_int B]> environ)).

Definition gtest_filter (i : nat) : string :=
  "--gtest_filter=TopKSamplingKernelTest/" ++ CsvParser.nat_str i ++ ".parameterizedTopK".

Definition nsys_cmd (output_path target_script : string) (i : nat) : list string :=
  ["nsys_easy"; "-o"; output_path; target_script; gtest_filter i; "--force-export=true"].

Definition nsys_cmd_stats (output_path : string) : list string :=
  ["nsys"; "stats"; "--report"; "cuda_gpu_trace"; (output_path ++ ".nsys-rep")%string;
   "--format"; "csv"; "--output"; (output_path ++ ".csv")%string; "--force-export=true"].

Definition ncu_cmd (output_path target_script : string) (i : nat) : list string :=
  ["ncu"; "-o"; output_path; target_script; gtest_filter i].

Definition run_line (cmd : list string) : string :=
  "Run command: " ++ PyStr.join " " cmd.

Definition env_line (B N K : Z) : string :=
  "Environment variables: TEST_BATCH_SIZE=" ++ PyStr.str_int B
    ++ ", TEST_VOCAB_SIZE=" ++ PyStr.str_int N ++ ", TEST_TOP_K=" ++ PyStr.str_int K.

Definition task_failed_line (output_name : string) (cmd : list string) (code : Z) : string :=
  "Task failed: " ++ output_name ++ ", error: " ++ str_CalledProcessError cmd code.

(** [subprocess.run(cmd, check=True, env=env, ...)]: the call is recorded,
    the files are what the command left; with [check=True] a non-zero exit
    status is raised as a [CalledProcessError]. *)
Definition run (st : sweep_state) (cmd : list string) (env : gmap string string)
  : run_result * sweep_state :=
  let '(o, fs') := exec (files st) cmd env in
  let code := match o with Exited res => Some (returncode res) | Raised _ => None end in
  let st' := {| files := fs'; kernel_name := kernel_name st;
                calls := calls st ++ [{| call_cmd := cmd; call_env := env;
                                         call_code := code |}];
                out := out st;
                summary := summary st; uncaught := uncaught st |} in
  (match o with
   | Exited res =>
       if (returncode res =? 0)%Z then Completed res
       else CalledProcessError (returncode res)
   | Raised e => OtherException e
   end, st').

Definition say (st : sweep_state) (lines : list string) : sweep_state :=
  {| files := files st; kernel_name := kernel_name st; calls := calls st;
     out := out st ++ lines; summary := summary st; uncaught := uncaught st |}.

Definition set_kernel_name (st : sweep_state) (name : string) : sweep_state :=
  {| files := files st; kernel_name := name; calls := calls st;
     out := out st; summary := summary st; uncaught := uncaught st |}.

Definition writerow (st : sweep_state) (r : summary_row) : sweep_state :=
  {| files := files st; kernel_name := kernel_name st; calls := calls st;
     out := out st; summary := summary st ++ [r]; uncaught := uncaught st |}.

Definition propagate (st : sweep_state) (e : exn) : sweep_state :=
  {| files := files st; kernel_name := kernel_name st; calls := calls st;
     out := out st; summary := summary st; uncaught := Some e |}.

(** Lines 89-91 and 93-95: [kernel_name] is assigned, the metric is looked
    up in the exported trace and the row is written. *)
Definition extract (st : sweep_state) (name output_path : string) (B N K : Z)
    (dtype : string) : sweep_state :=
  let st := set_kernel_name st name in
  match CsvParser.find_kernel_metric (files st)
          (output_path ++ ".csv_cuda_gpu_trace.csv") (kernel_name st) "Duration" 0 with
  | (inl Avg, lines) =>
      writerow (say st lines)
        {| row_kernel := kernel_name st; row_B := B; row_N := N; row_K := K;
           row_dtype := dtype; row_Avg := Avg |}
  | (inr e, lines) => propagate (say st lines) e
  end.

(** The body of the innermost loop of [nsys_profile_samplingtopK]. The
    handler is [except subprocess.CalledProcessError]: any other exception
    leaves the loops and the function. *)
Definition nsys_point (output_dir target_script : string) (st : sweep_state)
    (B N K : Z) (i : nat) (dtype : string) : sweep_state :=
  match uncaught st with
  | Some _ => st
  | None =>
      let output_name := output_name (kernel_name st) B N K dtype in
      let output_path := path_join output_dir output_name in
      let env := sweep_env B N K in
      let cmd := nsys_cmd output_path target_script i in
      let cmd_stats := nsys_cmd_stats output_path in
      let st := say st [run_line cmd; env_line B N K] in
      match run st cmd env with
      | (CalledProcessError code, st) => say st [task_failed_line output_name cmd code]
      | (OtherException e, st) => propagate st e
      | (Completed result, st) =>
          let st := say st [("Result: " ++ stdout result)%string] in
          match run st cmd_stats environ with
          | (CalledProcessError code, st) =>
              say st [task_failed_line output_name cmd_stats code]
          | (OtherException e, st) => propagate st e
          | (Completed result_stats, st) =>
              let st := say st [("Stats result: " ++ stdout result_stats)%string] in
              let st := extract st "topKStage1" output_path B N K dtype in
              match uncaught st with
              | Some _ => st
              | None => extract st "topKStage2Sampling" output_path B N K dtype
              end
          end
      end
  end.

(** The body of the innermost loop of [ncu_profile_samplingtopK]. *)
Definition ncu_point (output_dir target_script : string) (st : sweep_state)
    (B N K : Z) (i : nat) (dtype : string) : sweep_state :=
  match uncaught st with
  | Some _ => st
  | None =>
      let output_name := output_name (kernel_name st) B N K dtype in
      let output_path := path_join output_dir output_name in
      let env := sweep_env B N K in
      let cmd := ncu_cmd output_path target_script i in
      let st := say st [run_line cmd; env_line B N K] in
      match run st cmd env with
      | (CalledProcessError code, st) => say st [task_failed_line output_name cmd code]
      | (OtherException e, st) => propagate st e
      | (Completed result, st) => st
      end
  end.

(** The four nested [for] loops, around either body. *)
Definition sweep (body : sweep_state -> Z -> Z -> Z -> nat -> string -> sweep_state)
    (B_values N_values K_values : list Z) (dtypes : list string)
    (st : sweep_state) : sweep_state :=
  fold_left (fun st B =>
    fold_left (fun st N =>
      fold_left (fun st K =>
        fold_left (fun st '(i, dtype) => body st B N K i dtype)
          (enumerate dtypes) st)
        K_values st)
      N_values st)
    B_values st.

Definition start (fs : filesystem) (kernel_name : string) : sweep_state :=
  {| files := fs; kernel_name := kernel_name; calls := [];
     out := ["Start batch collecting GPU kernel performance data..."];
     summary := []; uncaught := None |}.

(** Returns the end state and, unless an exception escaped, the path of the
    summary file, whose rows are [summary_header] and then [summary]. *)
Definition nsys_profile_samplingtopK (fs : filesystem)
    (B_values N_values K_values : list Z) (dtypes : list string)
    (kernel_name output_dir csv_summary_name target_script : string)
  : sweep_state * option string :=
  let csv_summary_path := path_join output_dir csv_summary_name in
  let st := sweep (nsys_point output_dir target_script)
              B_values N_values K_values dtypes (start fs kernel_name) in
  match uncaught st with
  | Some _ => (st, None)
  | None =>
      (say st ["All nsys profile finished.";
               ("Summary data saved to " ++ csv_summary_path)%string],
       Some csv_summary_path)
  end.

Definition ncu_profile_samplingtopK (fs : filesystem)
    (B_values N_values K_values : list Z) (dtypes : list string)
    (kernel_name output_dir target_script : string) : sweep_state :=
  let st := sweep (ncu_point output_dir target_script)
              B_values N_values K_values dtypes (start fs kernel_name) in
  match uncaught st with
  | Some _ => st
  | None => say st ["All ncu profile finished."]
  end.

End Sweep.

End Profiling.

(** The [__main__] block: the nsys sweep, then the ncu sweep on the files the
    first one left, both with the block's configuration; the ncu sweep does
    not run when an exception left the nsys sweep. *)
Definition main (environ : gmap string string)
    (exec : filesystem -> list string -> gmap string string -> outcome * filesystem)
    (str_CalledProcessError : list string -> Z -> string) (fs : filesystem)
  : sweep_state * option sweep_state :=
  let kernel_name := "samplingtopK" in
  let output_dir := "./nsys_results" in
  let output_dir_ncu := "./ncu_results" in
  let csv_summary_name := "kernel_summary.csv" in
  let target_script := "./samplingKernelsTest" in
  let B_values := [1; 2; 4; 8; 16; 32; 64]%Z in
  let N_values := [129280]%Z in
  let K_values := [50]%Z in
  let dtypes := ["float32"; "float16"] in
  let nsys_st :=
    fst (Profiling.nsys_profile_samplingtopK environ exec str_CalledProcessError fs
           B_values N_values K_values dtypes kernel_name output_dir csv_summary_name
           target_script) in
  match uncaught nsys_st with
  | Some _ => (nsys_st, None)
  | None =>
      (nsys_st,
       Some (Profiling.ncu_profile_samplingtopK environ exec str_CalledProcessError
               (files nsys_st) B_values N_values K_values dtypes kernel_name
               output_dir_ncu target_script))
  end.

(** a call of the profiler itself, not of the stats export *)
Definition is_profile (c : call) : bool :=
  match call_cmd c with
  | tool :: _ => String.eqb tool "nsys_easy" || String.eqb tool "ncu"
  | [] => false
  end.

Definition profile_calls (st : sweep_state) : list call :=
  List.filter is_profile (calls st).

(** the output path handed to the profiler with [-o] *)
Definition call_output_path (c : call) : option string := call_cmd c !! 2.

(** ** A concrete world for the examples *)

Module Demo.

Definition no_files : filesystem :=
  let rd := fun p (_ : Z) =>
    LoadRaises (FileNotFoundError
      ("[Errno 2] No such file or directory: " ++ PyRepr.repr_str p)) in
  {| read_csv := rd; read_excel := rd |}.

Definition add_file (path : string) (df : DataFrame) (fs : filesystem) : filesystem :=
  {| read_csv := fun p h => if String.eqb p path then Loaded df else read_csv fs p h;
     read_excel := fun p h => if String.eqb p path then Loaded df else read_excel fs p h |}.

(** an exported trace with one row per sub-kernel *)
Definition trace : DataFrame :=
  {| columns := ["Start (ns)"; "Duration (ns)"; "Name"];
     rows := [[CInt 100; CInt 43392; CStr "void topKStage1<float>(...)"];
              [CInt 200; CInt 5120; CStr "void topKStage2Sampling<float>(...)"]] |}.

(** a trace in which the second sub-kernel is missing *)
Definition trace_stage1_only : DataFrame :=
  {| columns := ["Start (ns)"; "Duration (ns)"; "Name"];
     rows := [[CInt 100; CInt 43392; CStr "void topKStage1<float>(...)"]] |}.

Definition ok : outcome := Exited {| returncode := 0; stdout := "" |}.
Definition failed : outcome := Exited {| returncode := 1; stdout := "" |}.

(** the stats export, not the profiler *)
Definition is_stats (cmd : list string) : bool :=
  match cmd with
  | tool :: _ => String.eqb tool "nsys"
  | [] => false
  end.

(** The profiler exits with status 1 when the batch size is 8 and with 0
    otherwise; the stats export writes [table] next to its output name. *)
Definition exec_with (table : DataFrame) (fs : filesystem) (cmd : list string)
    (env : gmap string string) : outcome * filesystem :=
  if is_stats cmd
  then (ok, add_file (nth 8 cmd "" ++ "_cuda_gpu_trace.csv") table fs)
  else if bool_decide (env !! "TEST_BATCH_SIZE" = Some "8") then (failed, fs) else (ok, fs).

Definition exec : filesystem -> list string -> gmap string string
                  -> outcome * filesystem := exec_with trace.

(** A machine without the tools: no command can be started. *)
Definition exec_missing (fs : filesystem) (cmd : list string) (env : gmap string string)
  : outcome * filesystem :=
  (Raised (FileNotFoundError
             ("[Errno 2] No such file or directory: "
                ++ PyRepr.repr_str (nth 0 cmd ""))), fs).

Definition str_CalledProcessError (cmd : list string) (code : Z) : string :=
  "Command '" ++ PyRepr.repr_list cmd ++ "' returned non-zero exit status "
    ++ PyStr.str_int code ++ ".".

Definition environ : gmap string string := {[ "PATH" := "/usr/bin" ]}.

Definition nsys_with (table : DataFrame) (B_values N_values K_values : list Z)
    (dtypes : list string) (kernel_name : string) : sweep_state * option string :=
  Profiling.nsys_profile_samplingtopK environ (exec_with table) str_CalledProcessError no_files
    B_values N_values K_values dtypes kernel_name "./nsys_results" "kernel_summary.csv"
    "./samplingKernelsTest".

Definition nsys := nsys_with trace.

Definition ncu (B_values N_values K_values : list Z) (dtypes : list string)
    (kernel_name : string) : sweep_state :=
  Profiling.ncu_profile_samplingtopK environ exec str_CalledProcessError no_files
    B_values N_values K_values dtypes kernel_name "./ncu_results" "./samplingKernelsTest".

(** the nsys driver on the machine without the tools *)
Definition nsys_missing (B_values N_values K_values : list Z) (dtypes : list string)
    (kernel_name : string) : sweep_state * option string :=
  Profiling.nsys_profile_samplingtopK environ exec_missing str_CalledProcessError no_files
    B_values N_values K_values dtypes kernel_name "./nsys_results" "kernel_summary.csv"
    "./samplingKernelsTest".

(** the output paths of the profiler runs of a sweep, in order *)
Definition output_paths (st : sweep_state) : list (option string) :=
  map call_output_path (profile_calls st).

End Demo.

(** ** Vocabulary of the statements *)

(** the test of the row loop and the test of the column loop *)
Definition row_matches (kernel_name : string) (row : list cell) : Prop :=
  PyStr.contains kernel_name (CsvParser.row_str row) = true.

Definition col_matches (metric_name : string) (col_name : string) : Prop :=
  PyStr.contains (PyStr.lower metric_name) (PyStr.lower col_name) = true.

(** the three lines printed once a table is loaded *)
Definition loaded_lines (file_path : string) (df : DataFrame) : list string :=
  [("Loaded file: " ++ file_path)%string;
   ("Shape: " ++ CsvParser.nat_str (length (rows df)) ++ " rows x "
      ++ CsvParser.nat_str (length (columns df)) ++ " columns")%string;
   ("Columns: " ++ PyRepr.repr_list (columns df))%string].

(** the diagnostics of the lookup *)
Definition kernel_warning (kernel_name : string) : string :=
  "Warning: Kernel '" ++ kernel_name ++ "' not found in file".
Definition metric_warning (metric_name : string) : string :=
  "Warning: Metric '" ++ metric_name ++ "' not found in columns".
Definition missing_file_error (file_path : string) : string :=
  "Error: File '" ++ file_path ++ "' not found".
Definition processing_error (msg : string) : string :=
  "Error processing file: " ++ msg.
Definition batch_kernel_warning (kernel_name : string) : string :=
  "Warning: Kernel '" ++ kernel_name ++ "' not found".
Definition batch_error (msg : string) : string :=
  "Error: " ++ msg.

(** a printed line that reports a problem *)
Definition is_diagnostic (line : string) : bool :=
  PyStr.startswith line "Warning: " || PyStr.startswith line "Error"
  || PyStr.startswith line "Task failed: ".

(** the cell of a table at a row position and a column position *)
Definition cell_at (df : DataFrame) (r j : nat) : option cell :=
  rows df !! r ≫= fun row => row !! j.

(** columns taken in the order [p] gives, in the header and in every row *)
Definition permute {A} (p : list nat) (l : list A) : list A :=
  omap (fun j => l !! j) p.

Definition permute_cols (p : list nat) (df : DataFrame) : DataFrame :=
  {| columns := permute p (columns df); rows := map (permute p) (rows df) |}.

(** what the loop over the metric names stores for one name *)
Definition metric_cell (df : DataFrame) (r : nat) (m : string) : option cell :=
  match CsvParser.find_col m df with
  | Some (j, _) => cell_at df r j
  | None => None
  end.

(** A table in which one text spans two cells of the first row and, with
    the columns swapped, two cells of the second row. *)
Definition spanning_df : DataFrame :=
  {| columns := ["Kernel"; "Tag"];
     rows := [[CStr "scan"; CStr "topK"]; [CStr "topK"; CStr "scan"]] |}.

(** A table in which the text "scan topK" is in one cell of the second row
    and in no other cell, and spans the two cells of the first row. *)
Definition spanned_first_df : DataFrame :=
  {| columns := ["Kernel"; "Tag"];
     rows := [[CStr "scan"; CStr "topK"]; [CStr "scan topK"; CStr "x"]] |}.

(** the kernel name is in the text of one of the cells of the row *)
Definition in_a_cell (kernel_name : string) (row : list cell) : Prop :=
  exists c, In c row /\ PyStr.contains kernel_name (str_cell c) = true.

(** A table whose row has no cell in the last column, where [df.loc] raises
    a [KeyError]. *)
Definition short_row_df : DataFrame :=
  {| columns := ["Kernel"; "Duration"; "Start"];
     rows := [[CStr "topKStage1_kernel"; CFloat "43392.0"]] |}.

(** One sweep point: batch size, vocabulary size, top-K, position of the
    data type in [dtypes], data type. *)
Definition point : Type := Z * Z * Z * nat * string.

(** the points in the order the four loops visit them *)
Definition sweep_points (B_values N_values K_values : list Z) (dtypes : list string)
  : list point :=
  flat_map (fun B =>
    flat_map (fun N =>
      flat_map (fun K =>
        map (fun '(i, dtype) => (B, N, K, i, dtype)) (enumerate dtypes))
        K_values)
      N_values)
    B_values.

(** the part of an output name that encodes the four dimension values *)
Definition dims_suffix (B N K : Z) (dtype : string) : string :=
  "_B" ++ PyStr.str_int B ++ "_N" ++ PyStr.str_int N
    ++ "_topK" ++ PyStr.str_int K ++ "_" ++ dtype.

Definition point_suffix (p : point) : string :=
  let '(B, N, K, _, dtype) := p in dims_suffix B N K dtype.

(** a loop body run at a point *)
Definition run_point (body : sweep_state -> Z -> Z -> Z -> nat -> string -> sweep_state)
    (st : sweep_state) (p : point) : sweep_state :=
  let '(B, N, K, i, dtype) := p in body st B N K i dtype.

(** the turns of a loop: every point with the state its turn starts in *)
Fixpoint trajectory (body : sweep_state -> Z -> Z -> Z -> nat -> string -> sweep_state)
    (pts : list point) (st : sweep_state) : list (sweep_state * point) :=
  match pts with
  | [] => []
  | p :: rest => (st, p) :: trajectory body rest (run_point body st p)
  end.

(** a state moved on: new files and kernel name, more calls, lines and rows,
    and the exception that left the loop, if one did *)
Definition advance (st : sweep_state) (fs : filesystem) (name : string)
    (cs : list call) (lines : list string) (rs : list summary_row)
    (raised : option exn) : sweep_state :=
  {| files := fs; kernel_name := name; calls := calls st ++ cs;
     out := out st ++ lines; summary := summary st ++ rs; uncaught := raised |}.

(** the summary row of a sub-kernel at a point *)
Definition row_of (name : string) (B N K : Z) (dtype : string) (Avg : option cell)
  : summary_row :=
  {| row_kernel := name; row_B := B; row_N := N; row_K := K;
     row_dtype := dtype; row_Avg := Avg |}.

(** the exported trace that belongs to an output path *)
Definition trace_path (output_path : string) : string :=
  output_path ++ ".csv_cuda_gpu_trace.csv".

(** *** The commands, the environment and the lines of a turn, written out *)

(** the inherited environment with the three variables of a point *)
Definition overrides (environ : gmap string string) (B N K : Z) : gmap string string :=
  <["TEST_TOP_K" := PyStr.str_int K]>
    (<["TEST_VOCAB_SIZE" := PyStr.str_int N]>
       (<["TEST_BATCH_SIZE" := PyStr.str_int B]> environ)).

(** the argument that selects the data type by its position in [dtypes] *)
Definition selector (i : nat) : string :=
  "--gtest_filter=TopKSamplingKernelTest/" ++ PyStr.str_int (Z.of_nat i)
    ++ ".parameterizedTopK".

Definition nsys_argv (output_path target_script : string) (i : nat) : list string :=
  ["nsys_easy"; "-o"; output_path; target_script; selector i; "--force-export=true"].

Definition stats_argv (output_path : string) : list string :=
  ["nsys"; "stats"; "--report"; "cuda_gpu_trace"; (output_path ++ ".nsys-rep")%string;
   "--format"; "csv"; "--output"; (output_path ++ ".csv")%string; "--force-export=true"].

Definition ncu_argv (output_path target_script : string) (i : nat) : list string :=
  ["ncu"; "-o"; output_path; target_script; selector i].

(** the two lines printed before a profiler run *)
Definition run_lines (cmd : list string) (B N K : Z) : list string :=
  [("Run command: " ++ PyStr.join " " cmd)%string;
   ("Environment variables: TEST_BATCH_SIZE=" ++ PyStr.str_int B
      ++ ", TEST_VOCAB_SIZE=" ++ PyStr.str_int N
      ++ ", TEST_TOP_K=" ++ PyStr.str_int K)%string].

(** the line printed for a command that exited with a non-zero status *)
Definition failed_line (str_CalledProcessError : list string -> Z -> string)
    (output_name : string) (cmd : list string) (code : Z) : string :=
  "Task failed: " ++ output_name ++ ", error: " ++ str_CalledProcessError cmd code.

(** the exit status a call leaves in its record *)
Definition outcome_code (o : outcome) : option Z :=
  match o with
  | Exited res => Some (returncode res)
  | Raised _ => None
  end.

(** every command runs to an exit status: [subprocess.run] raises nothing
    but the [CalledProcessError] of [check=True] *)
Definition always_exits
    (exec : filesystem -> list string -> gmap string string -> outcome * filesystem)
  : Prop :=
  forall fs cmd env, exists res, fst (exec fs cmd env) = Exited res.

(** If the call [c] exited with a non-zero status, its "Task failed" line
    is among [lines], and the output name in that line is the one in the
    command of [c]: a kernel-name prefix followed by the four dimension
    values of a sweep point. *)
Definition failure_reported (str_CalledProcessError : list string -> Z -> string)
    (output_dir target_script : string) (lines : list string) (c : call) : Prop :=
  forall code, call_code c = Some code -> code <> 0%Z ->
  exists prefix B N K dtype i,
    let name := (prefix ++ dims_suffix B N K dtype)%string in
    let output_path := path_join output_dir name in
    In (failed_line str_CalledProcessError name (call_cmd c) code) lines
    /\ (call_cmd c = nsys_argv output_path target_script i
        \/ call_cmd c = stats_argv output_path
        \/ call_cmd c = ncu_argv output_path target_script i).

(** The call [c] is the profiler run of the point [p]: its command writes
    to the output name made of [prefix] and the four dimension values of
    [p], selects the data type by its position, and runs in the
    environment with the three overrides of [p]. *)
Definition attempted_at (environ : gmap string string)
    (argv : string -> nat -> list string) (output_dir prefix : string)
    (p : point) (c : call) : Prop :=
  let '(B, N, K, i, dtype) := p in
  call_cmd c = argv (path_join output_dir (prefix ++ dims_suffix B N K dtype)) i
  /\ call_env c = overrides environ B N K.

(** the value a lookup hands to its caller *)
Definition lookup_result (m : Py (option cell)) : option cell :=
  match fst m with inl v => v | inr _ => None end.

(** The lookups of the turn that starts in state [st] at a point: none
    unless the profiler and then the stats export both exit with status 0;
    then one per sub-kernel, on the files the stats export left, in the
    trace exported for the output name of the turn. *)
Definition lookups_of_turn (environ : gmap string string)
    (exec : filesystem -> list string -> gmap string string -> outcome * filesystem)
    (output_dir target_script : string) (t : sweep_state * point)
  : list (string * Py (option cell)) :=
  let '(st, (B, N, K, i, dtype)) := t in
  match uncaught st with
  | Some _ => []
  | None =>
      let path := path_join output_dir (kernel_name st ++ dims_suffix B N K dtype) in
      match exec (files st) (nsys_argv path target_script i) (overrides environ B N K) with
      | (Exited res, fs1) =>
          if (returncode res =? 0)%Z then
            match exec fs1 (stats_argv path) environ with
            | (Exited res', fs2) =>
                if (returncode res' =? 0)%Z then
                  [("topKStage1",
                    CsvParser.find_kernel_metric fs2 (trace_path path)
                      "topKStage1" "Duration" 0);
                   ("topKStage2Sampling",
                    CsvParser.find_kernel_metric fs2 (trace_path path)
                      "topKStage2Sampling" "Duration" 0)]
                else []
            | (Raised _, _) => []
            end
          else []
      | (Raised _, _) => []
      end
  end.

(** the rows of a turn: one per lookup, with the value the lookup returned *)
Definition rows_of_turn (environ : gmap string string)
    (exec : filesystem -> list string -> gmap string string -> outcome * filesystem)
    (output_dir target_script : string) (t : sweep_state * point) : list summary_row :=
  let '(_, (B, N, K, _, dtype)) := t in
  map (fun l => row_of (fst l) B N K dtype (lookup_result (snd l)))
    (lookups_of_turn environ exec output_dir target_script t).

(** ** Vocabulary of the further properties *)

(** what the single-metric lookup returns on a loaded table *)
Definition lookup_value (kernel_name metric_name : string) (df : DataFrame) : option cell :=
  match CsvParser.find_row kernel_name df with
  | Some r =>
      match CsvParser.find_col metric_name df with
      | Some (j, _) => cell_at df r j
      | None => None
      end
  | None => None
  end.

(** a table with more rows after its own *)
Definition append_rows (df : DataFrame) (more : list (list cell)) : DataFrame :=
  {| columns := columns df; rows := rows df ++ more |}.

(** what a reader's answer becomes inside the lookups *)
Definition of_load (l : load) : Py DataFrame :=
  match l with
  | Loaded df => ret df
  | LoadRaises e => raise e
  end.

(** a call of the stats export *)
Definition is_stats_call (c : call) : bool :=
  match call_cmd c with
  | tool :: _ => String.eqb tool "nsys"
  | [] => false
  end.

(** a call that ended with exit status 0 *)
Definition exited_zero (c : call) : bool :=
  match call_code c with
  | Some code => (code =? 0)%Z
  | None => false
  end.

(** a call that ended with a non-zero exit status *)
Definition exited_nonzero (c : call) : bool :=
  match call_code c with
  | Some code => negb (code =? 0)%Z
  | None => false
  end.

(** what identifies a summary row: sub-kernel and the four dimension values *)
Definition row_key (r : summary_row) : string * Z * Z * Z * string :=
  (row_kernel r, row_B r, row_N r, row_K r, row_dtype r).

(** the keys of the two rows of a point, in the order they are written *)
Definition point_keys (p : point) : list (string * Z * Z * Z * string) :=
  let '(B, N, K, _, dtype) := p in
  [("topKStage1", B, N, K, dtype); ("topKStage2Sampling", B, N, K, dtype)].

(** the output path of a call lies under [prefix] *)
Definition writes_under (prefix : string) (c : call) : Prop :=
  exists path, call_output_path c = Some path /\ PyStr.startswith path prefix = true.

(** * Facts about the embedding *)

Example str_int_ex :
  PyStr.str_int 129280 = "129280" /\ PyStr.str_int 0 = "0" /\ PyStr.str_int (-5) = "-5".
Proof. repeat split; reflexivity. Qed.

Example contains_ex :
  PyStr.contains "topKStage1" "topKStage1_kernel 43392.0 100" = true
  /\ PyStr.contains "" "" = true
  /\ PyStr.contains "x" "" = false
  /\ PyStr.lower "Duration" = "duration"
  /\ PyStr.endswith "a.xlsx" ".xlsx" = true
  /\ PyStr.endswith "xlsx" ".xlsx" = false
  /\ PyStr.join " " ["a"; "b"; "c"] = "a b c".
Proof. repeat split; reflexivity. Qed.

Example repr_list_ex :
  PyRepr.repr_list ["Kernel"; "Duration"] = "['Kernel', 'Duration']"
  /\ PyRepr.repr_str "it's" = String PyRepr.dquote ("it's" ++ String PyRepr.dquote "").
Proof. split; reflexivity. Qed.

Example scenario_run :
  CsvParser.find_kernel_metric (one_file "t.csv" scenario_df) "t.csv" "topKStage1" "duration" 0
  = (inl (Some (CFloat "43392.0")),
     ["Loaded file: t.csv";
      "Shape: 1 rows x 3 columns";
      "Columns: ['Kernel', 'Duration', 'Start']";
      "Found kernel 'topKStage1' at row 0";
      "Found metric 'duration' at column 'Duration' (index 1)";
      "Value at row 0, column 'Duration': 43392.0"]).
Proof. reflexivity. Qed.

(** ** Strings *)

Local Arguments String.append : simpl nomatch.

Section StringFacts.

Lemma append_assoc (a b c : string) : ((a ++ b) ++ c)%string = (a ++ b ++ c)%string.
Proof. induction a as [|x a IH]; simpl; [reflexivity | now rewrite IH]. Qed.

Lemma append_nil_r (a : string) : (a ++ "")%string = a.
Proof. induction a as [|x a IH]; simpl; [reflexivity | now rewrite IH]. Qed.

Lemma startswith_spec (s p : string) :
  PyStr.startswith s p = true <-> exists r, s = (p ++ r)%string.
Proof.
  revert s. induction p as [|a p IH]; intros s; simpl.
  - split; [intros _; now exists s | reflexivity].
  - destruct s as [|b s].
    + split; [discriminate | intros [r Hr]; discriminate].
    + rewrite andb_true_iff, IH. split.
      * intros [Hab [r ->]]. apply Ascii.eqb_eq in Hab as ->. now exists r.
      * intros [r [= -> ->]]. split; [apply Ascii.eqb_refl | now exists r].
Qed.

(** [in] is the substring test. *)
Lemma contains_spec (needle hay : string) :
  PyStr.contains needle hay = true <-> exists a b, hay = (a ++ needle ++ b)%string.
Proof.
  induction hay as [|c hay IH]; simpl.
  - rewrite orb_false_r, startswith_spec. split.
    + intros [r Hr]. now exists "", r.
    + intros [a [b Hab]]. destruct a; [now exists b | discriminate].
  - rewrite orb_true_iff, startswith_spec, IH. split.
    + intros [[r Hr] | [a [b Hab]]].
      * now exists "", r.
      * exists (String c a), b. simpl. now rewrite Hab.
    + intros [a [b Hab]]. destruct a as [|x a]; simpl in Hab.
      * left. now exists b.
      * right. injection Hab as -> ->. now exists a, b.
Qed.

Lemma contains_app_l (n pre s : string) :
  PyStr.contains n s = true -> PyStr.contains n (pre ++ s)%string = true.
Proof.
  rewrite !contains_spec. intros (a & b & ->). exists (pre ++ a)%string, b.
  now rewrite append_assoc.
Qed.

Lemma contains_app_r (n s post : string) :
  PyStr.contains n s = true -> PyStr.contains n (s ++ post)%string = true.
Proof.
  rewrite !contains_spec. intros (a & b & ->). exists a, (b ++ post)%string.
  now rewrite !append_assoc.
Qed.

Lemma contains_empty (hay : string) : PyStr.contains "" hay = true.
Proof. destruct hay; reflexivity. Qed.

Lemma contains_refl (s : string) : PyStr.contains s s = true.
Proof. apply contains_spec. exists "", "". simpl. now rewrite append_nil_r. Qed.

Lemma lower_upper_ascii (c : ascii) :
  PyStr.lower_ascii (PyStr.upper_ascii c) = PyStr.lower_ascii c.
Proof. destruct c as [[] [] [] [] [] [] [] []]; reflexivity. Qed.

Lemma lower_lower_ascii (c : ascii) :
  PyStr.lower_ascii (PyStr.lower_ascii c) = PyStr.lower_ascii c.
Proof. destruct c as [[] [] [] [] [] [] [] []]; reflexivity. Qed.

Lemma lower_upper (s : string) : PyStr.lower (PyStr.upper s) = PyStr.lower s.
Proof. induction s as [|c s IH]; simpl; [reflexivity | now rewrite lower_upper_ascii, IH]. Qed.

Lemma lower_lower (s : string) : PyStr.lower (PyStr.lower s) = PyStr.lower s.
Proof. induction s as [|c s IH]; simpl; [reflexivity | now rewrite lower_lower_ascii, IH]. Qed.

Lemma has_char_app (c : ascii) (a b : string) :
  PyStr.has_char c (a ++ b)%string = PyStr.has_char c a || PyStr.has_char c b.
Proof. induction a as [|x a IH]; simpl; [reflexivity | now rewrite IH, orb_assoc]. Qed.

(** Two texts that are each cut at their first [c] and agree as a whole
    agree piece by piece. *)
Lemma cut_at_char (c : ascii) (a a' r r' : string) :
  PyStr.has_char c a = false -> PyStr.has_char c a' = false ->
  (a ++ String c r)%string = (a' ++ String c r')%string -> a = a' /\ r = r'.
Proof.
  revert a'. induction a as [|x a IH]; intros [|x' a'] Ha Ha' E; simpl in *.
  - now injection E.
  - injection E as <- _. now rewrite Ascii.eqb_refl in Ha'.
  - injection E as -> _. now rewrite Ascii.eqb_refl in Ha.
  - injection E as -> E. apply orb_false_elim in Ha as [_ Ha].
    apply orb_false_elim in Ha' as [_ Ha'].
    destruct (IH a' Ha Ha' E) as [-> ->]. now split.
Qed.

Lemma append_inv_head (p a b : string) : (p ++ a)%string = (p ++ b)%string -> a = b.
Proof. induction p as [|x p IH]; simpl; [trivial | intros [= E]; auto]. Qed.

End StringFacts.

(** ** [str] of an int *)

Section StrInt.

Lemma to_int_proper (z : Z) : Z.to_int z <> Pos Nil /\ Z.to_int z <> Neg Nil.
Proof.
  destruct z as [|p|p]; simpl; split; try discriminate;
    intros [= E]; now apply (DecimalPos.Unsigned.to_uint_nonnil p).
Qed.

Lemma str_int_inj (x y : Z) : PyStr.str_int x = PyStr.str_int y -> x = y.
Proof.
  unfold PyStr.str_int. intros E.
  destruct (to_int_proper x) as [Hx1 Hx2], (to_int_proper y) as [Hy1 Hy2].
  pose proof (NilZero.isi _ Hx1 Hx2) as Ix. pose proof (NilZero.isi _ Hy1 Hy2) as Iy.
  rewrite E in Ix. rewrite Ix in Iy. injection Iy as Iy.
  now apply DecimalZ.to_int_inj.
Qed.

Lemma uint_no_underscore (d : uint) :
  PyStr.has_char "_" (NilEmpty.string_of_uint d) = false.
Proof. induction d; simpl; auto. Qed.

Lemma str_int_no_underscore (z : Z) : PyStr.has_char "_" (PyStr.str_int z) = false.
Proof.
  unfold PyStr.str_int, NilZero.string_of_int, NilZero.string_of_uint.
  destruct (Z.to_int z) as [d|d]; destruct d; simpl; auto using uint_no_underscore.
Qed.

End StrInt.

(** ** The two searches of the lookup *)

Section Searches.

Import CsvParser.

(** The row loop is a first-match search. *)
Lemma find_row_from_list_find (kn : string) (i : nat) (rs : list (list cell)) :
  find_row_from kn i rs
  = (fun p => i + fst p)
      <$> list_find (fun row => PyStr.contains kn (row_str row) = true) rs.
Proof.
  revert i. induction rs as [|row rs IH]; intros i; simpl; [reflexivity|].
  destruct (decide (PyStr.contains kn (row_str row) = true)) as [E|E].
  - rewrite E. simpl. f_equal. lia.
  - apply not_true_is_false in E. rewrite E, IH.
    destruct (list_find _ rs) as [[k x]|]; simpl; [f_equal; lia | reflexivity].
Qed.

Lemma find_row_Some (kn : string) (df : DataFrame) (r : nat) :
  find_row kn df = Some r <->
  exists row, rows df !! r = Some row /\ row_matches kn row
    /\ forall r' row', rows df !! r' = Some row' -> r' < r -> ~ row_matches kn row'.
Proof.
  unfold find_row, row_matches. rewrite find_row_from_list_find. split.
  - destruct (list_find _ _) as [[k row]|] eqn:E; simpl; [|discriminate].
    intros [= <-]. apply list_find_Some in E. now exists row.
  - intros (row & H).
    assert (list_find (fun row => PyStr.contains kn (row_str row) = true) (rows df)
            = Some (r, row)) as -> by (apply list_find_Some; exact H).
    reflexivity.
Qed.

Lemma find_row_None (kn : string) (df : DataFrame) :
  find_row kn df = None <-> Forall (fun row => ~ row_matches kn row) (rows df).
Proof.
  unfold find_row. rewrite find_row_from_list_find, fmap_None. apply list_find_None.
Qed.

(** The column loop is a first-match search too. *)
Lemma find_col_from_list_find (m : string) (i : nat) (cols : list string) :
  find_col_from m i cols
  = (fun p => (i + fst p, snd p))
      <$> list_find (fun c => PyStr.contains m (PyStr.lower c) = true) cols.
Proof.
  revert i. induction cols as [|c cols IH]; intros i; simpl; [reflexivity|].
  destruct (decide (PyStr.contains m (PyStr.lower c) = true)) as [E|E].
  - rewrite E. simpl. do 2 f_equal. lia.
  - apply not_true_is_false in E. rewrite E, IH.
    destruct (list_find _ cols) as [[k x]|]; simpl; [do 2 f_equal; lia | reflexivity].
Qed.

Lemma find_col_Some (mn : string) (df : DataFrame) (j : nat) (c : string) :
  find_col mn df = Some (j, c) <->
  columns df !! j = Some c /\ col_matches mn c
    /\ forall j' c', columns df !! j' = Some c' -> j' < j -> ~ col_matches mn c'.
Proof.
  unfold find_col, col_matches. rewrite find_col_from_list_find. split.
  - destruct (list_find _ _) as [[k x]|] eqn:E; simpl; [|discriminate].
    intros [= <- <-]. now apply list_find_Some in E.
  - intros H.
    assert (list_find (fun c => PyStr.contains (PyStr.lower mn) (PyStr.lower c) = true)
              (columns df) = Some (j, c)) as -> by (apply list_find_Some; exact H).
    reflexivity.
Qed.

Lemma find_col_None (mn : string) (df : DataFrame) :
  find_col mn df = None <-> Forall (fun c => ~ col_matches mn c) (columns df).
Proof.
  unfold find_col, col_matches. rewrite find_col_from_list_find, fmap_None.
  apply list_find_None.
Qed.

(** Only the lower-cased metric name reaches the column search. *)
Lemma find_col_lower (m1 m2 : string) (df : DataFrame) :
  PyStr.lower m1 = PyStr.lower m2 -> find_col m1 df = find_col m2 df.
Proof. unfold find_col. now intros ->. Qed.

Lemma label_index_Some (c : string) (cols : list string) (j : nat) :
  label_index c cols = Some j <->
  cols !! j = Some c /\ forall j', j' < j -> cols !! j' <> Some c.
Proof.
  revert j. induction cols as [|x cols IH]; intros j; simpl.
  - split; [discriminate | intros [H _]; discriminate].
  - destruct (String.eqb_spec x c) as [->|Hne].
    + split.
      * intros [= <-]. split; [reflexivity | lia].
      * intros [H1 H2]. destruct j as [|j]; [reflexivity|].
        exfalso. apply (H2 0); [lia | reflexivity].
    + destruct j as [|j]; simpl.
      * split; [destruct (label_index c cols); discriminate | intros [[= ?] _]; congruence].
      * assert (S <$> label_index c cols = Some (S j) <-> label_index c cols = Some j) as ->
          by (destruct (label_index c cols); simpl; split; congruence).
        rewrite IH. split; intros [H1 H2]; split; auto.
        -- intros [|j'] Hj; simpl; [congruence | apply H2; lia].
        -- intros j' Hj. apply (H2 (S j')). lia.
Qed.

(** The label that the column search returns is looked up at the very
    column the search stopped at. *)
Lemma find_col_label_index (mn : string) (df : DataFrame) (j : nat) (c : string) :
  find_col mn df = Some (j, c) -> label_index c (columns df) = Some j.
Proof.
  intros (H1 & H2 & H3)%find_col_Some. apply label_index_Some. split; [assumption|].
  intros j' Hj E. now apply (H3 j' c).
Qed.

End Searches.

(** ** The single-metric lookup, path by path *)

Section SingleLookup.

Import CsvParser.

Variable fs : filesystem.
Variables file_path kernel_name metric_name : string.
Variable header_row : Z.

Lemma read_table_cases :
  (exists df, read_table fs file_path header_row = ret df)
  \/ (exists e, read_table fs file_path header_row = raise e).
Proof.
  unfold read_table.
  destruct (if _ : bool then _ else _) as [df|e]; [left; now exists df | right; now exists e].
Qed.

Lemma lookup_load_raises (e : exn) :
  read_table fs file_path header_row = raise e ->
  find_kernel_metric fs file_path kernel_name metric_name header_row
  = (inl None,
     [match e with
      | FileNotFoundError _ => missing_file_error file_path
      | OtherError m => processing_error m
      end]).
Proof. intros H. unfold find_kernel_metric. rewrite H. now destruct e. Qed.

Lemma lookup_no_row (df : DataFrame) :
  read_table fs file_path header_row = ret df ->
  find_row kernel_name df = None ->
  find_kernel_metric fs file_path kernel_name metric_name header_row
  = (inl None, loaded_lines file_path df ++ [kernel_warning kernel_name]).
Proof. intros H1 H2. unfold find_kernel_metric. now rewrite H1; simpl; rewrite H2. Qed.

Lemma lookup_no_col (df : DataFrame) (r : nat) :
  read_table fs file_path header_row = ret df ->
  find_row kernel_name df = Some r ->
  find_col metric_name df = None ->
  find_kernel_metric fs file_path kernel_name metric_name header_row
  = (inl None,
     loaded_lines file_path df
       ++ [("Found kernel '" ++ kernel_name ++ "' at row " ++ nat_str r)%string;
           metric_warning metric_name]).
Proof.
  intros H1 H2 H3. unfold find_kernel_metric. now rewrite H1; simpl; rewrite H2; simpl; rewrite H3.
Qed.

Lemma loc_cell (df : DataFrame) (r j : nat) (c : string) (v : cell) :
  label_index c (columns df) = Some j -> cell_at df r j = Some v ->
  loc df r c = ret v.
Proof.
  unfold loc, cell_at. intros -> H. destruct (rows df !! r) as [row|]; simpl in H; [|discriminate].
  now rewrite H.
Qed.

Lemma loc_inv (df : DataFrame) (r : nat) (c : string) (v : cell) (o : list string) :
  loc df r c = (inl v, o) ->
  exists j, label_index c (columns df) = Some j /\ cell_at df r j = Some v.
Proof.
  unfold loc, cell_at. destruct (rows df !! r) as [row|]; simpl; [|discriminate].
  destruct (label_index c (columns df)) as [j|]; [|discriminate].
  destruct (row !! j) as [w|] eqn:E; [|discriminate].
  intros [= <- _]. now exists j.
Qed.

Lemma lookup_found (df : DataFrame) (r j : nat) (c : string) (v : cell) :
  read_table fs file_path header_row = ret df ->
  find_row kernel_name df = Some r ->
  find_col metric_name df = Some (j, c) ->
  cell_at df r j = Some v ->
  find_kernel_metric fs file_path kernel_name metric_name header_row
  = (inl (Some v),
     loaded_lines file_path df
       ++ [("Found kernel '" ++ kernel_name ++ "' at row " ++ nat_str r)%string;
           ("Found metric '" ++ metric_name ++ "' at column '" ++ c
              ++ "' (index " ++ nat_str j ++ ")")%string;
           ("Value at row " ++ nat_str r ++ ", column '" ++ c ++ "': " ++ str_cell v)%string]).
Proof.
  intros H1 H2 H3 H4. unfold find_kernel_metric.
  rewrite H1; simpl; rewrite H2; simpl; rewrite H3; simpl.
  now rewrite (loc_cell df r j c v (find_col_label_index _ _ _ _ H3) H4).
Qed.

(** Every exception of the body meets a handler. *)
Lemma lookup_returns :
  exists v lines,
    find_kernel_metric fs file_path kernel_name metric_name header_row = (inl v, lines).
Proof.
  destruct read_table_cases as [[df H]|[e H]].
  - unfold find_kernel_metric. rewrite H; simpl.
    destruct (find_row kernel_name df) as [r|]; simpl; [|eauto].
    destruct (find_col metric_name df) as [[j c]|]; simpl; [|eauto].
    destruct (loc df r c) as [[v|[m|m]] o]; simpl; eauto.
  - rewrite (lookup_load_raises e H). eauto.
Qed.

(** A value that comes back is one cell of the loaded table: the one at the
    first matching row and the first matching column. *)
Lemma lookup_Some_inv (v : cell) (lines : list string) :
  find_kernel_metric fs file_path kernel_name metric_name header_row = (inl (Some v), lines) ->
  exists df r j c,
    read_table fs file_path header_row = ret df
    /\ find_row kernel_name df = Some r
    /\ find_col metric_name df = Some (j, c)
    /\ cell_at df r j = Some v.
Proof.
  destruct read_table_cases as [[df H]|[e H]].
  - unfold find_kernel_metric. rewrite H; simpl.
    destruct (find_row kernel_name df) as [r|] eqn:Er; simpl; [|discriminate].
    destruct (find_col metric_name df) as [[j c]|] eqn:Ec; simpl; [|discriminate].
    destruct (loc df r c) as [[w|[m|m]] o] eqn:El; simpl; try discriminate.
    intros [= -> _]. exists df, r, j, c. repeat split; auto.
    destruct (loc_inv _ _ _ _ _ El) as (j' & Hj & Hc).
    rewrite (find_col_label_index _ _ _ _ Ec) in Hj. now injection Hj as ->.
  - rewrite (lookup_load_raises e H). discriminate.
Qed.

(** A lookup that comes back empty-handed has said why. *)
Lemma lookup_None_diagnostic (lines : list string) :
  find_kernel_metric fs file_path kernel_name metric_name header_row = (inl None, lines) ->
  exists line, last lines = Some line /\ is_diagnostic line = true.
Proof.
  destruct read_table_cases as [[df H]|[e H]].
  - unfold find_kernel_metric. rewrite H; simpl.
    destruct (find_row kernel_name df) as [r|] eqn:Er; simpl.
    2:{ intros [= <-]. eexists; split; reflexivity. }
    destruct (find_col metric_name df) as [[j c]|] eqn:Ec; simpl.
    2:{ intros [= <-]. eexists; split; reflexivity. }
    destruct (loc df r c) as [[w|[m|m]] o] eqn:El; simpl; try discriminate.
    + unfold loc in El. destruct (rows df !! r); [|discriminate].
      destruct (label_index c (columns df)); [|discriminate].
      destruct (_ !! _); discriminate.
    + unfold loc in El.
      assert (o = []) as ->.
      { destruct (rows df !! r); [|now injection El].
        destruct (label_index c (columns df)); [|now injection El].
        destruct (_ !! _); now injection El. }
      intros [= <-]. eexists; split; reflexivity.
  - rewrite (lookup_load_raises e H). intros [= <-].
    destruct e; eexists; split; reflexivity.
Qed.

End SingleLookup.

(** ** Claims about the single-metric lookup *)

(** C1. On the table with header row ["Kernel","Duration","Start"] and the
    one data row ["topKStage1_kernel", 43392.0, 100], wherever it is loaded
    from, the lookup of row substring "topKStage1" and metric substring
    "duration" returns the float 43392.0, the cell of the matched row 0 in
    the column "Duration". *)
Theorem C1_scenario_lookup (fs : filesystem) (file_path : string) (header_row : Z) :
  CsvParser.read_table fs file_path header_row = ret scenario_df ->
  fst (CsvParser.find_kernel_metric fs file_path "topKStage1" "duration" header_row)
    = inl (Some (CFloat "43392.0"))
  /\ CsvParser.find_row "topKStage1" scenario_df = Some 0
  /\ CsvParser.find_col "duration" scenario_df = Some (1, "Duration")
  /\ cell_at scenario_df 0 1 = Some (CFloat "43392.0").
Proof.
  intros H. split; [|repeat split; reflexivity].
  now rewrite (lookup_found fs file_path "topKStage1" "duration" header_row
                 scenario_df 0 1 "Duration" (CFloat "43392.0") H).
Qed.

Lemma C1_scenario_lookup_witness :
  fst (CsvParser.find_kernel_metric (one_file "trace.csv" scenario_df) "trace.csv"
         "topKStage1" "duration" 0)
  = inl (Some (CFloat "43392.0")).
Proof.
  apply (C1_scenario_lookup (one_file "trace.csv" scenario_df) "trace.csv" 0).
  reflexivity.
Defined.

(** C2. If no row of the loaded table has the row substring in its
    space-joined text, the lookup returns None, whatever the metric
    substring: it comes back normally, having printed the warning that names
    the kernel. *)
Theorem C2_no_matching_row (fs : filesystem) (file_path kernel_name metric_name : string)
    (header_row : Z) (df : DataFrame) :
  CsvParser.read_table fs file_path header_row = ret df ->
  Forall (fun row => PyStr.contains kernel_name (PyStr.join " " (map str_cell row)) = false)
    (rows df) ->
  CsvParser.find_kernel_metric fs file_path kernel_name metric_name header_row
  = (inl None, loaded_lines file_path df ++ [kernel_warning kernel_name]).
Proof.
  intros Hload Hrows. apply lookup_no_row; [assumption|].
  apply find_row_None. eapply Forall_impl; [exact Hrows|].
  intros row Hrow. unfold row_matches, CsvParser.row_str. now rewrite Hrow.
Qed.

Lemma C2_no_matching_row_witness :
  CsvParser.find_kernel_metric (one_file "trace.csv" scenario_df) "trace.csv"
    "missingKernel" "duration" 0
  = (inl None,
     ["Loaded file: trace.csv"; "Shape: 1 rows x 3 columns";
      "Columns: ['Kernel', 'Duration', 'Start']";
      "Warning: Kernel 'missingKernel' not found in file"]).
Proof.
  apply (C2_no_matching_row (one_file "trace.csv" scenario_df) "trace.csv"
           "missingKernel" "duration" 0 scenario_df).
  - reflexivity.
  - repeat constructor.
Defined.

(** C3. The column search is a case-insensitive substring search over the
    header texts that stops at the first match in column order: it returns
    position and label of the first header whose lower-cased text contains
    the lower-cased metric substring, the case of the letters of the metric
    substring and of the headers changes nothing, the header "Duration" is
    matched by "duration", "DURATION" and "Dur" (and selected by each, when
    no header before it contains "dur"), and when no header matches the
    lookup returns None. *)
Theorem C3_column_search :
  (forall mn df j c,
      CsvParser.find_col mn df = Some (j, c) <->
      columns df !! j = Some c /\ col_matches mn c
      /\ forall j' c', columns df !! j' = Some c' -> j' < j -> ~ col_matches mn c')
  /\ (forall mn df,
      CsvParser.find_col mn df = None <-> Forall (fun c => ~ col_matches mn c) (columns df))
  /\ (forall mn c,
      col_matches mn c <->
      exists a b, PyStr.lower c = (a ++ PyStr.lower mn ++ b)%string)
  /\ (forall mn df,
      CsvParser.find_col (PyStr.upper mn) df = CsvParser.find_col mn df
      /\ CsvParser.find_col (PyStr.lower mn) df = CsvParser.find_col mn df)
  /\ (forall mn c,
      (col_matches mn (PyStr.upper c) <-> col_matches mn c)
      /\ (col_matches mn (PyStr.lower c) <-> col_matches mn c))
  /\ (col_matches "duration" "Duration" /\ col_matches "DURATION" "Duration"
      /\ col_matches "Dur" "Duration")
  /\ (forall before after,
      Forall (fun c => ~ col_matches "Dur" c) before ->
      let df := {| columns := before ++ "Duration" :: after; rows := [] |} in
      CsvParser.find_col "duration" df = Some (length before, "Duration")
      /\ CsvParser.find_col "DURATION" df = Some (length before, "Duration")
      /\ CsvParser.find_col "Dur" df = Some (length before, "Duration"))
  /\ (forall fs file_path kn mn header_row df,
      CsvParser.read_table fs file_path header_row = ret df ->
      CsvParser.find_col mn df = None ->
      fst (CsvParser.find_kernel_metric fs file_path kn mn header_row) = inl None)
  /\ (forall fs file_path kn mn header_row df r j c v,
      CsvParser.read_table fs file_path header_row = ret df ->
      CsvParser.find_row kn df = Some r ->
      CsvParser.find_col mn df = Some (j, c) ->
      cell_at df r j = Some v ->
      fst (CsvParser.find_kernel_metric fs file_path kn mn header_row) = inl (Some v)).
Proof.
  split; [exact find_col_Some|]. split; [exact find_col_None|].
  split; [intros mn c; apply contains_spec|].
  split.
  { intros mn df. split; apply find_col_lower; [apply lower_upper | apply lower_lower]. }
  split.
  { intros mn c. unfold col_matches. now rewrite lower_upper, lower_lower. }
  split; [repeat split; reflexivity|].
  split.
  { intros before after Hb df.
    assert (forall mn, PyStr.lower mn = "duration" \/ PyStr.lower mn = "dur" ->
              CsvParser.find_col mn df = Some (length before, "Duration")) as K.
    { intros mn Hmn. apply find_col_Some. split; [|split].
      - subst df; simpl. now rewrite list_lookup_middle.
      - unfold col_matches. destruct Hmn as [-> | ->]; reflexivity.
      - intros j' c' Hc' Hj'. subst df; simpl in Hc'.
        rewrite lookup_app_l in Hc' by assumption.
        rewrite Forall_lookup in Hb. specialize (Hb j' c' Hc').
        unfold col_matches in *. destruct Hmn as [-> | ->]; [|exact Hb].
        intros Hdur. apply Hb. apply contains_spec in Hdur as (a & b & E).
        apply contains_spec. exists a, ("ation" ++ b)%string. rewrite E.
        reflexivity. }
    repeat split; apply K; auto. }
  split.
  { intros fs file_path kn mn header_row df Hload Hcol.
    destruct (CsvParser.find_row kn df) as [r|] eqn:Er.
    - now rewrite (lookup_no_col fs file_path kn mn header_row df r).
    - now rewrite (lookup_no_row fs file_path kn mn header_row df). }
  intros fs file_path kn mn header_row df r j c v Hload Hr Hc Hv.
  now rewrite (lookup_found fs file_path kn mn header_row df r j c v).
Qed.

Lemma C3_column_search_witness :
  CsvParser.find_col "Dur" scenario_df = Some (1, "Duration")
  /\ fst (CsvParser.find_kernel_metric (one_file "trace.csv" scenario_df) "trace.csv"
            "topKStage1" "DURATION" 0) = inl (Some (CFloat "43392.0"))
  /\ fst (CsvParser.find_kernel_metric (one_file "trace.csv" scenario_df) "trace.csv"
            "topKStage1" "Throughput" 0) = inl None.
Proof.
  destruct C3_column_search as (_ & _ & _ & _ & _ & _ & Hdur & Hnone & Hsome).
  split; [|split].
  - apply (Hdur ["Kernel"] ["Start"]). repeat constructor. discriminate.
  - apply (Hsome _ _ _ _ _ scenario_df 0 1 "Duration"); reflexivity.
  - apply (Hnone _ _ _ _ _ scenario_df); reflexivity.
Defined.

(** ** The batch lookup *)

Section BatchLookup.

Import CsvParser.

Lemma cell_at_rectangular (df : DataFrame) (r j : nat) :
  rectangular df -> r < length (rows df) -> j < length (columns df) ->
  is_Some (cell_at df r j).
Proof.
  intros Hrect Hr Hj. unfold cell_at.
  destruct (lookup_lt_is_Some_2 _ _ Hr) as [row Hrow]. rewrite Hrow; simpl.
  apply lookup_lt_is_Some_2. unfold rectangular in Hrect.
  rewrite Forall_lookup in Hrect. now rewrite (Hrect r row Hrow).
Qed.

Lemma find_row_lt (kn : string) (df : DataFrame) (r : nat) :
  find_row kn df = Some r -> r < length (rows df).
Proof. intros (row & H & _)%find_row_Some. eapply lookup_lt_Some, H. Qed.

Lemma find_col_lt (mn : string) (df : DataFrame) (j : nat) (c : string) :
  find_col mn df = Some (j, c) -> j < length (columns df).
Proof. intros (H & _)%find_col_Some. eapply lookup_lt_Some, H. Qed.

Lemma find_metrics_spec (df : DataFrame) (r : nat) (ms : list string)
    (results : gmap string cell) :
  rectangular df -> r < length (rows df) ->
  exists results',
    find_metrics df r ms results = (results', None)
    /\ forall m, results' !! m
                 = if decide (m ∈ ms /\ is_Some (find_col m df))
                   then metric_cell df r m else results !! m.
Proof.
  intros Hrect Hr. revert results. induction ms as [|m0 ms IH]; intros results.
  - exists results. split; [reflexivity|]. intros m.
    case_decide as H; [|reflexivity]. destruct H as [H _]. inversion H.
  - cbn [find_metrics]. destruct (find_col m0 df) as [[j c]|] eqn:Ec.
    + destruct (cell_at_rectangular df r j Hrect Hr (find_col_lt _ _ _ _ Ec)) as [v Hv].
      rewrite (loc_cell df r j c v (find_col_label_index _ _ _ _ Ec) Hv). cbn [fst ret].
      destruct (IH (<[m0 := v]> results)) as (res' & E & Hres').
      exists res'. split; [exact E|]. intros m. rewrite Hres'.
      repeat case_decide; try reflexivity.
      * exfalso. match goal with H : ~ _ |- _ => apply H end.
        split; [right|]; tauto.
      * destruct (decide (m = m0)) as [->|Hne].
        -- rewrite lookup_insert_eq. unfold metric_cell. now rewrite Ec.
        -- exfalso. match goal with H : ~ (m ∈ ms /\ _) |- _ => apply H end.
           match goal with H : m ∈ m0 :: ms /\ _ |- _ => destruct H as [Hin Hs] end.
           split; [|assumption].
           apply elem_of_cons in Hin as [?|?]; [congruence | assumption].
      * destruct (decide (m = m0)) as [->|Hne].
        -- exfalso. match goal with H : ~ (m0 ∈ m0 :: ms /\ _) |- _ => apply H end.
           split; [now left | rewrite Ec; eauto].
        -- now rewrite lookup_insert_ne by congruence.
    + destruct (IH results) as (res' & E & Hres').
      exists res'. split; [exact E|]. intros m. rewrite Hres'.
      repeat case_decide; try reflexivity.
      * exfalso. match goal with H : ~ _ |- _ => apply H end.
        split; [right|]; tauto.
      * exfalso. match goal with H : ~ (m ∈ ms /\ _) |- _ => apply H end.
        match goal with H : m ∈ m0 :: ms /\ _ |- _ => destruct H as [Hin Hs] end.
        split; [|assumption].
        apply elem_of_cons in Hin as [->|?]; [|assumption].
        rewrite Ec in Hs. now destruct Hs.
Qed.

Lemma loc_no_cell (df : DataFrame) (r j : nat) (c : string) :
  label_index c (columns df) = Some j -> r < length (rows df) -> cell_at df r j = None ->
  loc df r c = raise (OtherError (PyRepr.repr_str c)).
Proof.
  unfold loc, cell_at. intros -> Hr H.
  destruct (lookup_lt_is_Some_2 _ _ Hr) as [row Hrow]. rewrite Hrow in *. simpl in H.
  now rewrite H.
Qed.

(** The loop over the metric names, one part of the list after the other. *)
Lemma find_metrics_app (df : DataFrame) (r : nat) (pre rest : list string)
    (results : gmap string cell) :
  find_metrics df r (pre ++ rest) results
  = match find_metrics df r pre results with
    | (results', None) => find_metrics df r rest results'
    | (results', Some e) => (results', Some e)
    end.
Proof.
  revert results. induction pre as [|m pre IH]; intros results; [reflexivity|].
  cbn [app find_metrics]. destruct (find_col m df) as [[j c]|]; [|apply IH].
  destruct (fst (loc df r c)); [apply IH | reflexivity].
Qed.

(** As long as every cell that is asked for is there, the loop ends normally. *)
Lemma find_metrics_no_error (df : DataFrame) (r : nat) (ms : list string)
    (results : gmap string cell) :
  (forall m j c, In m ms -> find_col m df = Some (j, c) -> is_Some (cell_at df r j)) ->
  exists results', find_metrics df r ms results = (results', None).
Proof.
  revert results. induction ms as [|m ms IH]; intros results Hcells; [now exists results|].
  cbn [find_metrics]. destruct (find_col m df) as [[j c]|] eqn:Ec.
  - destruct (Hcells m j c (or_introl eq_refl) Ec) as [v Hv].
    rewrite (loc_cell df r j c v (find_col_label_index _ _ _ _ Ec) Hv). cbn [fst ret].
    apply IH. intros m' j' c' Hin. apply Hcells. now right.
  - apply IH. intros m' j' c' Hin. apply Hcells. now right.
Qed.

(** The batch lookup has a handler for every exception as well. *)
Lemma batch_returns (fs : filesystem) (file_path kernel_name : string)
    (metric_names : list string) (header_row : Z) :
  exists results lines,
    find_all_kernel_metrics fs file_path kernel_name metric_names header_row
    = (inl results, lines).
Proof.
  unfold find_all_kernel_metrics.
  destruct (read_table fs file_path header_row) as [[df|e] o]; [|eauto].
  destruct (find_row kernel_name df) as [r|]; [|eauto].
  destruct (find_metrics df r metric_names ∅) as [res [e|]]; eauto.
Qed.

End BatchLookup.

(** ** Claims about the batch lookup and about failures *)

(** The batch lookup once the table is loaded and the row search has found
    a row. *)
Lemma batch_lookup_found_row (fs : filesystem) (file_path kernel_name : string)
    (metric_names : list string) (header_row : Z) (df : DataFrame) (r : nat) :
  CsvParser.read_table fs file_path header_row = ret df ->
  rectangular df ->
  CsvParser.find_row kernel_name df = Some r ->
  exists results,
    CsvParser.find_all_kernel_metrics fs file_path kernel_name metric_names header_row
      = (inl results, [])
    /\ results = fst (CsvParser.find_metrics df r metric_names ∅)
    /\ (forall m, is_Some (results !! m) <->
                  m ∈ metric_names /\ exists c, c ∈ columns df /\ col_matches m c)
    /\ (forall m j c, m ∈ metric_names -> CsvParser.find_col m df = Some (j, c) ->
                      results !! m = cell_at df r j /\ is_Some (cell_at df r j))
    /\ (forall m, m ∈ metric_names -> CsvParser.find_col m df = None -> results !! m = None)
    /\ (forall m, m ∈ metric_names ->
                  fst (CsvParser.find_kernel_metric fs file_path kernel_name m header_row)
                  = inl (results !! m)).
Proof.
  intros Hload Hrect Hrow. pose proof (find_row_lt _ _ _ Hrow) as Hr.
  destruct (find_metrics_spec df r metric_names ∅ Hrect Hr) as (results & E & Hres).
  exists results.
  assert (forall m j c, m ∈ metric_names -> CsvParser.find_col m df = Some (j, c) ->
            results !! m = cell_at df r j /\ is_Some (cell_at df r j)) as Hfound.
  { intros m j c Hin Hc. rewrite Hres, decide_True by (rewrite Hc; eauto).
    unfold metric_cell. rewrite Hc. split; [reflexivity|].
    apply cell_at_rectangular; eauto using find_col_lt. }
  assert (forall m, m ∈ metric_names -> CsvParser.find_col m df = None ->
            results !! m = None) as Hmissing.
  { intros m Hin Hc. rewrite Hres, decide_False; [apply lookup_empty|].
    rewrite Hc. intros [_ [x Hx]]. discriminate. }
  split; [|split; [|split; [|split; [|split]]]]; auto.
  - unfold CsvParser.find_all_kernel_metrics. rewrite Hload. unfold ret at 1.
    now rewrite Hrow, E.
  - now rewrite E.
  - intros m. rewrite Hres. case_decide as Hd.
    + destruct Hd as [Hin [[j c] Hc]]. unfold metric_cell. rewrite Hc. split.
      * intros _. split; [assumption|]. apply find_col_Some in Hc as (H1 & H2 & _).
        exists c. split; [eapply list_elem_of_lookup_2, H1 | exact H2].
      * intros _. apply cell_at_rectangular; eauto using find_col_lt.
    + rewrite lookup_empty. split; [intros [x Hx]; discriminate|].
      intros [Hin (c & Hc & Hm)]. exfalso. apply Hd. split; [assumption|].
      destruct (CsvParser.find_col m df) as [p|] eqn:Ec; [eauto|].
      apply find_col_None in Ec. rewrite Forall_forall in Ec. now destruct (Ec c Hc).
  - intros m Hin. destruct (CsvParser.find_col m df) as [[j c]|] eqn:Ec.
    + destruct (Hfound m j c Hin Ec) as [-> [v Hv]]. rewrite Hv.
      now rewrite (lookup_found fs file_path kernel_name m header_row df r j c v).
    + rewrite (Hmissing m Hin Ec).
      now rewrite (lookup_no_col fs file_path kernel_name m header_row df r).
Qed.

(** C5 as stated fails. The requested metric "Duration" matches a header,
    but no row matches "missingKernel": the result mapping is empty and no
    column search is made. *)
Lemma C5_counterexample :
  CsvParser.find_all_kernel_metrics (one_file "trace.csv" scenario_df) "trace.csv"
    "missingKernel" ["Duration"] 0
  = (inl ∅, ["Warning: Kernel 'missingKernel' not found"])
  /\ CsvParser.find_col "Duration" scenario_df = Some (1, "Duration")
  /\ CsvParser.find_row "missingKernel" scenario_df = None.
Proof. repeat split; reflexivity. Qed.

(** C5, amended. The batch lookup loads the table once and runs the row
    search once. When the search finds a row, only a column search is run
    for each requested metric, on that one table and that one row: nothing
    is printed, the result has an entry for exactly the requested metrics
    that match some header, each entry is the cell of the found row in the
    first matching column, which is what the single-metric lookup returns
    for that metric, and a requested metric that matches no header has no
    entry. When no row matches, the result is empty and a warning is
    printed. *)
Theorem C5_batch_lookup (fs : filesystem) (file_path kernel_name : string)
    (metric_names : list string) (header_row : Z) (df : DataFrame) :
  CsvParser.read_table fs file_path header_row = ret df ->
  rectangular df ->
  match CsvParser.find_row kernel_name df with
  | Some r =>
      exists results,
        CsvParser.find_all_kernel_metrics fs file_path kernel_name metric_names header_row
          = (inl results, [])
        /\ results = fst (CsvParser.find_metrics df r metric_names ∅)
        /\ (forall m, is_Some (results !! m) <->
                      m ∈ metric_names /\ exists c, c ∈ columns df /\ col_matches m c)
        /\ (forall m j c, m ∈ metric_names -> CsvParser.find_col m df = Some (j, c) ->
                          results !! m = cell_at df r j /\ is_Some (cell_at df r j))
        /\ (forall m, m ∈ metric_names -> CsvParser.find_col m df = None ->
                      results !! m = None)
        /\ (forall m, m ∈ metric_names ->
                      fst (CsvParser.find_kernel_metric fs file_path kernel_name m header_row)
                      = inl (results !! m))
  | None =>
      CsvParser.find_all_kernel_metrics fs file_path kernel_name metric_names header_row
      = (inl ∅, [batch_kernel_warning kernel_name])
  end.
Proof.
  intros Hload Hrect. destruct (CsvParser.find_row kernel_name df) as [r|] eqn:Hrow.
  - now apply batch_lookup_found_row.
  - unfold CsvParser.find_all_kernel_metrics. rewrite Hload. unfold ret at 1.
    now rewrite Hrow.
Qed.

Lemma C5_batch_lookup_witness :
  exists results,
    CsvParser.find_all_kernel_metrics (one_file "trace.csv" scenario_df) "trace.csv"
      "topKStage1" ["Duration"; "Throughput"; "start"] 0 = (inl results, [])
    /\ results !! "Duration" = Some (CFloat "43392.0")
    /\ results !! "start" = Some (CInt 100)
    /\ results !! "Throughput" = None.
Proof.
  assert (rectangular scenario_df) as Hrect by (repeat constructor).
  pose proof (C5_batch_lookup (one_file "trace.csv" scenario_df) "trace.csv" "topKStage1"
                ["Duration"; "Throughput"; "start"] 0 scenario_df eq_refl Hrect) as H.
  change (CsvParser.find_row "topKStage1" scenario_df) with (Some 0) in H.
  destruct H as (results & E & _ & _ & Hfound & Hmissing & _).
  exists results. split; [exact E|]. split; [|split].
  - apply (Hfound "Duration" 1 "Duration"); [repeat constructor | reflexivity].
  - apply (Hfound "start" 2 "Start"); [repeat constructor | reflexivity].
  - apply Hmissing; [repeat constructor | reflexivity].
Defined.

(** C6. Both lookups meet every exception with a handler and come back
    normally. When the file is missing, the single-metric lookup returns None
    and prints "Error: File '<path>' not found", a line that is neither the
    warning for a row that is not found nor the one for a column that is not
    found; any other exception, raised while loading or later in the body,
    gives None and "Error processing file: <message>". The batch lookup
    prints "Error: <message>", which is not its warning for a row that is
    not found, and returns the results gathered so far: none when loading
    fails, and when [df.loc] raises at a requested metric, the results of the
    metrics requested before it. *)
Theorem C6_failures_are_caught :
  (forall fs file_path kn mn header_row,
      match CsvParser.read_table fs file_path header_row with
      | (inr (FileNotFoundError _), _) =>
          CsvParser.find_kernel_metric fs file_path kn mn header_row
          = (inl None, [missing_file_error file_path])
      | (inr (OtherError msg), _) =>
          CsvParser.find_kernel_metric fs file_path kn mn header_row
          = (inl None, [processing_error msg])
      | (inl df, _) =>
          exists v lines,
            CsvParser.find_kernel_metric fs file_path kn mn header_row = (inl v, lines)
            /\ match CsvParser.find_row kn df, CsvParser.find_col mn df with
               | Some r, Some (_, c) =>
                   match fst (CsvParser.loc df r c) with
                   | inl cell => v = Some cell
                   | inr e => v = None /\ last lines = Some (processing_error (str_exn e))
                   end
               | _, _ => v = None
               end
      end)
  /\ (forall fs file_path kn mns header_row,
      match CsvParser.read_table fs file_path header_row with
      | (inr e, _) =>
          CsvParser.find_all_kernel_metrics fs file_path kn mns header_row
          = (inl ∅, [batch_error (str_exn e)])
      | (inl df, _) =>
          (exists results lines,
              CsvParser.find_all_kernel_metrics fs file_path kn mns header_row
              = (inl results, lines))
          /\ match CsvParser.find_row kn df with
             | None =>
                 CsvParser.find_all_kernel_metrics fs file_path kn mns header_row
                 = (inl ∅, [batch_kernel_warning kn])
             | Some r =>
                 ((forall m j c, In m mns -> CsvParser.find_col m df = Some (j, c) ->
                                 is_Some (cell_at df r j)) ->
                  exists results,
                    CsvParser.find_all_kernel_metrics fs file_path kn mns header_row
                    = (inl results, []))
                 /\ (forall pre m post j c,
                       mns = pre ++ m :: post ->
                       (forall m' j' c', In m' pre ->
                          CsvParser.find_col m' df = Some (j', c') ->
                          is_Some (cell_at df r j')) ->
                       CsvParser.find_col m df = Some (j, c) ->
                       cell_at df r j = None ->
                       exists results,
                         CsvParser.find_all_kernel_metrics fs file_path kn pre header_row
                         = (inl results, [])
                         /\ CsvParser.find_all_kernel_metrics fs file_path kn mns header_row
                            = (inl results, [batch_error (PyRepr.repr_str c)]))
             end
      end)
  /\ (forall file_path kn mn msg,
      missing_file_error file_path <> kernel_warning kn
      /\ missing_file_error file_path <> metric_warning mn
      /\ missing_file_error file_path <> processing_error msg
      /\ processing_error msg <> kernel_warning kn
      /\ processing_error msg <> metric_warning mn
      /\ batch_error msg <> batch_kernel_warning kn).
Proof.
  split; [|split].
  - intros fs file_path kn mn header_row.
    destruct (CsvParser.read_table fs file_path header_row) as [[df|e] o] eqn:Hload.
    + assert (o = []) as ->.
      { unfold CsvParser.read_table in Hload.
        destruct (if _ : bool then _ else _); now injection Hload. }
      destruct (CsvParser.find_row kn df) as [r|] eqn:Er.
      2:{ rewrite (lookup_no_row _ _ _ _ _ df Hload Er). eauto. }
      destruct (CsvParser.find_col mn df) as [[j c]|] eqn:Ec.
      2:{ rewrite (lookup_no_col _ _ _ _ _ df r Hload Er Ec). eauto. }
      unfold CsvParser.find_kernel_metric. rewrite Hload; simpl. rewrite Er; simpl.
      rewrite Ec; simpl.
      destruct (CsvParser.loc df r c) as [[cell|e] o'] eqn:El; simpl.
      * eauto.
      * assert (o' = []) as ->.
        { unfold CsvParser.loc in El. destruct (rows df !! r); [|now injection El].
          destruct (CsvParser.label_index c (columns df)); [|now injection El].
          destruct (_ !! _); [discriminate | now injection El]. }
        unfold CsvParser.loc in El.
        assert (exists m, e = OtherError m) as [m ->].
        { destruct (rows df !! r); [|injection El as <-; eauto].
          destruct (CsvParser.label_index c (columns df)); [|injection El as <-; eauto].
          destruct (_ !! _); [discriminate | injection El as <-; eauto]. }
        simpl. eexists _, _. split; [reflexivity|]. split; reflexivity.
    + assert (CsvParser.read_table fs file_path header_row = raise e) as Hraise.
      { unfold CsvParser.read_table in *.
        destruct (if _ : bool then _ else _); [discriminate|].
        injection Hload as -> _. reflexivity. }
      rewrite (lookup_load_raises _ _ kn mn _ e Hraise). now destruct e.
  - intros fs file_path kn mns header_row.
    destruct (batch_returns fs file_path kn mns header_row) as (res & lines & E).
    assert (forall ms, CsvParser.find_all_kernel_metrics fs file_path kn ms header_row
              = match CsvParser.read_table fs file_path header_row with
                | (inr e, _) => (inl ∅, [batch_error (str_exn e)])
                | (inl df, _) =>
                    match CsvParser.find_row kn df with
                    | None => (inl ∅, [batch_kernel_warning kn])
                    | Some r =>
                        match CsvParser.find_metrics df r ms ∅ with
                        | (results, None) => (inl results, [])
                        | (results, Some e) => (inl results, [batch_error (str_exn e)])
                        end
                    end
                end) as Hall.
    { intros ms. unfold CsvParser.find_all_kernel_metrics.
      destruct (CsvParser.read_table fs file_path header_row) as [[df|e] o]; [|reflexivity].
      destruct (CsvParser.find_row kn df) as [r|]; [|reflexivity].
      destruct (CsvParser.find_metrics df r ms ∅) as [results [e|]]; reflexivity. }
    destruct (CsvParser.read_table fs file_path header_row) as [[df|e] o] eqn:Hload;
      [|apply Hall].
    split; [eauto|].
    destruct (CsvParser.find_row kn df) as [r|] eqn:Er; [|apply Hall]. split.
    + intros Hcells.
      destruct (find_metrics_no_error df r mns ∅ Hcells) as [results Em].
      exists results. now rewrite Hall, Em.
    + intros pre m post j c -> Hcells Ec Hnone.
      destruct (find_metrics_no_error df r pre ∅ Hcells) as [results Em].
      exists results. rewrite !Hall, find_metrics_app, Em. split; [reflexivity|].
      cbn [CsvParser.find_metrics]. rewrite Ec.
      rewrite (loc_no_cell df r j c (find_col_label_index _ _ _ _ Ec)
                 (find_row_lt _ _ _ Er) Hnone).
      reflexivity.
  - intros file_path kn mn msg. repeat split; discriminate.
Qed.

(** The two error paths on a table whose row is short of a cell: the batch
    lookup keeps the entry it has stored and prints the message of the
    [KeyError]; the single-metric lookup returns None. *)
Example error_paths_short_row :
  CsvParser.find_all_kernel_metrics (one_file "trace.csv" short_row_df) "trace.csv"
    "topKStage1" ["Duration"; "Start"; "Kernel"] 0
  = (inl {[ "Duration" := CFloat "43392.0" ]}, ["Error: 'Start'"])
  /\ returned (CsvParser.find_kernel_metric (one_file "trace.csv" short_row_df) "trace.csv"
                 "topKStage1" "Start" 0) = Some None
  /\ last (printed (CsvParser.find_kernel_metric (one_file "trace.csv" short_row_df)
                      "trace.csv" "topKStage1" "Start" 0))
     = Some "Error processing file: 'Start'".
Proof. repeat split; reflexivity. Qed.

(** ** Row matching and the order of the columns *)

Section JoinedText.

Import CsvParser.

Lemma startswith_app (s x p : string) :
  PyStr.startswith s p = true -> PyStr.startswith (s ++ x)%string p = true.
Proof.
  rewrite !startswith_spec. intros [r ->]. exists (r ++ x)%string. apply append_assoc.
Qed.

(** A text without a space that starts at a cell ends inside that cell. *)
Lemma startswith_before_space (n a r : string) :
  PyStr.has_char " " n = false ->
  PyStr.startswith (a ++ String " " r)%string n = true -> PyStr.startswith a n = true.
Proof.
  revert a. induction n as [|c n IH]; intros a Hn; simpl; [reflexivity|].
  simpl in Hn. apply orb_false_elim in Hn as [Hc Hn].
  destruct a as [|x a]; simpl.
  - now rewrite Hc.
  - intros [-> H]%andb_true_iff. rewrite (IH a Hn H). reflexivity.
Qed.

Lemma contains_across_space (n a r : string) :
  PyStr.has_char " " n = false ->
  PyStr.contains n (a ++ String " " r)%string = PyStr.contains n a || PyStr.contains n r.
Proof.
  intros Hn. induction a as [|x a IH].
  - simpl. destruct n as [|c n]; [now rewrite contains_empty|].
    simpl in Hn. apply orb_false_elim in Hn as [Hc _]. simpl. now rewrite Hc.
  - change (String x a ++ String " " r)%string with (String x (a ++ String " " r)).
    cbn [PyStr.contains]. rewrite IH, orb_assoc. f_equal. f_equal.
    destruct (PyStr.startswith (String x a) n) eqn:E.
    + apply (startswith_app _ (String " " r)) in E. exact E.
    + destruct (PyStr.startswith (String x (a ++ String " " r)) n) eqn:E'; [|reflexivity].
      apply (startswith_before_space n (String x a) r Hn) in E'. congruence.
Qed.

(** For a needle without a space, the joined text of a row has it exactly
    when one of the joined pieces has it. *)
Lemma contains_join (n : string) (xs : list string) :
  PyStr.has_char " " n = false ->
  PyStr.contains n (PyStr.join " " xs)
  = match xs with [] => PyStr.contains n "" | _ => existsb (PyStr.contains n) xs end.
Proof.
  intros Hn. induction xs as [|x [|y xs] IH]; [reflexivity | |].
  - simpl. now rewrite orb_false_r.
  - change (PyStr.join " " (x :: y :: xs))
      with (x ++ String " " (PyStr.join " " (y :: xs)))%string.
    rewrite contains_across_space, IH by assumption. reflexivity.
Qed.

Lemma existsb_Permutation {A} (f : A -> bool) (l l' : list A) :
  l ≡ₚ l' -> existsb f l = existsb f l'.
Proof.
  induction 1 as [|x l l' _ IH|x y l|l l' l'' _ IH1 _ IH2]; simpl.
  - reflexivity.
  - now rewrite IH.
  - now rewrite !orb_assoc, (orb_comm (f y)).
  - congruence.
Qed.

Lemma row_match_Permutation (n : string) (row row' : list cell) :
  PyStr.has_char " " n = false -> row ≡ₚ row' ->
  PyStr.contains n (row_str row') = PyStr.contains n (row_str row).
Proof.
  intros Hn Hp. unfold row_str. rewrite !contains_join by assumption.
  assert (map str_cell row ≡ₚ map str_cell row') as Hm by now apply Permutation_map.
  destruct (map str_cell row) as [|x xs] eqn:E, (map str_cell row') as [|x' xs'] eqn:E'.
  - reflexivity.
  - now apply Permutation_nil_cons in Hm.
  - symmetry in Hm. now apply Permutation_nil_cons in Hm.
  - symmetry. now apply existsb_Permutation.
Qed.

Lemma omap_lookup_seq {A} (pre l : list A) :
  omap (fun j => (pre ++ l) !! j) (seq (length pre) (length l)) = l.
Proof.
  revert pre. induction l as [|x l IH]; intros pre; [reflexivity|].
  cbn [length seq omap list_omap]. rewrite list_lookup_middle by reflexivity.
  f_equal. specialize (IH (pre ++ [x])).
  rewrite <- app_assoc, length_app in IH. simpl in IH.
  now rewrite Nat.add_1_r in IH.
Qed.

(** Taking the cells in the order of a permutation of the positions
    permutes the cells. *)
Lemma permute_Permutation {A} (p : list nat) (l : list A) :
  p ≡ₚ seq 0 (length l) -> permute p l ≡ₚ l.
Proof.
  intros Hp. unfold permute. rewrite Hp.
  pose proof (omap_lookup_seq [] l) as E. simpl in E. now rewrite E.
Qed.

(** A needle without a space finds the same row in every column order. *)
Lemma find_row_permute_cols (kn : string) (p : list nat) (df : DataFrame) :
  PyStr.has_char " " kn = false -> rectangular df ->
  p ≡ₚ seq 0 (length (columns df)) ->
  find_row kn (permute_cols p df) = find_row kn df.
Proof.
  intros Hn Hrect Hp. unfold find_row, permute_cols, rectangular in *. simpl.
  generalize 0. induction Hrect as [|row rs Hlen _ IH]; intros i; [reflexivity|].
  simpl. rewrite IH.
  rewrite (row_match_Permutation kn row (permute p row) Hn); [reflexivity|].
  symmetry. apply permute_Permutation. now rewrite Hlen.
Qed.

Lemma find_row_unique (kn : string) (df : DataFrame) (r : nat) (row : list cell) :
  rows df !! r = Some row -> row_matches kn row ->
  (forall r' row', rows df !! r' = Some row' -> row_matches kn row' -> r' = r) ->
  find_row kn df = Some r.
Proof.
  intros Hr Hm Huniq. apply find_row_Some. exists row. repeat split; auto.
  intros r' row' Hr' Hlt Hm'. specialize (Huniq r' row' Hr' Hm'). lia.
Qed.

End JoinedText.

(** ** Claims about row matching *)

(** C4. The claim fails on the code, and the code fails its own comment
    ("Check if kernel_name exists in any cell of this row"). In
    [spanned_first_df] the text "scan topK" is in a cell of row 1 and in no
    cell of row 0; the lookup selects row 0, where the text spans two cells,
    and returns the tag of that row; with the two columns swapped it selects
    row 1. In [spanning_df] no cell has the text, and the lookup selects
    row 0, and row 1 once the columns are swapped. *)
Lemma C4_spanning_match :
  (Forall (fun c => PyStr.contains "scan topK" (str_cell c) = false)
     [CStr "scan"; CStr "topK"; CStr "x"]
   /\ PyStr.contains "scan topK" (str_cell (CStr "scan topK")) = true)
  /\ (forall r row, rows spanned_first_df !! r = Some row ->
                    in_a_cell "scan topK" row -> r = 1)
  /\ CsvParser.find_row "scan topK" spanned_first_df = Some 0
  /\ fst (CsvParser.find_kernel_metric (one_file "trace.csv" spanned_first_df) "trace.csv"
            "scan topK" "Tag" 0) = inl (Some (CStr "topK"))
  /\ [1; 0] ≡ₚ seq 0 (length (columns spanned_first_df))
  /\ permute_cols [1; 0] spanned_first_df
     = {| columns := ["Tag"; "Kernel"];
          rows := [[CStr "topK"; CStr "scan"]; [CStr "x"; CStr "scan topK"]] |}
  /\ CsvParser.find_row "scan topK" (permute_cols [1; 0] spanned_first_df) = Some 1
  /\ fst (CsvParser.find_kernel_metric
            (one_file "trace.csv" (permute_cols [1; 0] spanned_first_df)) "trace.csv"
            "scan topK" "Tag" 0) = inl (Some (CStr "x"))
  /\ (CsvParser.find_row "scan topK" spanning_df = Some 0
      /\ CsvParser.find_row "scan topK" (permute_cols [1; 0] spanning_df) = Some 1
      /\ forall r row, rows spanning_df !! r = Some row -> ~ in_a_cell "scan topK" row).
Proof.
  split; [split; [repeat constructor | reflexivity]|].
  split.
  { intros [|[|r]] row H (c & Hin & Hc); simpl in H; [|reflexivity | discriminate].
    injection H as <-. destruct Hin as [<- | [<- | []]]; discriminate. }
  do 2 (split; [reflexivity|]). split; [apply perm_swap|].
  do 3 (split; [reflexivity|]). split; [reflexivity|]. split; [reflexivity|].
  intros [|[|r]] row H (c & Hin & Hc); simpl in H; try discriminate;
    injection H as <-; destruct Hin as [<- | [<- | []]]; discriminate.
Qed.

(** C10. In both lookups the row test is the case-sensitive substring test
    on the space-joined [str] of all the cells of the row, numbers included,
    while the column test ignores case. So a row substring can select a row
    through a metric value ("43392") or through a text that spans two cells
    ("kernel 43392") although no kernel-name cell has it, and "topkstage1"
    does not select the row of "topKStage1_kernel". *)
Theorem C10_row_matching_on_joined_text :
  (forall kn df r,
      CsvParser.find_row kn df = Some r <->
      exists row, rows df !! r = Some row
        /\ PyStr.contains kn (PyStr.join " " (map str_cell row)) = true
        /\ forall r' row', rows df !! r' = Some row' -> r' < r ->
             PyStr.contains kn (PyStr.join " " (map str_cell row')) <> true)
  /\ (forall kn a b, PyStr.contains kn (a ++ " " ++ b)%string = true ->
        forall name tail, PyStr.contains kn
          (CsvParser.row_str (CStr name :: CStr a :: CStr b :: tail)) = true)
  /\ CsvParser.row_str [CStr "topKStage1_kernel"; CFloat "43392.0"; CInt 100]
     = "topKStage1_kernel 43392.0 100"
  /\ (CsvParser.find_row "topKStage1" scenario_df = Some 0
      /\ CsvParser.find_row "topkstage1" scenario_df = None
      /\ CsvParser.find_col "DURATION" scenario_df = Some (1, "Duration"))
  /\ (CsvParser.find_row "43392" scenario_df = Some 0
      /\ PyStr.contains "43392" "topKStage1_kernel" = false)
  /\ (CsvParser.find_row "kernel 43392" scenario_df = Some 0
      /\ Forall (fun c => PyStr.contains "kernel 43392" (str_cell c) = false)
           [CStr "topKStage1_kernel"; CFloat "43392.0"; CInt 100])
  /\ (fst (CsvParser.find_kernel_metric (one_file "trace.csv" scenario_df) "trace.csv"
             "kernel 43392" "start" 0) = inl (Some (CInt 100))
      /\ fst (CsvParser.find_kernel_metric (one_file "trace.csv" scenario_df) "trace.csv"
                "Kernel 43392" "start" 0) = inl None)
  /\ (fst (CsvParser.find_all_kernel_metrics (one_file "trace.csv" scenario_df) "trace.csv"
             "kernel 43392" ["start"] 0) = inl {[ "start" := CInt 100 ]}
      /\ fst (CsvParser.find_all_kernel_metrics (one_file "trace.csv" scenario_df) "trace.csv"
                "Kernel 43392" ["start"] 0) = inl ∅).
Proof.
  split; [exact find_row_Some|]. split.
  { intros kn a b H name tail. unfold CsvParser.row_str.
    destruct tail as [|t tail].
    - change (PyStr.join " " (map str_cell [CStr name; CStr a; CStr b]))
        with (name ++ (" " ++ (a ++ " " ++ b)))%string.
      now do 2 apply contains_app_l.
    - change (PyStr.join " " (map str_cell (CStr name :: CStr a :: CStr b :: t :: tail)))
        with (name ++ (" " ++ (a ++ (" " ++ (b ++ (" "
                ++ PyStr.join " " (map str_cell (t :: tail))))))))%string.
      do 2 apply contains_app_l.
      rewrite <- (append_assoc " " b), <- (append_assoc a).
      now apply contains_app_r. }
  repeat split; try reflexivity.
  repeat constructor.
Qed.

(** ** Sweep points and output names *)

Section Points.

Lemma fold_left_ext {A B} (f g : A -> B -> A) (l : list B) (a : A) :
  (forall a x, f a x = g a x) -> fold_left f l a = fold_left g l a.
Proof. intros H. revert a. induction l as [|x l IH]; intros a; simpl; [|rewrite H]; auto. Qed.

Lemma fold_left_flat_map {A B C} (f : A -> C -> A) (g : B -> list C) (l : list B) (a : A) :
  fold_left f (flat_map g l) a = fold_left (fun a x => fold_left f (g x) a) l a.
Proof.
  revert a. induction l as [|x l IH]; intros a; simpl; [reflexivity|].
  now rewrite fold_left_app, IH.
Qed.

Lemma fold_left_map {A B C} (f : A -> C -> A) (h : B -> C) (l : list B) (a : A) :
  fold_left f (map h l) a = fold_left (fun a x => f a (h x)) l a.
Proof. revert a. induction l as [|x l IH]; intros a; simpl; auto. Qed.

(** The four nested loops visit [sweep_points] in order. *)
Lemma sweep_as_fold body Bs Ns Ks ds st :
  Profiling.sweep body Bs Ns Ks ds st
  = fold_left (run_point body) (sweep_points Bs Ns Ks ds) st.
Proof.
  unfold Profiling.sweep, sweep_points. rewrite fold_left_flat_map.
  apply fold_left_ext; intros a B. rewrite fold_left_flat_map.
  apply fold_left_ext; intros a' N. rewrite fold_left_flat_map.
  apply fold_left_ext; intros a'' K. rewrite fold_left_map.
  apply fold_left_ext; intros a''' [i d]. reflexivity.
Qed.

Lemma length_flat_map_const {A B} (g : A -> list B) (l : list A) (n : nat) :
  (forall x, length (g x) = n) -> length (flat_map g l) = length l * n.
Proof.
  intros H. induction l as [|x l IH]; simpl; [reflexivity|].
  rewrite length_app, H, IH. lia.
Qed.

Lemma length_enumerate {A} (l : list A) : length (enumerate l) = length l.
Proof. unfold enumerate. rewrite length_combine, length_seq. lia. Qed.

Lemma length_sweep_points Bs Ns Ks ds :
  length (sweep_points Bs Ns Ks ds)
  = length Bs * length Ns * length Ks * length ds.
Proof.
  unfold sweep_points.
  rewrite (length_flat_map_const _ Bs (length Ns * length Ks * length ds)); [lia|].
  intros B. rewrite (length_flat_map_const _ Ns (length Ks * length ds)); [lia|].
  intros N. rewrite (length_flat_map_const _ Ks (length ds)); [lia|].
  intros K. now rewrite length_map, length_enumerate.
Qed.

Lemma output_name_suffix kn B N K d :
  Profiling.output_name kn B N K d = (kn ++ dims_suffix B N K d)%string.
Proof. reflexivity. Qed.

(** The four dimension values can be read back from their encoding. *)
Lemma dims_suffix_inj B N K d B' N' K' d' :
  dims_suffix B N K d = dims_suffix B' N' K' d' ->
  B = B' /\ N = N' /\ K = K' /\ d = d'.
Proof.
  unfold dims_suffix. intros E.
  apply (append_inv_head "_B") in E.
  destruct (cut_at_char "_" (PyStr.str_int B) (PyStr.str_int B')
              ("N" ++ PyStr.str_int N ++ "_topK" ++ PyStr.str_int K ++ "_" ++ d)%string
              ("N" ++ PyStr.str_int N' ++ "_topK" ++ PyStr.str_int K' ++ "_" ++ d')%string
              (str_int_no_underscore B) (str_int_no_underscore B') E) as [EB E1].
  apply (append_inv_head "N") in E1.
  destruct (cut_at_char "_" (PyStr.str_int N) (PyStr.str_int N')
              ("topK" ++ PyStr.str_int K ++ "_" ++ d)%string
              ("topK" ++ PyStr.str_int K' ++ "_" ++ d')%string
              (str_int_no_underscore N) (str_int_no_underscore N') E1) as [EN E2].
  apply (append_inv_head "topK") in E2.
  destruct (cut_at_char "_" (PyStr.str_int K) (PyStr.str_int K') d d'
              (str_int_no_underscore K) (str_int_no_underscore K') E2) as [EK Ed].
  auto using str_int_inj.
Qed.

(** With one kernel name in front, the whole output name can be read back. *)
Lemma output_name_inj kn B N K d B' N' K' d' :
  Profiling.output_name kn B N K d = Profiling.output_name kn B' N' K' d' ->
  B = B' /\ N = N' /\ K = K' /\ d = d'.
Proof.
  rewrite !output_name_suffix. intros E%append_inv_head. now apply dims_suffix_inj.
Qed.

Lemma in_enumerate_from {A} (l : list A) (k i : nat) (x : A) :
  In (i, x) (combine (seq k (length l)) l) <-> exists j, i = k + j /\ l !! j = Some x.
Proof.
  revert k. induction l as [|y l IH]; intros k; simpl.
  - split; [intros [] | intros (j & _ & H); discriminate].
  - rewrite IH. split.
    + intros [[= <- <-] | (j & -> & H)].
      * exists 0. split; [lia | reflexivity].
      * exists (S j). split; [lia | exact H].
    + intros ([|j] & -> & H); simpl in H.
      * left. injection H as ->. f_equal. lia.
      * right. exists j. split; [lia | exact H].
Qed.

Lemma in_enumerate {A} (l : list A) (i : nat) (x : A) :
  In (i, x) (enumerate l) <-> l !! i = Some x.
Proof.
  unfold enumerate. rewrite in_enumerate_from. split.
  - now intros (j & -> & H).
  - intros H. now exists i.
Qed.

(** The points of a sweep are the tuples of one value of each list. *)
Lemma in_sweep_points Bs Ns Ks ds B N K i d :
  In (B, N, K, i, d) (sweep_points Bs Ns Ks ds)
  <-> In B Bs /\ In N Ns /\ In K Ks /\ ds !! i = Some d.
Proof.
  unfold sweep_points. rewrite in_flat_map. split.
  - intros (B0 & HB & H). apply in_flat_map in H as (N0 & HN & H).
    apply in_flat_map in H as (K0 & HK & H). apply in_map_iff in H as ([i0 d0] & [= <- <- <- <- <-] & H).
    apply in_enumerate in H. auto.
  - intros (HB & HN & HK & Hd). exists B. split; [assumption|].
    apply in_flat_map. exists N. split; [assumption|].
    apply in_flat_map. exists K. split; [assumption|].
    apply in_map_iff. exists (i, d). split; [reflexivity | now apply in_enumerate].
Qed.

Lemma NoDup_flat_map {A B} (g : A -> list B) (l : list A) :
  NoDup l -> (forall x, In x l -> NoDup (g x)) ->
  (forall x x' y, In x l -> In x' l -> In y (g x) -> In y (g x') -> x = x') ->
  NoDup (flat_map g l).
Proof.
  induction 1 as [|x l Hx Hl IH]; intros Hg Hdisj; simpl; [constructor|].
  apply NoDup_app. split; [|split].
  - apply Hg. now left.
  - intros y Hy Hy'. apply list_elem_of_In in Hy, Hy'.
    apply in_flat_map in Hy' as (x' & Hx' & Hy').
    assert (x = x') as <- by (apply (Hdisj x x' y); simpl; auto).
    apply Hx. now apply list_elem_of_In.
  - apply IH.
    + intros x' Hx'. apply Hg. now right.
    + intros x1 x2 y H1 H2. apply Hdisj; now right.
Qed.

Lemma NoDup_enumerate {A} (l : list A) : NoDup (enumerate l).
Proof.
  unfold enumerate. generalize 0. induction l as [|x l IH]; intros k; simpl; constructor.
  - intros H%list_elem_of_In. apply in_enumerate_from in H as (j & Hj & _). lia.
  - apply IH.
Qed.

(** Lists without repeated values give points without repetition. *)
Lemma NoDup_sweep_points Bs Ns Ks ds :
  NoDup Bs -> NoDup Ns -> NoDup Ks -> NoDup (sweep_points Bs Ns Ks ds).
Proof.
  intros HB HN HK. unfold sweep_points.
  apply NoDup_flat_map; [assumption | |].
  - intros B _. apply NoDup_flat_map; [assumption | |].
    + intros N _. apply NoDup_flat_map; [assumption | |].
      * intros K _. apply NoDup_fmap_2; [|apply NoDup_enumerate].
        intros [i d] [i' d'] [= -> ->]. reflexivity.
      * intros K K' y _ _ ([i d] & <- & _)%in_map_iff ([i' d'] & [= -> _ _] & _)%in_map_iff.
        reflexivity.
    + intros N N' y _ _ (K & _ & ([i d] & <- & _)%in_map_iff)%in_flat_map
        (K' & _ & ([i' d'] & [= -> _ _ _] & _)%in_map_iff)%in_flat_map.
      reflexivity.
  - intros B B' y _ _
      (N & _ & (K & _ & ([i d] & <- & _)%in_map_iff)%in_flat_map)%in_flat_map
      (N' & _ & (K' & _ & ([i' d'] & [= -> _ _ _ _] & _)%in_map_iff)%in_flat_map)%in_flat_map.
    reflexivity.
Qed.

(** ... and no two of these points share their encoding. *)
Lemma NoDup_point_suffixes Bs Ns Ks ds :
  NoDup Bs -> NoDup Ns -> NoDup Ks -> NoDup ds ->
  NoDup (map point_suffix (sweep_points Bs Ns Ks ds)).
Proof.
  intros HB HN HK Hd. apply NoDup_fmap_2_strong; [|now apply NoDup_sweep_points].
  intros [[[[B N] K] i] d] [[[[B' N'] K'] i'] d'] Hp%list_elem_of_In Hp'%list_elem_of_In E.
  apply in_sweep_points in Hp as (_ & _ & _ & Hi), Hp' as (_ & _ & _ & Hi').
  apply dims_suffix_inj in E as (-> & -> & -> & ->).
  now rewrite (NoDup_lookup ds i i' d' Hd Hi Hi').
Qed.

End Points.

(** ** The sweep, one point at a time *)

Section SweepSteps.

Variable environ : gmap string string.
Variable exec : filesystem -> list string -> gmap string string
                -> outcome * filesystem.
Variable str_CalledProcessError : list string -> Z -> string.
Variables output_dir target_script : string.

Abbreviation nsys_point :=
  (Profiling.nsys_point environ exec str_CalledProcessError output_dir target_script).
Abbreviation ncu_point :=
  (Profiling.ncu_point environ exec str_CalledProcessError output_dir target_script).

(** The commands, the environment and the lines the program builds are the
    ones written out in the vocabulary. *)
Lemma nsys_cmd_argv path i :
  Profiling.nsys_cmd path target_script i = nsys_argv path target_script i.
Proof. reflexivity. Qed.

Lemma nsys_cmd_stats_argv path : Profiling.nsys_cmd_stats path = stats_argv path.
Proof. reflexivity. Qed.

Lemma ncu_cmd_argv path i :
  Profiling.ncu_cmd path target_script i = ncu_argv path target_script i.
Proof. reflexivity. Qed.

Lemma sweep_env_overrides B N K : Profiling.sweep_env environ B N K = overrides environ B N K.
Proof. reflexivity. Qed.

Lemma printed_run_lines cmd B N K :
  [Profiling.run_line cmd; Profiling.env_line B N K] = run_lines cmd B N K.
Proof. reflexivity. Qed.

Lemma task_failed_line_eq name cmd code :
  Profiling.task_failed_line str_CalledProcessError name cmd code
  = failed_line str_CalledProcessError name cmd code.
Proof. reflexivity. Qed.

(** The state changes of the loop body, as additions to the state. *)
Lemma say_eq st more :
  Profiling.say st more = advance st (files st) (kernel_name st) [] more [] (uncaught st).
Proof. unfold Profiling.say, advance. now rewrite !app_nil_r. Qed.

Lemma say_advance st fs kn cs ls rs u more :
  Profiling.say (advance st fs kn cs ls rs u) more = advance st fs kn cs (ls ++ more) rs u.
Proof. unfold Profiling.say, advance. simpl. now rewrite app_assoc. Qed.

Lemma propagate_advance st fs kn cs ls rs u e :
  Profiling.propagate (advance st fs kn cs ls rs u) e = advance st fs kn cs ls rs (Some e).
Proof. reflexivity. Qed.

Lemma run_advance st fs kn cs ls rs u cmd env :
  Profiling.run exec (advance st fs kn cs ls rs u) cmd env
  = let o := exec fs cmd env in
    let c := {| call_cmd := cmd; call_env := env; call_code := outcome_code (fst o) |} in
    (match fst o with
     | Exited res =>
         if (returncode res =? 0)%Z then Profiling.Completed res
         else Profiling.CalledProcessError (returncode res)
     | Raised e => Profiling.OtherException e
     end,
     advance st (snd o) kn (cs ++ [c]) ls rs u).
Proof.
  unfold Profiling.run, advance. cbn [files kernel_name calls out summary uncaught].
  destruct (exec fs cmd env) as [o fs']. cbn [fst snd]. now rewrite app_assoc.
Qed.

Lemma extract_advance st fs kn cs ls rs name path B N K d :
  let l := CsvParser.find_kernel_metric fs (trace_path path) name "Duration" 0 in
  Profiling.extract (advance st fs kn cs ls rs None) name path B N K d
  = advance st fs name cs (ls ++ printed l) (rs ++ [row_of name B N K d (lookup_result l)])
      None.
Proof.
  intros l. destruct (lookup_returns fs (trace_path path) name "Duration" 0)
    as (Avg & lines & L).
  unfold Profiling.extract, Profiling.set_kernel_name.
  cbn [advance files kernel_name calls out summary uncaught].
  subst l. unfold trace_path in *. rewrite L.
  unfold Profiling.writerow, Profiling.say, advance, row_of, lookup_result, printed.
  cbn [files kernel_name calls out summary uncaught fst snd]. now rewrite !app_assoc.
Qed.

(** What one turn of the nsys loop does, by the way its commands end: the
    profiler cannot be run; it exits with a non-zero status; the stats export
    cannot be run; it exits with a non-zero status; both exit with status 0. *)
Lemma nsys_point_cases st B N K i d :
  uncaught st = None ->
  let name := (kernel_name st ++ dims_suffix B N K d)%string in
  let path := path_join output_dir name in
  let cmd := nsys_argv path target_script i in
  let cmd_stats := stats_argv path in
  let env := overrides environ B N K in
  let o := exec (files st) cmd env in
  let c := {| call_cmd := cmd; call_env := env; call_code := outcome_code (fst o) |} in
  let o' := exec (snd o) cmd_stats environ in
  let c' := {| call_cmd := cmd_stats; call_env := environ;
               call_code := outcome_code (fst o') |} in
  let l1 := CsvParser.find_kernel_metric (snd o') (trace_path path)
              "topKStage1" "Duration" 0 in
  let l2 := CsvParser.find_kernel_metric (snd o') (trace_path path)
              "topKStage2Sampling" "Duration" 0 in
  nsys_point st B N K i d
  = match fst o with
    | Raised e =>
        advance st (snd o) (kernel_name st) [c] (run_lines cmd B N K) [] (Some e)
    | Exited res =>
        if (returncode res =? 0)%Z then
          match fst o' with
          | Raised e =>
              advance st (snd o') (kernel_name st) [c; c']
                (run_lines cmd B N K ++ [("Result: " ++ stdout res)%string]) [] (Some e)
          | Exited res' =>
              if (returncode res' =? 0)%Z then
                advance st (snd o') "topKStage2Sampling" [c; c']
                  (run_lines cmd B N K
                     ++ [("Result: " ++ stdout res)%string;
                         ("Stats result: " ++ stdout res')%string]
                     ++ printed l1 ++ printed l2)
                  [row_of "topKStage1" B N K d (lookup_result l1);
                   row_of "topKStage2Sampling" B N K d (lookup_result l2)]
                  None
              else
                advance st (snd o') (kernel_name st) [c; c']
                  (run_lines cmd B N K
                     ++ [("Result: " ++ stdout res)%string;
                         failed_line str_CalledProcessError name cmd_stats
                           (returncode res')])
                  [] None
          end
        else
          advance st (snd o) (kernel_name st) [c]
            (run_lines cmd B N K
               ++ [failed_line str_CalledProcessError name cmd (returncode res)])
            [] None
    end.
Proof.
  intros Hu name path cmd cmd_stats env o c o' c' l1 l2.
  unfold Profiling.nsys_point. rewrite Hu.
  change (Profiling.output_name (kernel_name st) B N K d) with name.
  change (path_join output_dir name) with path.
  change (Profiling.nsys_cmd path target_script i) with cmd.
  change (Profiling.nsys_cmd_stats path) with cmd_stats.
  change (Profiling.sweep_env environ B N K) with env.
  change [Profiling.run_line cmd; Profiling.env_line B N K] with (run_lines cmd B N K).
  rewrite say_eq, Hu, run_advance. cbv zeta. fold o. fold c.
  destruct (fst o) as [res|e]; [|apply propagate_advance].
  destruct (returncode res =? 0)%Z; [|now rewrite say_advance].
  rewrite say_advance, run_advance. cbv zeta. fold o'. fold c'.
  destruct (fst o') as [res'|e']; [|apply propagate_advance].
  destruct (returncode res' =? 0)%Z.
  2:{ rewrite say_advance. now rewrite <- !app_assoc. }
  rewrite say_advance, extract_advance. cbv zeta. fold l1.
  change (uncaught (advance _ _ _ _ _ _ None)) with (@None exn).
  rewrite extract_advance. cbv zeta. fold l2.
  unfold advance. f_equal; simpl; rewrite <- ?app_assoc; reflexivity.
Qed.

(** What one turn of the ncu loop does. *)
Lemma ncu_point_cases st B N K i d :
  uncaught st = None ->
  let name := (kernel_name st ++ dims_suffix B N K d)%string in
  let cmd := ncu_argv (path_join output_dir name) target_script i in
  let env := overrides environ B N K in
  let o := exec (files st) cmd env in
  let c := {| call_cmd := cmd; call_env := env; call_code := outcome_code (fst o) |} in
  ncu_point st B N K i d
  = match fst o with
    | Raised e =>
        advance st (snd o) (kernel_name st) [c] (run_lines cmd B N K) [] (Some e)
    | Exited res =>
        advance st (snd o) (kernel_name st) [c]
          (run_lines cmd B N K
             ++ if (returncode res =? 0)%Z then []
                else [failed_line str_CalledProcessError name cmd (returncode res)])
          [] None
    end.
Proof.
  intros Hu name cmd env o c. unfold Profiling.ncu_point. rewrite Hu.
  change (Profiling.output_name (kernel_name st) B N K d) with name.
  change (Profiling.ncu_cmd (path_join output_dir name) target_script i) with cmd.
  change (Profiling.sweep_env environ B N K) with env.
  change [Profiling.run_line cmd; Profiling.env_line B N K] with (run_lines cmd B N K).
  rewrite say_eq, Hu, run_advance. cbv zeta. fold o. fold c.
  destruct (fst o) as [res|e]; [|apply propagate_advance].
  destruct (returncode res =? 0)%Z; [now rewrite app_nil_r | now rewrite say_advance].
Qed.

(** Once an exception has left the loops, no turn does anything. *)
Lemma nsys_point_stuck st B N K i d e :
  uncaught st = Some e -> nsys_point st B N K i d = st.
Proof. intros Hu. unfold Profiling.nsys_point. now rewrite Hu. Qed.

Lemma ncu_point_stuck st B N K i d e :
  uncaught st = Some e -> ncu_point st B N K i d = st.
Proof. intros Hu. unfold Profiling.ncu_point. now rewrite Hu. Qed.

Lemma fold_stuck body pts st e :
  (forall st B N K i d e, uncaught st = Some e -> body st B N K i d = st) ->
  uncaught st = Some e -> fold_left (run_point body) pts st = st.
Proof.
  intros Hstuck Hu. induction pts as [|[[[[B N] K] i] d] pts IH]; [reflexivity|].
  cbn [fold_left run_point]. now rewrite (Hstuck _ _ _ _ _ _ e Hu).
Qed.

Lemma nsys_fold_stuck pts st e :
  uncaught st = Some e -> fold_left (run_point nsys_point) pts st = st.
Proof. apply fold_stuck. exact nsys_point_stuck. Qed.

Lemma ncu_fold_stuck pts st e :
  uncaught st = Some e -> fold_left (run_point ncu_point) pts st = st.
Proof. apply fold_stuck. exact ncu_point_stuck. Qed.

Lemma lookups_of_stuck_turn st p e :
  uncaught st = Some e ->
  lookups_of_turn environ exec output_dir target_script (st, p) = [].
Proof. intros Hu. destruct p as [[[[B N] K] i] d]. cbn. now rewrite Hu. Qed.

Lemma rows_of_stuck_turn st p e :
  uncaught st = Some e ->
  rows_of_turn environ exec output_dir target_script (st, p) = [].
Proof.
  intros Hu. unfold rows_of_turn. destruct p as [[[[B N] K] i] d].
  now rewrite (lookups_of_stuck_turn _ _ e Hu).
Qed.

(** The five ways a turn of the nsys loop goes, each with the commands as
    they ended, the state the turn leaves and the lookups it made. *)
Lemma nsys_point_split st B N K i d :
  uncaught st = None ->
  let name := (kernel_name st ++ dims_suffix B N K d)%string in
  let path := path_join output_dir name in
  let cmd := nsys_argv path target_script i in
  let cmd_stats := stats_argv path in
  let env := overrides environ B N K in
  let call cmd env code := {| call_cmd := cmd; call_env := env; call_code := code |} in
  let lookups := lookups_of_turn environ exec output_dir target_script
                   (st, (B, N, K, i, d)) in
  (exists e fs1,
      exec (files st) cmd env = (Raised e, fs1)
      /\ lookups = []
      /\ nsys_point st B N K i d
         = advance st fs1 (kernel_name st) [call cmd env None] (run_lines cmd B N K) []
             (Some e))
  \/ (exists res fs1,
        exec (files st) cmd env = (Exited res, fs1) /\ returncode res <> 0%Z
        /\ lookups = []
        /\ nsys_point st B N K i d
           = advance st fs1 (kernel_name st) [call cmd env (Some (returncode res))]
               (run_lines cmd B N K
                  ++ [failed_line str_CalledProcessError name cmd (returncode res)])
               [] None)
  \/ (exists res fs1 e fs2,
        exec (files st) cmd env = (Exited res, fs1) /\ returncode res = 0%Z
        /\ exec fs1 cmd_stats environ = (Raised e, fs2)
        /\ lookups = []
        /\ nsys_point st B N K i d
           = advance st fs2 (kernel_name st)
               [call cmd env (Some 0%Z); call cmd_stats environ None]
               (run_lines cmd B N K ++ [("Result: " ++ stdout res)%string]) [] (Some e))
  \/ (exists res fs1 res' fs2,
        exec (files st) cmd env = (Exited res, fs1) /\ returncode res = 0%Z
        /\ exec fs1 cmd_stats environ = (Exited res', fs2) /\ returncode res' <> 0%Z
        /\ lookups = []
        /\ nsys_point st B N K i d
           = advance st fs2 (kernel_name st)
               [call cmd env (Some 0%Z); call cmd_stats environ (Some (returncode res'))]
               (run_lines cmd B N K
                  ++ [("Result: " ++ stdout res)%string;
                      failed_line str_CalledProcessError name cmd_stats (returncode res')])
               [] None)
  \/ (exists res fs1 res' fs2,
        exec (files st) cmd env = (Exited res, fs1) /\ returncode res = 0%Z
        /\ exec fs1 cmd_stats environ = (Exited res', fs2) /\ returncode res' = 0%Z
        /\ let l1 := CsvParser.find_kernel_metric fs2 (trace_path path)
                       "topKStage1" "Duration" 0 in
           let l2 := CsvParser.find_kernel_metric fs2 (trace_path path)
                       "topKStage2Sampling" "Duration" 0 in
           lookups = [("topKStage1", l1); ("topKStage2Sampling", l2)]
           /\ nsys_point st B N K i d
              = advance st fs2 "topKStage2Sampling"
                  [call cmd env (Some 0%Z); call cmd_stats environ (Some 0%Z)]
                  (run_lines cmd B N K
                     ++ [("Result: " ++ stdout res)%string;
                         ("Stats result: " ++ stdout res')%string]
                     ++ printed l1 ++ printed l2)
                  [row_of "topKStage1" B N K d (lookup_result l1);
                   row_of "topKStage2Sampling" B N K d (lookup_result l2)]
                  None).
Proof.
  intros Hu name path cmd cmd_stats env call lookups.
  rewrite (nsys_point_cases st B N K i d Hu). cbv zeta.
  fold name. fold path. fold cmd. fold cmd_stats. fold env.
  subst lookups. cbn [lookups_of_turn]. rewrite Hu.
  fold name. fold path. fold cmd. fold cmd_stats. fold env.
  destruct (exec (files st) cmd env) as [[res|e] fs1] eqn:E1; cbn [fst snd outcome_code].
  2:{ left. now exists e, fs1. }
  right. destruct (Z.eqb_spec (returncode res) 0) as [Z1|Z1].
  2:{ left. now exists res, fs1. }
  right. rewrite Z1.
  destruct (exec fs1 cmd_stats environ) as [[res'|e'] fs2] eqn:E2;
    cbn [fst snd outcome_code].
  2:{ left. now exists res, fs1, e', fs2. }
  right. destruct (Z.eqb_spec (returncode res') 0) as [Z2|Z2].
  2:{ left. now exists res, fs1, res', fs2. }
  right. rewrite Z2. now exists res, fs1, res', fs2.
Qed.

(** The three ways a turn of the ncu loop goes. *)
Lemma ncu_point_split st B N K i d :
  uncaught st = None ->
  let name := (kernel_name st ++ dims_suffix B N K d)%string in
  let cmd := ncu_argv (path_join output_dir name) target_script i in
  let env := overrides environ B N K in
  let call code := {| call_cmd := cmd; call_env := env; call_code := code |} in
  (exists e fs1,
      exec (files st) cmd env = (Raised e, fs1)
      /\ ncu_point st B N K i d
         = advance st fs1 (kernel_name st) [call None] (run_lines cmd B N K) [] (Some e))
  \/ (exists res fs1,
        exec (files st) cmd env = (Exited res, fs1) /\ returncode res <> 0%Z
        /\ ncu_point st B N K i d
           = advance st fs1 (kernel_name st) [call (Some (returncode res))]
               (run_lines cmd B N K
                  ++ [failed_line str_CalledProcessError name cmd (returncode res)])
               [] None)
  \/ (exists res fs1,
        exec (files st) cmd env = (Exited res, fs1) /\ returncode res = 0%Z
        /\ ncu_point st B N K i d
           = advance st fs1 (kernel_name st) [call (Some 0%Z)] (run_lines cmd B N K) []
               None).
Proof.
  intros Hu name cmd env call.
  rewrite (ncu_point_cases st B N K i d Hu). cbv zeta. fold name. fold cmd. fold env.
  destruct (exec (files st) cmd env) as [[res|e] fs1] eqn:E1; cbn [fst snd outcome_code].
  2:{ left. now exists e, fs1. }
  right. destruct (Z.eqb_spec (returncode res) 0) as [Z1|Z1].
  - right. rewrite Z1, app_nil_r. now exists res, fs1.
  - left. now exists res, fs1.
Qed.

Abbreviation reported := (failure_reported str_CalledProcessError output_dir target_script).
Abbreviation nsys_run := (fun path i => nsys_argv path target_script i).
Abbreviation ncu_run := (fun path i => ncu_argv path target_script i).
Abbreviation lookups := (lookups_of_turn environ exec output_dir target_script).
Abbreviation rows_of := (rows_of_turn environ exec output_dir target_script).

Lemma reported_more (lines more : list string) (c : call) :
  reported lines c -> reported (lines ++ more) c.
Proof.
  intros H code Hc Hne. destruct (H code Hc Hne) as (prefix & B & N & K & d & i & Hin & Hcmd).
  exists prefix, B, N, K, d, i. split; [apply in_or_app; now left | exact Hcmd].
Qed.

Lemma reported_later (lines more : list string) (c : call) :
  reported more c -> reported (lines ++ more) c.
Proof.
  intros H code Hc Hne. destruct (H code Hc Hne) as (prefix & B & N & K & d & i & Hin & Hcmd).
  exists prefix, B, N, K, d, i. split; [apply in_or_app; now right | exact Hcmd].
Qed.

Lemma reported_zero (lines : list string) cmd env : 
  reported lines {| call_cmd := cmd; call_env := env; call_code := Some 0%Z |}.
Proof. intros code [= <-] Hne. now destruct Hne. Qed.

Lemma reported_raised (lines : list string) cmd env : 
  reported lines {| call_cmd := cmd; call_env := env; call_code := None |}.
Proof. intros code [=]. Qed.

Lemma always_exits_not_raised fs cmd env e fs' :
  always_exits exec -> exec fs cmd env <> (Raised e, fs').
Proof. intros H E. destruct (H fs cmd env) as [res Hres]. now rewrite E in Hres. Qed.

(** What a turn of the nsys loop adds to the state: its profiler call first,
    then at most the call of the stats export; the lines of the failures;
    and either no row and the same kernel name, or the two rows and the name
    of the second sub-kernel. *)
Lemma nsys_point_shape st B N K i d :
  uncaught st = None ->
  let path := path_join output_dir (kernel_name st ++ dims_suffix B N K d) in
  exists fs kn code rest lines rs u,
    let c := {| call_cmd := nsys_argv path target_script i;
                call_env := overrides environ B N K; call_code := code |} in
    nsys_point st B N K i d = advance st fs kn (c :: rest) lines rs u
    /\ Forall (fun c' => is_profile c' = false /\ is_stats_call c' = true
                         /\ call_env c' = environ) rest
    /\ Forall (reported lines) (c :: rest)
    /\ match u with
       | None => Forall (fun c' => call_code c' <> None) (c :: rest)
       | Some _ => exists c0, last (c :: rest) = Some c0 /\ call_code c0 = None
       end
    /\ (always_exits exec -> u = None)
    /\ rs = rows_of (st, (B, N, K, i, d))
    /\ Forall (fun l => incl (printed (snd l)) lines) (lookups (st, (B, N, K, i, d)))
    /\ ((rs = [] /\ kn = kernel_name st)
        \/ (exists Avg1 Avg2,
              rs = [row_of "topKStage1" B N K d Avg1;
                    row_of "topKStage2Sampling" B N K d Avg2]
              /\ kn = "topKStage2Sampling" /\ u = None)).
Proof.
  intros Hu path. unfold rows_of_turn.
  destruct (nsys_point_split st B N K i d Hu)
    as [(e & fs1 & E1 & -> & ->)
       | [(res & fs1 & E1 & Z1 & -> & ->)
         | [(res & fs1 & e & fs2 & E1 & Z1 & E2 & -> & ->)
           | [(res & fs1 & res' & fs2 & E1 & Z1 & E2 & Z2 & -> & ->)
             | (res & fs1 & res' & fs2 & E1 & Z1 & E2 & Z2 & -> & ->)]]]];
    fold path.
  - eexists _, _, _, [], _, [], _. split; [reflexivity|].
    split; [constructor|]. split; [repeat constructor; apply reported_raised|].
    split; [eexists; split; reflexivity|].
    split; [intros H; now destruct (always_exits_not_raised _ _ _ _ _ H E1)|].
    split; [reflexivity|]. split; [constructor|]. now left.
  - eexists _, _, _, [], _, [], _. split; [reflexivity|].
    split; [constructor|]. split.
    { constructor; [|constructor]. intros code [= <-] _.
      exists (kernel_name st), B, N, K, d, i. split; [|now left].
      apply in_or_app. right. left. reflexivity. }
    split; [repeat constructor; discriminate|].
    split; [reflexivity|]. split; [reflexivity|]. split; [constructor|]. now left.
  - eexists _, _, _, [_], _, [], _. split; [reflexivity|].
    split; [repeat constructor|]. split.
    { constructor; [apply reported_zero|]. constructor; [apply reported_raised | constructor]. }
    split; [eexists; split; reflexivity|].
    split; [intros H; now destruct (always_exits_not_raised _ _ _ _ _ H E2)|].
    split; [reflexivity|]. split; [constructor|]. now left.
  - eexists _, _, _, [_], _, [], _. split; [reflexivity|].
    split; [repeat constructor|]. split.
    { constructor; [apply reported_zero|]. constructor; [|constructor].
      intros code [= <-] _.
      exists (kernel_name st), B, N, K, d, i. split; [|right; now left].
      apply in_or_app. right. right. left. reflexivity. }
    split; [repeat constructor; discriminate|].
    split; [reflexivity|]. split; [reflexivity|]. split; [constructor|]. now left.
  - eexists _, _, _, [_], _, [_; _], _. split; [reflexivity|].
    split; [repeat constructor|]. split.
    { constructor; [apply reported_zero|]. constructor; [apply reported_zero | constructor]. }
    split; [repeat constructor; discriminate|].
    split; [reflexivity|]. split; [reflexivity|]. split.
    { constructor; [|constructor; [|constructor]]; cbn [snd]; intros x Hx;
        do 2 (apply in_or_app; right); apply in_or_app; [now left | now right]. }
    right. eexists _, _. split; [reflexivity|]. split; reflexivity.
Qed.

(** What a turn of the ncu loop adds to the state. *)
Lemma ncu_point_shape st B N K i d :
  uncaught st = None ->
  let path := path_join output_dir (kernel_name st ++ dims_suffix B N K d) in
  exists fs code lines u,
    let c := {| call_cmd := ncu_argv path target_script i;
                call_env := overrides environ B N K; call_code := code |} in
    ncu_point st B N K i d = advance st fs (kernel_name st) [c] lines [] u
    /\ reported lines c
    /\ (u = None <-> code <> None)
    /\ (always_exits exec -> u = None)
    /\ length lines = 2 + (if exited_nonzero c then 1 else 0).
Proof.
  intros Hu path.
  destruct (ncu_point_split st B N K i d Hu)
    as [(e & fs1 & E1 & ->) | [(res & fs1 & E1 & Z1 & ->) | (res & fs1 & E1 & Z1 & ->)]];
    fold path; eexists _, _, _, _; (split; [reflexivity|]).
  - split; [apply reported_raised|]. split; [split; [discriminate | congruence]|].
    split; [intros H; now destruct (always_exits_not_raised _ _ _ _ _ H E1)|]. reflexivity.
  - split.
    { intros code [= <-] _. exists (kernel_name st), B, N, K, d, i.
      split; [|right; now right]. apply in_or_app. right. left. reflexivity. }
    split; [split; [discriminate | reflexivity]|]. split; [reflexivity|].
    unfold exited_nonzero. cbn [call_code].
    rewrite (proj2 (Z.eqb_neq _ _) Z1). reflexivity.
  - split; [apply reported_zero|]. split; [split; [discriminate | reflexivity]|].
    split; reflexivity.
Qed.

Lemma filter_not_profile (cs : list call) :
  Forall (fun c => is_profile c = false) cs -> List.filter is_profile cs = [].
Proof. induction 1 as [|c cs Hc _ IH]; simpl; [reflexivity | now rewrite Hc]. Qed.

Lemma profile_calls_advance st fs k c rest lines rs u :
  is_profile c = true -> Forall (fun c' => is_profile c' = false) rest ->
  profile_calls (advance st fs k (c :: rest) lines rs u) = profile_calls st ++ [c].
Proof.
  intros Hc Hrest. unfold profile_calls, advance. cbn [calls].
  rewrite List.filter_app. cbn [List.filter]. rewrite Hc.
  now rewrite (filter_not_profile rest Hrest).
Qed.

(** After an exception the remaining turns start in the same state and make
    no lookup. *)
Lemma trajectory_stuck pts st e :
  uncaught st = Some e ->
  flat_map rows_of (trajectory nsys_point pts st) = []
  /\ Forall (fun t => lookups t = []) (trajectory nsys_point pts st).
Proof.
  intros Hu. induction pts as [|[[[[B N] K] i] d] pts IH]; [split; constructor|].
  cbn [trajectory run_point flat_map]. rewrite (nsys_point_stuck _ _ _ _ _ _ e Hu).
  destruct IH as [IH1 IH2]. rewrite IH1, (rows_of_stuck_turn _ _ e Hu).
  split; [reflexivity|]. constructor; [|exact IH2].
  now apply (lookups_of_stuck_turn _ _ e).
Qed.

(** The nsys loop: the points get their profiler runs in loop order, up to
    the first command that cannot be run; a non-zero exit status is reported
    and the loop goes on; the rows are those of the turns. *)
Lemma nsys_fold (pts : list point) (st : sweep_state) :
  uncaught st = None ->
  let st' := fold_left (run_point nsys_point) pts st in
  exists n cs all lines,
    n <= length pts
    /\ profile_calls st' = profile_calls st ++ cs
    /\ calls st' = calls st ++ all
    /\ out st' = out st ++ lines
    /\ Forall2 (fun p c => exists prefix,
                  attempted_at environ nsys_run output_dir prefix p c) (firstn n pts) cs
    /\ (uncaught st' = None -> n = length pts /\ Forall (fun c => call_code c <> None) all)
    /\ (forall e, uncaught st' = Some e ->
                  exists c, last all = Some c /\ call_code c = None)
    /\ (always_exits exec -> uncaught st' = None)
    /\ Forall (reported lines) all
    /\ summary st' = summary st ++ flat_map rows_of (trajectory nsys_point pts st)
    /\ Forall (fun t => Forall (fun l => incl (printed (snd l)) lines) (lookups t))
         (trajectory nsys_point pts st).
Proof.
  revert st. induction pts as [|[[[[B N] K] i] d] pts IH]; intros st Hu;
    cbn [fold_left trajectory flat_map].
  - exists 0, [], [], []. rewrite !app_nil_r, Hu.
    repeat split; try constructor; discriminate.
  - cbn [run_point].
    destruct (nsys_point_shape st B N K i d Hu)
      as (fs & kn & code & rest & ls & rs & u & E & Hrest & Hrep & Hu' & Hex & Hrs & Hlk & _).
    cbv zeta in E. rewrite E. set (c := {| call_cmd := _ |}) in *.
    set (st1 := advance st fs kn (c :: rest) ls rs u).
    assert (profile_calls st1 = profile_calls st ++ [c]) as Hpc.
    { apply profile_calls_advance; [reflexivity|].
      eapply Forall_impl; [exact Hrest|]. now intros c' (H & _). }
    assert (exists prefix, attempted_at environ nsys_run output_dir prefix (B, N, K, i, d) c)
      as Hatt by (exists (kernel_name st); split; reflexivity).
    destruct u as [e|].
    + rewrite (nsys_fold_stuck pts st1 e eq_refl).
      destruct (trajectory_stuck pts st1 e eq_refl) as [Hrows Hnone].
      exists 1, [c], (c :: rest), ls.
      split; [simpl; lia|]. split; [exact Hpc|]. split; [reflexivity|].
      split; [reflexivity|]. split; [cbn [firstn]; constructor; [exact Hatt | constructor]|].
      split; [discriminate|]. split; [intros e' _; exact Hu'|].
      split; [intros H; now specialize (Hex H)|]. split; [exact Hrep|].
      split; [rewrite Hrows, app_nil_r; cbn [st1 advance summary]; now rewrite Hrs|].
      constructor; [exact Hlk|]. eapply Forall_impl; [exact Hnone|].
      intros t ->. constructor.
    + destruct (IH st1 eq_refl)
        as (n & cs & all & lines & Hn & Hcs & Hall & Hout & Hatts & Hnone & Hsome & Halw
            & Hreps & Hsum & Hlks).
      exists (S n), (c :: cs), ((c :: rest) ++ all), (ls ++ lines).
      split; [simpl; lia|].
      split; [rewrite Hcs, Hpc; now rewrite <- app_assoc|].
      split; [rewrite Hall; cbn [st1 advance calls]; now rewrite <- app_assoc|].
      split; [rewrite Hout; cbn [st1 advance out]; now rewrite <- app_assoc|].
      split; [cbn [firstn]; constructor; [exact Hatt | exact Hatts]|].
      split.
      { intros H. destruct (Hnone H) as [-> Hcodes]. split; [reflexivity|].
        apply Forall_app. split; [exact Hu' | exact Hcodes]. }
      split.
      { intros e H. destruct (Hsome e H) as (c0 & Hlast & Hc0). exists c0.
        split; [|exact Hc0]. rewrite last_app, Hlast. reflexivity. }
      split; [exact Halw|].
      split.
      { apply Forall_app. split.
        - eapply Forall_impl; [exact Hrep|]. intros c'. apply reported_more.
        - eapply Forall_impl; [exact Hreps|]. intros c'. apply reported_later. }
      split.
      { rewrite Hsum. cbn [st1 advance summary]. now rewrite Hrs, <- app_assoc. }
      constructor.
      * eapply Forall_impl; [exact Hlk|]. intros l Hl. now apply incl_appl.
      * eapply Forall_impl; [exact Hlks|]. intros t Ht.
        eapply Forall_impl; [exact Ht|]. intros l Hl. now apply incl_appr.
Qed.

(** The ncu loop: nothing but profiler runs, in loop order and under the
    kernel name of the start, up to the first command that cannot be run;
    no row; two lines per run and one more per non-zero exit status. *)
Lemma ncu_fold (pts : list point) (st : sweep_state) :
  uncaught st = None ->
  let st' := fold_left (run_point ncu_point) pts st in
  kernel_name st' = kernel_name st
  /\ summary st' = summary st
  /\ exists n cs lines,
       n <= length pts
       /\ calls st' = calls st ++ cs
       /\ out st' = out st ++ lines
       /\ List.filter is_profile cs = cs
       /\ Forall2 (attempted_at environ ncu_run output_dir (kernel_name st)) (firstn n pts) cs
       /\ (uncaught st' = None -> n = length pts /\ Forall (fun c => call_code c <> None) cs)
       /\ (forall e, uncaught st' = Some e ->
                     exists c, last cs = Some c /\ call_code c = None)
       /\ (always_exits exec -> uncaught st' = None)
       /\ Forall (reported lines) cs
       /\ length lines = 2 * length cs + length (List.filter exited_nonzero cs).
Proof.
  revert st. induction pts as [|[[[[B N] K] i] d] pts IH]; intros st Hu; cbn [fold_left].
  - split; [reflexivity|]. split; [reflexivity|].
    exists 0, [], []. rewrite !app_nil_r, Hu.
    repeat split; try constructor; discriminate.
  - cbn [run_point].
    destruct (ncu_point_shape st B N K i d Hu)
      as (fs & code & ls & u & E & Hrep & Hu' & Hex & Hlen).
    cbv zeta in E, Hrep, Hlen. rewrite E. set (c := {| call_cmd := _ |}) in *.
    set (st1 := advance st fs (kernel_name st) [c] ls [] u).
    assert (attempted_at environ ncu_run output_dir (kernel_name st) (B, N, K, i, d) c)
      as Hatt by (split; reflexivity).
    destruct u as [e|].
    + rewrite (ncu_fold_stuck pts st1 e eq_refl).
      split; [reflexivity|]. split; [cbn [st1 advance summary]; apply app_nil_r|].
      exists 1, [c], ls.
      split; [simpl; lia|]. split; [reflexivity|]. split; [reflexivity|].
      split; [reflexivity|]. split; [cbn [firstn]; constructor; [exact Hatt | constructor]|].
      split; [discriminate|].
      split.
      { intros e' _. exists c. split; [reflexivity|].
        destruct code as [z|]; [|reflexivity]. exfalso.
        assert (@Some exn e = None) as [=]. apply Hu'. discriminate. }
      split; [intros H; now specialize (Hex H)|].
      split; [repeat constructor; exact Hrep|].
      rewrite Hlen. cbn [List.filter length]. destruct (exited_nonzero c); simpl; lia.
    + destruct (IH st1 eq_refl)
        as (Hkn & Hsum & n & cs & lines & Hn & Hcs & Hout & Hprof & Hatts & Hnone & Hsome
            & Halw & Hreps & Hlines).
      split; [exact Hkn|].
      split; [rewrite Hsum; cbn [st1 advance summary]; apply app_nil_r|].
      exists (S n), (c :: cs), (ls ++ lines).
      split; [simpl; lia|].
      split; [rewrite Hcs; cbn [st1 advance calls]; now rewrite <- app_assoc|].
      split; [rewrite Hout; cbn [st1 advance out]; now rewrite <- app_assoc|].
      split; [cbn [List.filter]; change (is_profile c) with true; cbn iota;
              now rewrite Hprof|].
      split; [cbn [firstn]; constructor; [exact Hatt | exact Hatts]|].
      split.
      { intros H. destruct (Hnone H) as [-> Hcodes]. split; [reflexivity|].
        constructor; [|exact Hcodes]. now apply Hu'. }
      split.
      { intros e H. destruct (Hsome e H) as (c0 & Hlast & Hc0). exists c0.
        split; [|exact Hc0]. destruct cs; [discriminate | exact Hlast]. }
      split; [exact Halw|].
      split.
      { constructor; [now apply reported_more|].
        eapply Forall_impl; [exact Hreps|]. intros c'. apply reported_later. }
      rewrite length_app, Hlines, Hlen. cbn [List.filter length].
      destruct (exited_nonzero c); simpl; lia.
Qed.

(** *** The kernel name of the nsys loop *)

(** Once the kernel name is that of the second sub-kernel, it stays so and
    every output name starts with it. *)
Lemma nsys_fold_rebound (pts : list point) (st : sweep_state) :
  uncaught st = None -> kernel_name st = "topKStage2Sampling" ->
  let st' := fold_left (run_point nsys_point) pts st in
  kernel_name st' = "topKStage2Sampling"
  /\ exists n cs rs,
       n <= length pts
       /\ profile_calls st' = profile_calls st ++ cs
       /\ summary st' = summary st ++ rs
       /\ Forall2 (attempted_at environ nsys_run output_dir "topKStage2Sampling")
            (firstn n pts) cs
       /\ (uncaught st' = None -> n = length pts).
Proof.
  revert st. induction pts as [|[[[[B N] K] i] d] pts IH]; intros st Hu Hk; cbn [fold_left].
  - split; [exact Hk|]. exists 0, [], []. rewrite !app_nil_r.
    repeat split; auto; constructor.
  - cbn [run_point].
    destruct (nsys_point_shape st B N K i d Hu)
      as (fs & kn & code & rest & ls & rs & u & E & Hrest & _ & _ & _ & _ & _ & Hkn).
    cbv zeta in E. rewrite E. set (c := {| call_cmd := _ |}) in *.
    set (st1 := advance st fs kn (c :: rest) ls rs u).
    assert (profile_calls st1 = profile_calls st ++ [c]) as Hpc.
    { apply profile_calls_advance; [reflexivity|].
      eapply Forall_impl; [exact Hrest|]. now intros c' (H & _). }
    assert (attempted_at environ nsys_run output_dir "topKStage2Sampling" (B, N, K, i, d) c)
      as Hatt by (rewrite <- Hk; split; reflexivity).
    assert (kn = "topKStage2Sampling") as Hkn'
      by (destruct Hkn as [[_ ->] | (A1 & A2 & _ & -> & _)]; [exact Hk | reflexivity]).
    destruct u as [e|].
    + rewrite (nsys_fold_stuck pts st1 e eq_refl). split; [exact Hkn'|].
      exists 1, [c], rs. split; [simpl; lia|]. split; [exact Hpc|].
      split; [reflexivity|]. split; [cbn [firstn]; constructor; [exact Hatt | constructor]|].
      discriminate.
    + destruct (IH st1 eq_refl Hkn') as (Hk' & n & cs & rs' & Hn & Hcs & Hrs & Hatts & Hnone).
      split; [exact Hk'|]. exists (S n), (c :: cs), (rs ++ rs').
      split; [simpl; lia|]. split; [rewrite Hcs, Hpc; now rewrite <- app_assoc|].
      split; [rewrite Hrs; cbn [st1 advance summary]; now rewrite <- app_assoc|].
      split; [cbn [firstn]; constructor; [exact Hatt | exact Hatts]|].
      intros H. now rewrite (Hnone H).
Qed.

(** The output names use the kernel name of the start up to and including
    the first point whose two commands exit with status 0, and the name of
    the second sub-kernel after it. *)
Lemma nsys_fold_phases (pts : list point) (st : sweep_state) :
  uncaught st = None ->
  let st' := fold_left (run_point nsys_point) pts st in
  exists n pts1 pts2 cs1 cs2 rs,
    n <= length pts /\ firstn n pts = pts1 ++ pts2
    /\ profile_calls st' = profile_calls st ++ cs1 ++ cs2
    /\ summary st' = summary st ++ rs
    /\ Forall2 (attempted_at environ nsys_run output_dir (kernel_name st)) pts1 cs1
    /\ Forall2 (attempted_at environ nsys_run output_dir "topKStage2Sampling") pts2 cs2
    /\ (uncaught st' = None -> n = length pts)
    /\ (pts <> [] -> pts1 <> [])
    /\ ((rs = [] /\ kernel_name st' = kernel_name st /\ pts2 = [])
        \/ (rs <> [] /\ kernel_name st' = "topKStage2Sampling")).
Proof.
  revert st. induction pts as [|[[[[B N] K] i] d] pts IH]; intros st Hu; cbn [fold_left].
  - exists 0, [], [], [], [], []. rewrite !app_nil_r.
    repeat split; try constructor; auto.
  - cbn [run_point].
    destruct (nsys_point_shape st B N K i d Hu)
      as (fs & kn & code & rest & ls & rs & u & E & Hrest & _ & _ & _ & _ & _ & Hkn).
    cbv zeta in E. rewrite E. set (c := {| call_cmd := _ |}) in *.
    set (st1 := advance st fs kn (c :: rest) ls rs u).
    assert (profile_calls st1 = profile_calls st ++ [c]) as Hpc.
    { apply profile_calls_advance; [reflexivity|].
      eapply Forall_impl; [exact Hrest|]. now intros c' (H & _). }
    assert (attempted_at environ nsys_run output_dir (kernel_name st) (B, N, K, i, d) c)
      as Hatt by (split; reflexivity).
    destruct Hkn as [[-> ->] | (A1 & A2 & -> & -> & ->)].
    + destruct u as [e|].
      * rewrite (nsys_fold_stuck pts st1 e eq_refl).
        exists 1, [(B, N, K, i, d)], [], [c], [], [].
        split; [simpl; lia|]. split; [reflexivity|]. split; [exact Hpc|].
        split; [reflexivity|]. split; [constructor; [exact Hatt | constructor]|].
        split; [constructor|]. split; [discriminate|]. split; [discriminate|].
        left. auto.
      * destruct (IH st1 eq_refl)
          as (n & pts1 & pts2 & cs1 & cs2 & rs' & Hn & Hpts & Hcs & Hrs & H1 & H2 & Hnone
              & _ & Hend).
        exists (S n), ((B, N, K, i, d) :: pts1), pts2, (c :: cs1), cs2, rs'.
        split; [simpl; lia|]. split; [cbn [firstn]; now rewrite Hpts|].
        split; [rewrite Hcs, Hpc; now rewrite <- !app_assoc|].
        split; [rewrite Hrs; cbn [st1 advance summary]; now rewrite app_nil_r|].
        split; [constructor; [exact Hatt | exact H1]|]. split; [exact H2|].
        split; [intros H; now rewrite (Hnone H)|]. split; [discriminate | exact Hend].
    + destruct (nsys_fold_rebound pts st1 eq_refl eq_refl)
        as (Hk' & n & cs & rs' & Hn & Hcs & Hrs & Hatts & Hnone).
      exists (S n), [(B, N, K, i, d)], (firstn n pts), [c], cs, (row_of "topKStage1" B N K d A1 :: row_of "topKStage2Sampling" B N K d A2 :: rs').
      split; [simpl; lia|]. split; [reflexivity|].
      split; [rewrite Hcs, Hpc; now rewrite <- !app_assoc|].
      split; [rewrite Hrs; cbn [st1 advance summary]; now rewrite <- app_assoc|].
      split; [constructor; [exact Hatt | constructor]|]. split; [exact Hatts|].
      split; [intros H; now rewrite (Hnone H)|]. split; [discriminate|].
      right. split; [discriminate | exact Hk'].
Qed.

(** *** Calls and rows of the nsys loop, counted and in order *)

Lemma nsys_fold_counts (pts : list point) (st : sweep_state) :
  uncaught st = None ->
  let st' := fold_left (run_point nsys_point) pts st in
  exists cs rs,
    calls st' = calls st ++ cs /\ summary st' = summary st ++ rs
    /\ length (List.filter is_stats_call cs)
       = length (List.filter (fun c => is_profile c && exited_zero c) cs)
    /\ length rs
       = 2 * length (List.filter (fun c => is_stats_call c && exited_zero c) cs)
    /\ length cs
       = length (List.filter is_profile cs) + length (List.filter is_stats_call cs).
Proof.
  revert st. induction pts as [|[[[[B N] K] i] d] pts IH]; intros st Hu; cbn [fold_left].
  - exists [], []. now rewrite !app_nil_r.
  - cbn [run_point].
    assert (forall fs kn cs ls rs u,
              (u = None -> exists cs' rs',
                 calls (fold_left (run_point nsys_point) pts (advance st fs kn cs ls rs u))
                 = calls (advance st fs kn cs ls rs u) ++ cs'
                 /\ summary (fold_left (run_point nsys_point) pts
                               (advance st fs kn cs ls rs u))
                    = summary (advance st fs kn cs ls rs u) ++ rs'
                 /\ length (List.filter is_stats_call cs')
                    = length (List.filter (fun c => is_profile c && exited_zero c) cs')
                 /\ length rs'
                    = 2 * length (List.filter (fun c => is_stats_call c && exited_zero c)
                                    cs')
                 /\ length cs'
                    = length (List.filter is_profile cs')
                      + length (List.filter is_stats_call cs'))
              /\ (forall e, u = Some e ->
                    fold_left (run_point nsys_point) pts (advance st fs kn cs ls rs u)
                    = advance st fs kn cs ls rs u)) as Hrest.
    { intros fs kn cs ls rs u. split.
      - intros ->. apply IH. reflexivity.
      - intros e ->. now apply (nsys_fold_stuck _ _ e). }
    destruct (nsys_point_split st B N K i d Hu)
      as [(e & fs1 & E1 & _ & ->)
         | [(res & fs1 & E1 & Z1 & _ & ->)
           | [(res & fs1 & e & fs2 & E1 & Z1 & E2 & _ & ->)
             | [(res & fs1 & res' & fs2 & E1 & Z1 & E2 & Z2 & _ & ->)
               | (res & fs1 & res' & fs2 & E1 & Z1 & E2 & Z2 & _ & ->)]]]];
      match goal with
      | |- context [advance st ?f ?k ?cs ?l ?rs ?u] =>
          destruct (Hrest f k cs l rs u) as [Hnone Hsome];
          first [ rewrite (Hsome _ eq_refl); exists cs, rs
                | destruct (Hnone eq_refl) as (cs' & rs' & Hcs & Hrs & H1 & H2 & H3);
                  exists (cs ++ cs'), (rs ++ rs');
                  rewrite Hcs, Hrs ]
      end;
      cbn [advance calls summary]; rewrite <- ?app_assoc;
      (split; [reflexivity|]); (split; [reflexivity|]);
      rewrite ?List.filter_app, ?length_app;
      repeat match goal with
             | |- context [length (List.filter ?f ?l)] =>
                 is_var l; let n := fresh "n" in set (n := length (List.filter f l)) in *
             | |- context [length ?l] =>
                 is_var l; let n := fresh "n" in set (n := length l) in *
             end;
      cbn [List.filter exited_zero is_profile is_stats_call call_cmd call_code
             nsys_argv stats_argv String.eqb Ascii.eqb Bool.eqb andb orb];
      rewrite ?(proj2 (Z.eqb_neq _ _) Z1), ?(proj2 (Z.eqb_neq _ _) Z2);
      cbn [List.filter andb orb Z.eqb length app]; repeat split; lia.
Qed.

Lemma nsys_fold_keys (pts : list point) (st : sweep_state) :
  uncaught st = None ->
  let st' := fold_left (run_point nsys_point) pts st in
  exists done rs,
    sublist done pts /\ summary st' = summary st ++ rs
    /\ map row_key rs = flat_map point_keys done.
Proof.
  revert st. induction pts as [|[[[[B N] K] i] d] pts IH]; intros st Hu; cbn [fold_left].
  - exists [], []. now rewrite app_nil_r.
  - cbn [run_point].
    destruct (nsys_point_shape st B N K i d Hu)
      as (fs & kn & code & rest & ls & rs & u & E & _ & _ & _ & _ & _ & _ & Hkn).
    cbv zeta in E. rewrite E. set (st1 := advance st fs kn _ ls rs u).
    assert (exists done rs', sublist done pts
              /\ summary (fold_left (run_point nsys_point) pts st1) = summary st1 ++ rs'
              /\ map row_key rs' = flat_map point_keys done)
      as (done & rs' & Hsub & Hrs & Hkeys).
    { destruct u as [e|]; [|now apply IH].
      rewrite (nsys_fold_stuck pts st1 e eq_refl). exists [], [].
      split; [apply sublist_nil_l|]. now rewrite app_nil_r. }
    destruct Hkn as [[-> _] | (A1 & A2 & -> & _ & _)].
    + exists done, rs'. split; [now apply sublist_cons|].
      split; [rewrite Hrs; cbn [st1 advance summary]; now rewrite app_nil_r | exact Hkeys].
    + exists ((B, N, K, i, d) :: done), (row_of "topKStage1" B N K d A1 :: row_of "topKStage2Sampling" B N K d A2 :: rs').
      split; [now apply sublist_skip|].
      split; [rewrite Hrs; cbn [st1 advance summary]; now rewrite <- app_assoc|].
      cbn [map flat_map point_keys app]. rewrite Hkeys. reflexivity.
Qed.

(** *** The environments of the calls *)

Lemma nsys_fold_envs (Bs Ns Ks : list Z) (ds : list string) (pts : list point)
    (st : sweep_state) :
  uncaught st = None ->
  Forall (fun p => In p (sweep_points Bs Ns Ks ds)) pts ->
  let st' := fold_left (run_point nsys_point) pts st in
  exists cs,
    calls st' = calls st ++ cs
    /\ Forall (fun c => if is_profile c
                        then exists B N K, In B Bs /\ In N Ns /\ In K Ks
                                           /\ call_env c = overrides environ B N K
                        else is_stats_call c = true /\ call_env c = environ) cs.
Proof.
  revert st. induction pts as [|[[[[B N] K] i] d] pts IH]; intros st Hu Hin; cbn [fold_left].
  - exists []. split; [now rewrite app_nil_r | constructor].
  - cbn [run_point]. apply Forall_cons in Hin as [Hp Hin].
    apply in_sweep_points in Hp as (HB & HN & HK & _).
    destruct (nsys_point_shape st B N K i d Hu)
      as (fs & kn & code & rest & ls & rs & u & E & Hrest & _).
    cbv zeta in E. rewrite E. set (c := {| call_cmd := _ |}) in *.
    set (st1 := advance st fs kn (c :: rest) ls rs u).
    assert (exists cs, calls (fold_left (run_point nsys_point) pts st1) = calls st1 ++ cs
              /\ Forall (fun c => if is_profile c
                                  then exists B N K, In B Bs /\ In N Ns /\ In K Ks
                                         /\ call_env c = overrides environ B N K
                                  else is_stats_call c = true /\ call_env c = environ) cs)
      as (cs & Hcs & Hall).
    { destruct u as [e|]; [|now apply IH].
      rewrite (nsys_fold_stuck pts st1 e eq_refl). exists [].
      split; [now rewrite app_nil_r | constructor]. }
    exists ((c :: rest) ++ cs).
    split; [rewrite Hcs; cbn [st1 advance calls]; now rewrite <- app_assoc|].
    apply Forall_app. split; [|exact Hall]. constructor.
    + change (is_profile c) with true. cbn iota. exists B, N, K. auto.
    + eapply Forall_impl; [exact Hrest|]. intros c' (-> & H1 & H2). auto.
Qed.

(** *** Rows of the points whose commands succeed *)

Lemma overrides_batch_size B N K :
  overrides environ B N K !! "TEST_BATCH_SIZE" = Some (PyStr.str_int B).
Proof.
  unfold overrides.
  rewrite lookup_insert_ne by discriminate. rewrite lookup_insert_ne by discriminate.
  apply lookup_insert_eq.
Qed.

(** When every command runs and only commands with batch size 8 in their
    environment can exit with a non-zero status, every point with another
    batch size gets its two rows. *)
Lemma nsys_rows_other_B (pts : list point) (st : sweep_state) :
  (forall fs cmd env, exists res,
      fst (exec fs cmd env) = Exited res
      /\ (env !! "TEST_BATCH_SIZE" <> Some "8" -> returncode res = 0%Z)) ->
  environ !! "TEST_BATCH_SIZE" <> Some "8" ->
  uncaught st = None ->
  let st' := fold_left (run_point nsys_point) pts st in
  (forall r, In r (summary st) -> In r (summary st'))
  /\ forall B N K i d, In (B, N, K, i, d) pts -> B <> 8%Z ->
       exists Avg1 Avg2,
         In (row_of "topKStage1" B N K d Avg1) (summary st')
         /\ In (row_of "topKStage2Sampling" B N K d Avg2) (summary st').
Proof.
  intros Hok Henv. revert st.
  induction pts as [|[[[[B0 N0] K0] i0] d0] pts IH]; intros st Hu; cbn [fold_left].
  - split; [auto | intros B N K i d []].
  - cbn [run_point].
    assert (forall fs cmd env o fs', exec fs cmd env = (o, fs') ->
              exists res, o = Exited res
                /\ (env !! "TEST_BATCH_SIZE" <> Some "8" -> returncode res = 0%Z)) as Hok'.
    { intros fs cmd env o fs' E. destruct (Hok fs cmd env) as (res & Hres & H0).
      rewrite E in Hres. eauto. }
    assert (forall B, B <> 8%Z -> overrides environ B N0 K0 !! "TEST_BATCH_SIZE" <> Some "8")
      as Hother.
    { intros B HB. rewrite overrides_batch_size. intros [= H8]. apply HB.
      now apply str_int_inj. }
    destruct (nsys_point_split st B0 N0 K0 i0 d0 Hu)
      as [(e & fs1 & E1 & _ & ->)
         | [(res & fs1 & E1 & Z1 & _ & ->)
           | [(res & fs1 & e & fs2 & E1 & Z1 & E2 & _ & ->)
             | [(res & fs1 & res' & fs2 & E1 & Z1 & E2 & Z2 & _ & ->)
               | (res & fs1 & res' & fs2 & E1 & Z1 & E2 & Z2 & _ & ->)]]]].
    + destruct (Hok' _ _ _ _ _ E1) as (res & [=] & _).
    + match goal with
      | |- context [advance st ?f ?k ?cs ?l ?rs ?u] =>
          destruct (IH (advance st f k cs l rs u) eq_refl) as (IHmono & IHrows)
      end.
      split.
      * intros r Hr. apply IHmono. cbn [advance summary]. apply in_or_app. now left.
      * intros B N K i d [[= -> -> -> -> ->] | Hin] HB; [|now apply IHrows with (i := i)].
        destruct (Hok' _ _ _ _ _ E1) as (res0 & [= <-] & H0). now destruct Z1, (H0 (Hother B HB)).
    + destruct (Hok' _ _ _ _ _ E2) as (res0 & [=] & _).
    + destruct (Hok' _ _ _ _ _ E2) as (res0 & [= <-] & H0). now destruct Z2, (H0 Henv).
    + match goal with
      | |- context [advance st ?f ?k ?cs ?l ?rs ?u] =>
          destruct (IH (advance st f k cs l rs u) eq_refl) as (IHmono & IHrows)
      end.
      split.
      * intros r Hr. apply IHmono. cbn [advance summary]. apply in_or_app. now left.
      * intros B N K i d [[= -> -> -> -> ->] | Hin] HB; [|now apply IHrows with (i := i)].
        eexists _, _. split; apply IHmono; cbn [advance summary]; apply in_or_app; right;
          [left | right; left]; reflexivity.
Qed.

(** *** The two drivers *)

Abbreviation nsys_profile :=
  (Profiling.nsys_profile_samplingtopK environ exec str_CalledProcessError).
Abbreviation ncu_profile :=
  (Profiling.ncu_profile_samplingtopK environ exec str_CalledProcessError).

(** The nsys driver: the loop from the start state, and the two last lines
    and the path of the summary unless an exception left the loop. *)
Lemma nsys_driver_fields fs Bs Ns Ks ds kn csv_name :
  let st := fold_left (run_point nsys_point) (sweep_points Bs Ns Ks ds)
              (Profiling.start fs kn) in
  let run := nsys_profile fs Bs Ns Ks ds kn output_dir csv_name target_script in
  files (fst run) = files st /\ kernel_name (fst run) = kernel_name st
  /\ calls (fst run) = calls st /\ summary (fst run) = summary st
  /\ uncaught (fst run) = uncaught st
  /\ out (fst run)
     = out st ++ match uncaught st with
                 | None => ["All nsys profile finished.";
                            ("Summary data saved to " ++ path_join output_dir csv_name)%string]
                 | Some _ => []
                 end
  /\ snd run = match uncaught st with
               | None => Some (path_join output_dir csv_name)
               | Some _ => None
               end.
Proof.
  intros st run. subst run. unfold Profiling.nsys_profile_samplingtopK.
  rewrite sweep_as_fold. fold st. destruct (uncaught st) eqn:Hu; cbn [fst snd].
  - rewrite app_nil_r. auto 10.
  - cbn [Profiling.say files kernel_name calls summary uncaught out]. auto 10.
Qed.

Lemma ncu_driver_fields fs Bs Ns Ks ds kn :
  let st := fold_left (run_point ncu_point) (sweep_points Bs Ns Ks ds)
              (Profiling.start fs kn) in
  let st' := ncu_profile fs Bs Ns Ks ds kn output_dir target_script in
  files st' = files st /\ kernel_name st' = kernel_name st
  /\ calls st' = calls st /\ summary st' = summary st
  /\ uncaught st' = uncaught st
  /\ out st' = out st ++ match uncaught st with
                         | None => ["All ncu profile finished."]
                         | Some _ => []
                         end.
Proof.
  intros st st'. subst st'. unfold Profiling.ncu_profile_samplingtopK.
  rewrite sweep_as_fold. fold st. destruct (uncaught st) eqn:Hu.
  - rewrite app_nil_r. auto 10.
  - cbn [Profiling.say files kernel_name calls summary uncaught out]. auto 10.
Qed.

Lemma profile_calls_eq (st st' : sweep_state) :
  calls st = calls st' -> profile_calls st = profile_calls st'.
Proof. unfold profile_calls. now intros ->. Qed.

End SweepSteps.

(** ** Claims about the sweep drivers *)

Section SweepClaims.

Variable environ : gmap string string.
Variable exec : filesystem -> list string -> gmap string string
                -> outcome * filesystem.
Variable str_CalledProcessError : list string -> Z -> string.
Variables output_dir target_script : string.

Abbreviation nsys_point' :=
  (Profiling.nsys_point environ exec str_CalledProcessError output_dir target_script).
Abbreviation ncu_point' :=
  (Profiling.ncu_point environ exec str_CalledProcessError output_dir target_script).
Abbreviation nsys_run' := (fun path i => nsys_argv path target_script i).
Abbreviation ncu_run' := (fun path i => ncu_argv path target_script i).
Abbreviation nsys_profile' :=
  (Profiling.nsys_profile_samplingtopK environ exec str_CalledProcessError).
Abbreviation ncu_profile' :=
  (Profiling.ncu_profile_samplingtopK environ exec str_CalledProcessError).
Abbreviation reported' := (failure_reported str_CalledProcessError output_dir target_script).
Abbreviation lookups' := (lookups_of_turn environ exec output_dir target_script).
Abbreviation rows_of' := (rows_of_turn environ exec output_dir target_script).

(** The end state of the nsys driver. *)
Lemma nsys_profile_end fs Bs Ns Ks ds kn csv_name :
  let pts := sweep_points Bs Ns Ks ds in
  let run := nsys_profile' fs Bs Ns Ks ds kn output_dir csv_name target_script in
  exists n,
    n <= length pts
    /\ Forall2 (fun p c => exists prefix,
                  attempted_at environ nsys_run' output_dir prefix p c)
         (firstn n pts) (profile_calls (fst run))
    /\ (uncaught (fst run) = None ->
        n = length pts /\ snd run = Some (path_join output_dir csv_name)
        /\ Forall (fun c => call_code c <> None) (calls (fst run)))
    /\ (forall e, uncaught (fst run) = Some e ->
          snd run = None
          /\ exists c, last (calls (fst run)) = Some c /\ call_code c = None)
    /\ (always_exits exec -> uncaught (fst run) = None)
    /\ Forall (reported' (out (fst run))) (calls (fst run))
    /\ summary (fst run) = flat_map rows_of' (trajectory nsys_point' pts (Profiling.start fs kn))
    /\ Forall (fun t => Forall (fun l => incl (printed (snd l)) (out (fst run))) (lookups' t))
         (trajectory nsys_point' pts (Profiling.start fs kn)).
Proof.
  intros pts run.
  destruct (nsys_driver_fields environ exec str_CalledProcessError output_dir target_script
              fs Bs Ns Ks ds kn csv_name) as (_ & _ & Hc & Hs & Hu & Ho & Hr).
  fold run in Hc, Hs, Hu, Ho, Hr. fold pts in Hc, Hs, Hu, Ho, Hr. clearbody run.
  destruct (nsys_fold environ exec str_CalledProcessError output_dir target_script
              pts (Profiling.start fs kn) eq_refl)
    as (n & cs & all & lines & Hn & Hcs & Hall & Hout & Hatt & Hnone & Hsome & Halw & Hrep
        & Hsum & Hlk).
  rewrite (profile_calls_eq _ _ Hc), Hc, Hs, Hu, Ho, Hr, Hcs, Hall, Hout, Hsum.
  change (profile_calls (Profiling.start fs kn)) with (@nil call).
  change (calls (Profiling.start fs kn)) with (@nil call).
  change (summary (Profiling.start fs kn)) with (@nil summary_row).
  rewrite !app_nil_l.
  exists n. split; [exact Hn|]. split; [exact Hatt|]. split.
  { intros H. rewrite H. destruct (Hnone H) as [-> Hcodes]. auto. }
  split.
  { intros e H. rewrite H. split; [reflexivity|]. exact (Hsome e H). }
  split; [exact Halw|]. split.
  { eapply Forall_impl; [exact Hrep|]. intros c Hcr.
    rewrite <- app_assoc. apply reported_later. now apply reported_more. }
  split; [reflexivity|].
  eapply Forall_impl; [exact Hlk|]. intros t Ht.
  eapply Forall_impl; [exact Ht|]. intros l Hl.
  rewrite <- app_assoc. apply incl_appr. now apply incl_appl.
Qed.

(** The end state of the ncu driver. *)
Lemma ncu_profile_end fs Bs Ns Ks ds kn :
  let pts := sweep_points Bs Ns Ks ds in
  let st := ncu_profile' fs Bs Ns Ks ds kn output_dir target_script in
  kernel_name st = kn /\ summary st = [] /\ profile_calls st = calls st
  /\ exists n,
       n <= length pts
       /\ Forall2 (attempted_at environ ncu_run' output_dir kn) (firstn n pts) (calls st)
       /\ (uncaught st = None ->
           n = length pts /\ Forall (fun c => call_code c <> None) (calls st))
       /\ (forall e, uncaught st = Some e ->
             exists c, last (calls st) = Some c /\ call_code c = None)
       /\ (always_exits exec -> uncaught st = None)
       /\ Forall (reported' (out st)) (calls st)
       /\ length (out st)
          = 1 + 2 * length (calls st) + length (List.filter exited_nonzero (calls st))
            + match uncaught st with Some _ => 0 | None => 1 end.
Proof.
  intros pts st.
  destruct (ncu_driver_fields environ exec str_CalledProcessError output_dir target_script
              fs Bs Ns Ks ds kn) as (_ & Hk & Hc & Hs & Hu & Ho).
  fold st in Hk, Hc, Hs, Hu, Ho. fold pts in Hk, Hc, Hs, Hu, Ho. clearbody st.
  destruct (ncu_fold environ exec str_CalledProcessError output_dir target_script
              pts (Profiling.start fs kn) eq_refl)
    as (Hkn & Hsum & n & cs & lines & Hn & Hcs & Hout & Hprof & Hatt & Hnone & Hsome & Halw
        & Hrep & Hlen).
  rewrite (profile_calls_eq _ _ Hc), Hk, Hc, Hs, Hu, Ho, Hkn, Hsum, Hcs, Hout.
  unfold profile_calls. rewrite Hcs.
  change (calls (Profiling.start fs kn)) with (@nil call).
  rewrite !app_nil_l.
  split; [reflexivity|]. split; [reflexivity|]. split; [exact Hprof|].
  exists n. split; [exact Hn|]. split; [exact Hatt|].
  split; [exact Hnone|]. split; [exact Hsome|]. split; [exact Halw|]. split.
  { eapply Forall_impl; [exact Hrep|]. intros c Hcr.
    rewrite <- app_assoc. apply reported_later. now apply reported_more. }
  rewrite !length_app, Hlen. change (length (out (Profiling.start fs kn))) with 1.
  destruct (uncaught (fold_left _ _ _)); cbn [length]; lia.
Qed.


(** What a lookup returns is one cell of the table it loaded, or nothing,
    and then it has printed a diagnostic. *)
Lemma lookup_result_cases (fs : filesystem) (path name : string) :
  let m := CsvParser.find_kernel_metric fs path name "Duration" 0 in
  match lookup_result m with
  | Some v =>
      exists df i j c,
        CsvParser.read_table fs path 0 = ret df
        /\ CsvParser.find_row name df = Some i
        /\ CsvParser.find_col "Duration" df = Some (j, c)
        /\ cell_at df i j = Some v
  | None => exists line, In line (printed m) /\ is_diagnostic line = true
  end.
Proof.
  intros m. destruct (lookup_returns fs path name "Duration" 0) as (v & lines & E).
  subst m. unfold lookup_result, printed. rewrite E. cbn [fst snd].
  destruct v as [v|].
  - exact (lookup_Some_inv _ _ _ _ _ _ _ E).
  - destruct (lookup_None_diagnostic _ _ _ _ _ _ E) as (line & Hlast & Hdiag).
    exists line. split; [|exact Hdiag].
    apply last_Some in Hlast as [l' ->]. apply in_or_app. right. now left.
Qed.

(** Every lookup of a turn is a lookup of the metric "Duration" for the
    sub-kernel it is listed with. *)
Lemma lookups_of_turn_lookups (t : sweep_state * point) :
  Forall (fun l => exists fs path,
            snd l = CsvParser.find_kernel_metric fs path (fst l) "Duration" 0)
    (lookups' t).
Proof.
  destruct t as [st [[[[B N] K] i] d]]. cbn [lookups_of_turn].
  destruct (uncaught st); [constructor|].
  destruct (exec (files st) _ _) as [[res|e] fs1]; [|constructor].
  destruct (returncode res =? 0)%Z; [|constructor].
  destruct (exec fs1 _ _) as [[res'|e'] fs2]; [|constructor].
  destruct (returncode res' =? 0)%Z; [|constructor].
  repeat constructor; eexists _, _; reflexivity.
Qed.

(** A row without a value comes from a lookup that printed a diagnostic. *)
Lemma rows_without_value (turns : list (sweep_state * point)) (lines : list string) :
  Forall (fun t => Forall (fun l => incl (printed (snd l)) lines) (lookups' t)) turns ->
  Forall (fun r => row_Avg r = None ->
                   exists line, In line lines /\ is_diagnostic line = true)
    (flat_map rows_of' turns).
Proof.
  induction 1 as [|t turns Ht _ IH]; cbn [flat_map]; [constructor|].
  apply Forall_app. split; [|exact IH]. clear IH.
  pose proof (lookups_of_turn_lookups t) as Hl. unfold rows_of_turn.
  destruct t as [st [[[[B N] K] i] d]].
  induction Ht as [|l ls Hincl _ IH]; cbn [map]; [constructor|].
  apply Forall_cons in Hl as [(fs' & path & Hm) Hl]. constructor; [|now apply IH].
  cbn [row_of row_Avg]. intros Hnone.
  pose proof (lookup_result_cases fs' path (fst l)) as Hcase. cbv zeta in Hcase.
  rewrite <- Hm, Hnone in Hcase. destruct Hcase as (line & Hin & Hdiag).
  exists line. split; [now apply Hincl | exact Hdiag].
Qed.


(** C9, amended. The summary is, turn by turn, the rows of the lookups the
    turn made: none unless the profiler and the stats export of the turn
    both exited with status 0, and then one row per sub-kernel, holding what
    the lookup returned on the trace that this stats export left for the
    output name of the turn. What a lookup returned is the value of exactly
    one cell of that table, the one at the first matching row and the first
    column matching "Duration", or None; a lookup that finds no value has
    printed a diagnostic, which is in the output of the driver, and its row
    is written all the same, with None as metric value. *)
Theorem C9_summary_rows (fs : filesystem) (Bs Ns Ks : list Z) (ds : list string)
    (kn csv_name : string) :
  let pts := sweep_points Bs Ns Ks ds in
  let nsys_st := fst (nsys_profile' fs Bs Ns Ks ds kn output_dir csv_name target_script) in
  let turns := trajectory nsys_point' pts (Profiling.start fs kn) in
  summary nsys_st = flat_map rows_of' turns
  /\ Forall (fun t => Forall (fun l => incl (printed (snd l)) (out nsys_st)) (lookups' t))
       turns
  /\ (forall fs' path name,
        let m := CsvParser.find_kernel_metric fs' path name "Duration" 0 in
        match lookup_result m with
        | Some v =>
            exists df i j c,
              CsvParser.read_table fs' path 0 = ret df
              /\ CsvParser.find_row name df = Some i
              /\ CsvParser.find_col "Duration" df = Some (j, c)
              /\ cell_at df i j = Some v
        | None => exists line, In line (printed m) /\ is_diagnostic line = true
        end)
  /\ Forall (fun r => row_Avg r = None ->
                      exists line, In line (out nsys_st) /\ is_diagnostic line = true)
       (summary nsys_st).
Proof.
  intros pts nsys_st turns.
  destruct (nsys_profile_end fs Bs Ns Ks ds kn csv_name)
    as (n & _ & _ & _ & _ & _ & _ & Hsum & Hlk).
  fold nsys_st in Hsum, Hlk. fold pts in Hsum, Hlk. fold turns in Hsum, Hlk.
  split; [exact Hsum|]. split; [exact Hlk|]. split; [exact lookup_result_cases|].
  rewrite Hsum. now apply rows_without_value.
Qed.

End SweepClaims.

(** ** The claims on the concrete world *)


(** C9 as stated fails. When the exported trace has no row for the second
    sub-kernel, its lookup returns None after a warning, and the row is in
    the summary all the same, with an empty metric field. *)
Lemma C9_counterexample :
  let st := fst (Demo.nsys_with Demo.trace_stage1_only [1]%Z [129280]%Z [50]%Z
                   ["float32"] "samplingtopK") in
  summary st = [row_of "topKStage1" 1 129280 50 "float32" (Some (CInt 43392));
                row_of "topKStage2Sampling" 1 129280 50 "float32" None]
  /\ map csv_fields (summary st)
     = [["topKStage1"; "1"; "129280"; "50"; "float32"; "43392"];
        ["topKStage2Sampling"; "1"; "129280"; "50"; "float32"; ""]]
  /\ List.filter is_diagnostic (out st)
     = ["Warning: Kernel 'topKStage2Sampling' not found in file"].
Proof. cbv zeta. repeat split; vm_compute; reflexivity. Qed.

(** In the concrete world every command runs, and exits with status 0 unless
    the batch size in its environment is 8. *)
Lemma demo_exec_fails_only_for_8 (table : DataFrame) fs cmd (env : gmap string string) :
  exists res,
    fst (Demo.exec_with table fs cmd env) = Exited res
    /\ (env !! "TEST_BATCH_SIZE" <> Some "8" -> returncode res = 0%Z).
Proof.
  unfold Demo.exec_with. destruct (Demo.is_stats cmd); [eexists; split; reflexivity|].
  case_bool_decide as H8; eexists; (split; [reflexivity|]); [contradiction | reflexivity].
Qed.

Lemma demo_always_exits (table : DataFrame) : always_exits (Demo.exec_with table).
Proof.
  intros fs cmd env. destruct (demo_exec_fails_only_for_8 table fs cmd env) as (res & H & _).
  now exists res.
Qed.

Lemma demo_environ_batch_size : Demo.environ !! "TEST_BATCH_SIZE" <> Some "8".
Proof. unfold Demo.environ. now rewrite lookup_singleton_ne. Qed.



Lemma C9_summary_rows_witness :
  summary (fst (Demo.nsys_with Demo.trace_stage1_only [1; 8]%Z [129280]%Z [50]%Z
                  ["float32"] "samplingtopK"))
  = [row_of "topKStage1" 1 129280 50 "float32" (Some (CInt 43392));
     row_of "topKStage2Sampling" 1 129280 50 "float32" None].
Proof.
  unfold Demo.nsys_with.
  rewrite (proj1 (C9_summary_rows Demo.environ (Demo.exec_with Demo.trace_stage1_only)
                    Demo.str_CalledProcessError "./nsys_results" "./samplingKernelsTest"
                    Demo.no_files [1; 8]%Z [129280]%Z [50]%Z ["float32"] "samplingtopK"
                    "kernel_summary.csv")).
  vm_compute. reflexivity.
Defined.

(** * Further properties of the lookups *)

Section LookupExtras.

Import CsvParser.

(** X1. On a loaded table the single-metric lookup returns the cell at the
    first matching row and the first matching column, and None when either
    search finds nothing; it returns a cell exactly when some row and some
    header match. *)
Theorem lookup_returns_lookup_value (fs : filesystem)
    (file_path kernel_name metric_name : string) (header_row : Z) (df : DataFrame) :
  read_table fs file_path header_row = ret df ->
  rectangular df ->
  fst (find_kernel_metric fs file_path kernel_name metric_name header_row)
    = inl (lookup_value kernel_name metric_name df)
  /\ (is_Some (lookup_value kernel_name metric_name df) <->
      (exists row, In row (rows df) /\ row_matches kernel_name row)
      /\ (exists c, In c (columns df) /\ col_matches metric_name c)).
Proof.
  intros Hload Hrect. unfold lookup_value.
  destruct (find_row kernel_name df) as [r|] eqn:Er.
  - destruct (find_col metric_name df) as [[j c]|] eqn:Ec.
    + destruct (cell_at_rectangular df r j Hrect (find_row_lt _ _ _ Er)
                  (find_col_lt _ _ _ _ Ec)) as [v Hv].
      rewrite Hv, (lookup_found _ _ _ _ _ df r j c v Hload Er Ec Hv).
      split; [reflexivity|]. split; [intros _ | eauto].
      apply find_row_Some in Er as (row & Hrow & Hm & _).
      apply find_col_Some in Ec as (Hc & Hcm & _).
      split; [exists row | exists c]; split; auto;
        apply list_elem_of_In; eapply list_elem_of_lookup_2; eauto.
    + rewrite (lookup_no_col _ _ _ _ _ df r Hload Er Ec). split; [reflexivity|].
      split; [intros [x Hx]; discriminate|]. intros [_ (c & Hc & Hm)].
      apply find_col_None in Ec. rewrite Forall_forall in Ec.
      destruct (Ec c); [now apply list_elem_of_In | exact Hm].
  - rewrite (lookup_no_row _ _ _ _ _ df Hload Er). split; [reflexivity|].
    split; [intros [x Hx]; discriminate|]. intros [(row & Hrow & Hm) _].
    apply find_row_None in Er. rewrite Forall_forall in Er.
    destruct (Er row); [now apply list_elem_of_In | exact Hm].
Qed.

Lemma lookup_returns_lookup_value_witness :
  fst (find_kernel_metric (one_file "trace.csv" Demo.trace) "trace.csv"
         "topKStage2" "start" 0) = inl (Some (CInt 200)).
Proof.
  refine (proj1 (lookup_returns_lookup_value (one_file "trace.csv" Demo.trace) "trace.csv"
                   "topKStage2" "start" 0 Demo.trace _ _)).
  - reflexivity.
  - repeat constructor.
Defined.

(** X2. The empty substring matches everything: with an empty kernel name
    and an empty metric name the lookup returns the first cell of the first
    row. On a table without rows the lookup returns None after the kernel
    warning, for every kernel name, the empty one included; on a table
    without columns the empty metric name finds nothing. *)
Theorem lookup_empty_substrings (fs : filesystem) (file_path : string) (header_row : Z)
    (df : DataFrame) :
  read_table fs file_path header_row = ret df ->
  (forall kernel_name metric_name,
      rows df = [] ->
      find_kernel_metric fs file_path kernel_name metric_name header_row
      = (inl None, loaded_lines file_path df ++ [kernel_warning kernel_name]))
  /\ (forall c cols v row rest,
        columns df = c :: cols -> rows df = (v :: row) :: rest ->
        fst (find_kernel_metric fs file_path "" "" header_row) = inl (Some v))
  /\ (forall kernel_name row rest,
        columns df = [] -> rows df = row :: rest ->
        fst (find_kernel_metric fs file_path kernel_name "" header_row) = inl None).
Proof.
  intros Hload. split; [|split].
  - intros kn mn Hrows. apply lookup_no_row; [assumption|].
    unfold find_row. now rewrite Hrows.
  - intros c cols v row rest Hcols Hrows.
    rewrite (lookup_found fs file_path "" "" header_row df 0 0 c v); auto.
    + unfold find_row. rewrite Hrows. simpl. now rewrite contains_empty.
    + unfold find_col. rewrite Hcols. simpl. now rewrite contains_empty.
    + unfold cell_at. now rewrite Hrows.
  - intros kn row rest Hcols Hrows.
    assert (find_col "" df = None) as Ec by (unfold find_col; now rewrite Hcols).
    destruct (find_row kn df) as [r|] eqn:Er.
    + now rewrite (lookup_no_col _ _ _ _ _ df r Hload Er Ec).
    + now rewrite (lookup_no_row _ _ _ _ _ df Hload Er).
Qed.

Lemma lookup_empty_substrings_witness :
  fst (find_kernel_metric (one_file "trace.csv" scenario_df) "trace.csv" "" "" 0)
  = inl (Some (CStr "topKStage1_kernel")).
Proof.
  refine (proj1 (proj2 (lookup_empty_substrings (one_file "trace.csv" scenario_df)
                          "trace.csv" 0 scenario_df _))
            "Kernel" ["Duration"; "Start"] (CStr "topKStage1_kernel")
            [CFloat "43392.0"; CInt 100] [] _ _); reflexivity.
Defined.

(** X3. First match wins, so rows appended to a table never change a value
    that the lookup already finds. *)
Theorem lookup_stable_under_appended_rows (fs fs' : filesystem)
    (file_path file_path' kernel_name metric_name : string) (header_row header_row' : Z)
    (df : DataFrame) (more : list (list cell)) (v : cell) :
  read_table fs file_path header_row = ret df ->
  read_table fs' file_path' header_row' = ret (append_rows df more) ->
  fst (find_kernel_metric fs file_path kernel_name metric_name header_row) = inl (Some v) ->
  fst (find_kernel_metric fs' file_path' kernel_name metric_name header_row') = inl (Some v).
Proof.
  intros Hload Hload' Hv.
  destruct (find_kernel_metric fs file_path kernel_name metric_name header_row)
    as [res lines] eqn:E. simpl in Hv. subst res.
  destruct (lookup_Some_inv _ _ _ _ _ _ _ E) as (df0 & r & j & c & Hl & Hr & Hc & Hcell).
  rewrite Hload in Hl. injection Hl as <-.
  rewrite (lookup_found fs' file_path' kernel_name metric_name header_row'
             (append_rows df more) r j c v); auto.
  - apply find_row_Some in Hr as (row & Hrow & Hm & Hfirst).
    apply find_row_Some. exists row. simpl. split; [|split; [exact Hm|]].
    + rewrite lookup_app_l; [exact Hrow | eapply lookup_lt_Some, Hrow].
    + intros r' row' Hrow' Hlt. apply (Hfirst r' row'); [|exact Hlt].
      rewrite lookup_app_l in Hrow'; [exact Hrow'|].
      apply lookup_lt_Some in Hrow. lia.
  - unfold cell_at in *. simpl.
    destruct (rows df !! r) as [row|] eqn:Hrow; [|discriminate].
    rewrite lookup_app_l; [now rewrite Hrow | eapply lookup_lt_Some, Hrow].
Qed.

Lemma lookup_stable_under_appended_rows_witness :
  fst (find_kernel_metric (one_file "b.csv" Demo.trace) "b.csv" "topKStage1" "Duration" 0)
  = inl (Some (CInt 43392)).
Proof.
  apply (lookup_stable_under_appended_rows
           (one_file "a.csv" Demo.trace_stage1_only) (one_file "b.csv" Demo.trace)
           "a.csv" "b.csv" "topKStage1" "Duration" 0 0 Demo.trace_stage1_only
           [[CInt 200; CInt 5120; CStr "void topKStage2Sampling<float>(...)"]]);
    reflexivity.
Defined.

End LookupExtras.

Section LookupExtras2.

Import CsvParser.

Lemma contains_in_empty (n : string) : PyStr.contains n "" = true <-> n = "".
Proof. destruct n; simpl; split; congruence. Qed.

(** X4. For a kernel name without a space the row test is the test the
    comment of the loop describes: the name occurs in some cell of the row
    (or is empty). *)
Theorem row_match_is_cellwise (kernel_name : string) (row : list cell) :
  PyStr.has_char " " kernel_name = false ->
  (row_matches kernel_name row <->
   kernel_name = "" \/ exists c, In c row /\ PyStr.contains kernel_name (str_cell c) = true).
Proof.
  intros Hn. unfold row_matches, row_str. rewrite contains_join by assumption.
  destruct row as [|c0 row]; cbn [map].
  - rewrite contains_in_empty. split; [auto | intros [H | (c & [] & _)]; exact H].
  - rewrite existsb_exists. split.
    + intros (x & Hx & Hc). right. change (In x (map str_cell (c0 :: row))) in Hx.
      apply in_map_iff in Hx as (c & <- & Hin). eauto.
    + intros [-> | (c & Hin & Hc)].
      * exists (str_cell c0). split; [now left | apply contains_empty].
      * exists (str_cell c). split; [exact (in_map str_cell (c0 :: row) c Hin) | exact Hc].
Qed.

Lemma row_match_is_cellwise_witness :
  row_matches "43392" [CStr "topKStage1_kernel"; CFloat "43392.0"; CInt 100].
Proof.
  apply (row_match_is_cellwise "43392"); [reflexivity|].
  right. exists (CFloat "43392.0"). split; [right; left|]; reflexivity.
Defined.

(** X5. Once the table is loaded and a row is found, the value the batch
    lookup stores under a name depends on the set of requested names only:
    two request lists with the same names, in any order and with any
    repetition, give results with the same keys and the same value under
    each key. The keys are requested names as they were given, and two
    requested names that differ in the case of their letters only get the
    same value. (The order of the keys in the dict, which follows the
    requests, is not part of the statement.) *)
Theorem batch_lookup_by_name_set (fs : filesystem) (file_path kernel_name : string)
    (metric_names metric_names' : list string) (header_row : Z) (df : DataFrame) (r : nat) :
  read_table fs file_path header_row = ret df ->
  rectangular df ->
  find_row kernel_name df = Some r ->
  exists results results',
    find_all_kernel_metrics fs file_path kernel_name metric_names header_row
      = (inl results, [])
    /\ find_all_kernel_metrics fs file_path kernel_name metric_names' header_row
       = (inl results', [])
    /\ (forall m, is_Some (results !! m) -> m ∈ metric_names)
    /\ (forall m1 m2, m1 ∈ metric_names -> m2 ∈ metric_names ->
          PyStr.lower m1 = PyStr.lower m2 -> results !! m1 = results !! m2)
    /\ ((forall m, m ∈ metric_names <-> m ∈ metric_names') ->
        forall m, results !! m = results' !! m).
Proof.
  intros Hload Hrect Hrow. pose proof (find_row_lt _ _ _ Hrow) as Hr.
  destruct (find_metrics_spec df r metric_names ∅ Hrect Hr) as (results & E & Hres).
  destruct (find_metrics_spec df r metric_names' ∅ Hrect Hr) as (results' & E' & Hres').
  assert (forall ms res, find_metrics df r ms ∅ = (res, None) ->
            find_all_kernel_metrics fs file_path kernel_name ms header_row = (inl res, []))
    as Hall.
  { intros ms res Ems. unfold find_all_kernel_metrics. rewrite Hload. unfold ret at 1.
    now rewrite Hrow, Ems. }
  exists results, results'. split; [now apply Hall|]. split; [now apply Hall|].
  split; [|split].
  - intros m. rewrite Hres. case_decide as Hd; [tauto|].
    rewrite lookup_empty. intros [x Hx]. discriminate.
  - intros m1 m2 H1 H2 Hlow. rewrite !Hres. unfold metric_cell.
    rewrite (find_col_lower m1 m2 df Hlow).
    repeat case_decide; try reflexivity; exfalso; tauto.
  - intros Hset m. rewrite Hres, Hres'. specialize (Hset m).
    repeat case_decide; try reflexivity; exfalso; tauto.
Qed.

Lemma batch_lookup_by_name_set_witness :
  exists results results',
    find_all_kernel_metrics (one_file "trace.csv" scenario_df) "trace.csv" "topKStage1"
      ["Duration"; "duration"; "Start"] 0 = (inl results, [])
    /\ find_all_kernel_metrics (one_file "trace.csv" scenario_df) "trace.csv" "topKStage1"
         ["Start"; "duration"; "Duration"; "Start"] 0 = (inl results', [])
    /\ results !! "Duration" = results !! "duration"
    /\ forall m, results !! m = results' !! m.
Proof.
  destruct (batch_lookup_by_name_set (one_file "trace.csv" scenario_df) "trace.csv"
              "topKStage1" ["Duration"; "duration"; "Start"]
              ["Start"; "duration"; "Duration"; "Start"] 0 scenario_df 0)
    as (results & results' & E & E' & _ & Hcase & Hset).
  - reflexivity.
  - repeat constructor.
  - reflexivity.
  - exists results, results'. split; [exact E|]. split; [exact E'|]. split.
    + apply Hcase; [repeat constructor .. | reflexivity].
    + apply Hset. intros m. rewrite !elem_of_cons, !elem_of_nil. tauto.
Defined.

Lemma length_append (a b : string) :
  String.length (a ++ b)%string = String.length a + String.length b.
Proof. induction a as [|x a IH]; simpl; [reflexivity | now rewrite IH]. Qed.

Lemma drop_append (a b : string) (k : nat) :
  PyStr.drop (String.length a + k) (a ++ b)%string = PyStr.drop k b.
Proof. induction a as [|x a IH]; simpl; [reflexivity | exact IH]. Qed.

(** A suffix test on a text that ends with [t] is decided inside [t] when
    the suffix is no longer than [t]. *)
Lemma endswith_append (p t suf : string) :
  String.length suf <= String.length t ->
  PyStr.endswith (p ++ t)%string suf = PyStr.endswith t suf.
Proof.
  intros Hlen. unfold PyStr.endswith. rewrite length_append.
  replace (String.length p + String.length t - String.length suf)
    with (String.length p + (String.length t - String.length suf)) by lia.
  rewrite drop_append.
  destruct (Nat.leb_spec (String.length suf) (String.length t)) as [_|]; [|lia].
  destruct (Nat.leb_spec (String.length suf) (String.length p + String.length t)) as [_|];
    [reflexivity | lia].
Qed.

(** X6. The reader is chosen by the case-sensitive end of the path: a path
    that ends in ".xlsx" or ".xls" goes to the Excel reader, and the trace
    files of the sweep, like a path in ".XLSX", go to the CSV reader, so that
    a lookup in a sweep trace does not depend on the Excel reader at all. *)
Theorem reader_by_extension (fs : filesystem) (header_row : Z) :
  (forall p, read_table fs (p ++ ".xlsx") header_row
             = of_load (read_excel fs (p ++ ".xlsx") header_row))
  /\ (forall p, read_table fs (p ++ ".xls") header_row
                = of_load (read_excel fs (p ++ ".xls") header_row))
  /\ (forall p, read_table fs (p ++ ".XLSX") header_row
                = of_load (read_csv fs (p ++ ".XLSX") header_row))
  /\ (forall output_path, read_table fs (trace_path output_path) header_row
                          = of_load (read_csv fs (trace_path output_path) header_row))
  /\ (forall fs' output_path kernel_name metric_name,
        read_csv fs (trace_path output_path) header_row
          = read_csv fs' (trace_path output_path) header_row ->
        find_kernel_metric fs (trace_path output_path) kernel_name metric_name header_row
        = find_kernel_metric fs' (trace_path output_path) kernel_name metric_name header_row).
Proof.
  assert (forall fs0 p t, 5 <= String.length t ->
            PyStr.endswith t ".xlsx" = false -> PyStr.endswith t ".xls" = false ->
            read_table fs0 (p ++ t) header_row = of_load (read_csv fs0 (p ++ t) header_row))
    as Hcsv.
  { intros fs0 p t Hlen H1 H2. unfold read_table.
    rewrite !endswith_append by (simpl; lia). now rewrite H1, H2. }
  split; [|split; [|split; [|split]]].
  - intros p. unfold read_table. rewrite endswith_append by (simpl; lia). reflexivity.
  - intros p. unfold read_table.
    destruct (PyStr.endswith (p ++ ".xls") ".xlsx"); [reflexivity|].
    rewrite endswith_append by (simpl; lia). reflexivity.
  - intros p. now apply Hcsv.
  - intros p. unfold trace_path. apply Hcsv; [simpl; lia | reflexivity | reflexivity].
  - intros fs' p kn mn Hsame. unfold find_kernel_metric, trace_path.
    rewrite !(Hcsv _ p ".csv_cuda_gpu_trace.csv") by (simpl; lia || reflexivity).
    unfold trace_path in Hsame. now rewrite Hsame.
Qed.

(** X14. For a kernel name without a space that is in a cell of exactly one
    row of a table, the lookup selects that row, and selects it in every
    order of the columns. *)
Theorem unique_cell_row_any_column_order (kernel_name : string) (df : DataFrame)
    (r : nat) (row : list cell) :
  PyStr.has_char " " kernel_name = false ->
  rectangular df ->
  rows df !! r = Some row ->
  in_a_cell kernel_name row ->
  (forall r' row', rows df !! r' = Some row' -> in_a_cell kernel_name row' -> r' = r) ->
  forall p, p ≡ₚ seq 0 (length (columns df)) ->
    find_row kernel_name df = Some r
    /\ find_row kernel_name (permute_cols p df) = Some r.
Proof.
  intros Hn Hrect Hr Hcell Huniq p Hp.
  assert (find_row kernel_name df = Some r) as Hfind.
  { assert (forall r' row', rows df !! r' = Some row' ->
              (row_matches kernel_name row' <-> in_a_cell kernel_name row')) as Hiff.
    { intros r' row' Hr'. unfold row_matches, row_str, in_a_cell.
      rewrite contains_join by assumption.
      assert (length row' = length row) as Hlen.
      { unfold rectangular in Hrect. rewrite Forall_lookup in Hrect.
        now rewrite (Hrect _ _ Hr'), (Hrect _ _ Hr). }
      destruct Hcell as (c0 & Hc0 & _).
      destruct row' as [|c' row']; [destruct row; [destruct Hc0 | discriminate]|].
      cbn [map]. rewrite existsb_exists. split.
      - intros (x & Hx & Hc). change (In x (map str_cell (c' :: row'))) in Hx.
        apply in_map_iff in Hx as (c & <- & Hin). eauto.
      - intros (c & Hin & Hc). exists (str_cell c).
        split; [exact (in_map str_cell (c' :: row') c Hin) | exact Hc]. }
    apply (find_row_unique kernel_name df r row Hr).
    - now apply (Hiff r row Hr).
    - intros r' row' Hr' Hm. apply (Huniq r' row' Hr'). now apply (Hiff r' row' Hr'). }
  split; [exact Hfind|]. now rewrite find_row_permute_cols.
Qed.

Lemma unique_cell_row_any_column_order_witness :
  find_row "topKStage2" Demo.trace = Some 1
  /\ find_row "topKStage2" (permute_cols [2; 0; 1] Demo.trace) = Some 1.
Proof.
  apply (unique_cell_row_any_column_order "topKStage2" Demo.trace 1
           [CInt 200; CInt 5120; CStr "void topKStage2Sampling<float>(...)"]).
  - reflexivity.
  - repeat constructor.
  - reflexivity.
  - exists (CStr "void topKStage2Sampling<float>(...)").
    split; [right; right; left|]; reflexivity.
  - intros [|[|r']] row' H (c & Hin & Hc); [|reflexivity | discriminate].
    injection H as <-. destruct Hin as [<- | [<- | [<- | []]]]; discriminate.
  - change ([2; 0; 1] ≡ₚ [0; 1; 2]).
    apply (perm_trans (l' := [0; 2; 1])); [|apply perm_skip, perm_swap].
    apply (perm_trans (l' := [2; 0; 1])); [reflexivity | apply perm_swap].
Defined.

End LookupExtras2.

(** * Further properties of the sweep drivers *)

Section SweepExtras.

Variable environ : gmap string string.
Variable exec : filesystem -> list string -> gmap string string
                -> outcome * filesystem.
Variable str_CalledProcessError : list string -> Z -> string.
Variables output_dir target_script : string.

Abbreviation nsys_step :=
  (Profiling.nsys_point environ exec str_CalledProcessError output_dir target_script).
Abbreviation ncu_step :=
  (Profiling.ncu_point environ exec str_CalledProcessError output_dir target_script).
Abbreviation nsys_driver :=
  (Profiling.nsys_profile_samplingtopK environ exec str_CalledProcessError).
Abbreviation ncu_driver :=
  (Profiling.ncu_profile_samplingtopK environ exec str_CalledProcessError).
Abbreviation env_of := (Profiling.sweep_env environ).
Abbreviation nsys_run_of := (fun path i => nsys_argv path target_script i).
Abbreviation ncu_run_of := (fun path i => ncu_argv path target_script i).

Lemma sweep_points_nil Bs Ns Ks ds :
  Bs = [] \/ Ns = [] \/ Ks = [] \/ ds = [] -> sweep_points Bs Ns Ks ds = [].
Proof.
  intros H. apply length_zero_iff_nil. rewrite length_sweep_points.
  destruct H as [-> | [-> | [-> | ->]]]; simpl; lia.
Qed.


(** X8. The environment of a profiler run is the inherited environment with
    the three variables of the point set, whatever they were before, and
    nothing else changed; the stats export of the nsys driver runs in the
    inherited environment itself. *)
Theorem child_environments (fs : filesystem) (Bs Ns Ks : list Z) (ds : list string)
    (kn csv_name : string) :
  (forall B N K,
      env_of B N K !! "TEST_BATCH_SIZE" = Some (PyStr.str_int B)
      /\ env_of B N K !! "TEST_VOCAB_SIZE" = Some (PyStr.str_int N)
      /\ env_of B N K !! "TEST_TOP_K" = Some (PyStr.str_int K)
      /\ forall k, k <> "TEST_BATCH_SIZE" -> k <> "TEST_VOCAB_SIZE" -> k <> "TEST_TOP_K" ->
                   env_of B N K !! k = environ !! k)
  /\ Forall (fun c => if is_profile c
                      then exists B N K, In B Bs /\ In N Ns /\ In K Ks
                                         /\ call_env c = env_of B N K
                      else is_stats_call c = true /\ call_env c = environ)
       (calls (fst (nsys_driver fs Bs Ns Ks ds kn output_dir csv_name target_script))).
Proof.
  split.
  - intros B N K. unfold Profiling.sweep_env. repeat split.
    + rewrite !lookup_insert_ne by discriminate. apply lookup_insert_eq.
    + rewrite lookup_insert_ne by discriminate. apply lookup_insert_eq.
    + apply lookup_insert_eq.
    + intros k H1 H2 H3. now rewrite !lookup_insert_ne by congruence.
  - destruct (nsys_driver_fields environ exec str_CalledProcessError output_dir
                target_script fs Bs Ns Ks ds kn csv_name) as (_ & _ & -> & _).
    destruct (nsys_fold_envs environ exec str_CalledProcessError output_dir target_script
                Bs Ns Ks ds (sweep_points Bs Ns Ks ds) (Profiling.start fs kn) eq_refl)
      as (cs & Hcs & Hall).
    { apply Forall_forall. intros p Hp. now apply list_elem_of_In. }
    rewrite Hcs. exact Hall.
Qed.


(** X10. In the nsys driver the stats export runs exactly after the
    profiler runs that exited with status 0, and two rows are written
    exactly after the stats exports that exited with status 0; every call is
    one of the two. *)
Theorem nsys_call_and_row_counts (fs : filesystem) (Bs Ns Ks : list Z) (ds : list string)
    (kn csv_name : string) :
  let st := fst (nsys_driver fs Bs Ns Ks ds kn output_dir csv_name target_script) in
  length (List.filter is_stats_call (calls st))
    = length (List.filter (fun c => is_profile c && exited_zero c) (calls st))
  /\ length (summary st)
     = 2 * length (List.filter (fun c => is_stats_call c && exited_zero c) (calls st))
  /\ length (calls st)
     = length (profile_calls st) + length (List.filter is_stats_call (calls st)).
Proof.
  intros st. subst st.
  destruct (nsys_driver_fields environ exec str_CalledProcessError output_dir
              target_script fs Bs Ns Ks ds kn csv_name) as (_ & _ & Hc & Hs & _).
  rewrite (profile_calls_eq _ _ Hc), Hc, Hs.
  destruct (nsys_fold_counts environ exec str_CalledProcessError output_dir target_script
              (sweep_points Bs Ns Ks ds) (Profiling.start fs kn) eq_refl)
    as (cs & rs & Hcs & Hrs & H1 & H2 & H3).
  unfold profile_calls. rewrite Hcs, Hrs.
  change (calls (Profiling.start fs kn)) with (@nil call).
  change (summary (Profiling.start fs kn)) with (@nil summary_row).
  rewrite !app_nil_l. auto.
Qed.

(** X11. The summary rows come in loop order, two in a row for each point
    whose two commands both succeeded: first the row of "topKStage1", then
    the row of "topKStage2Sampling", both with the point's four values. *)
Theorem summary_rows_in_loop_order (fs : filesystem) (Bs Ns Ks : list Z) (ds : list string)
    (kn csv_name : string) :
  let st := fst (nsys_driver fs Bs Ns Ks ds kn output_dir csv_name target_script) in
  exists done,
    sublist done (sweep_points Bs Ns Ks ds)
    /\ map row_key (summary st) = flat_map point_keys done.
Proof.
  intros st. subst st.
  destruct (nsys_driver_fields environ exec str_CalledProcessError output_dir
              target_script fs Bs Ns Ks ds kn csv_name) as (_ & _ & _ & -> & _).
  destruct (nsys_fold_keys environ exec str_CalledProcessError output_dir target_script
              (sweep_points Bs Ns Ks ds) (Profiling.start fs kn) eq_refl)
    as (done & rs & Hsub & Hrs & Hkeys).
  rewrite Hrs. exists done. split; [exact Hsub | exact Hkeys].
Qed.


(** *** Where the profiler runs write *)

Lemma attempted_writes_under (tool : string) (rest : string -> nat -> list string)
    (dir name prefix : string) (pts : list point) (cs : list call) :
  (forall B N K d,
      PyStr.startswith (path_join dir (name ++ dims_suffix B N K d)) prefix = true) ->
  Forall2 (attempted_at environ (fun path i => tool :: "-o" :: path :: rest path i)
             dir name) pts cs ->
  Forall (writes_under prefix) cs.
Proof.
  intros Hpre. induction 1 as [|[[[[B N] K] i] d] c pts cs [Hcmd _] _ IH]; constructor; auto.
  exists (path_join dir (name ++ dims_suffix B N K d)).
  split; [|apply Hpre]. unfold call_output_path. now rewrite Hcmd.
Qed.

(** The profiler runs of the nsys driver write under a prefix that the
    output paths of both kernel names have. *)
Lemma nsys_runs_write_under (prefix : string) (fs : filesystem) (Bs Ns Ks : list Z)
    (ds : list string) (kn csv_name : string) :
  (forall name B N K d,
      name = kn \/ name = "topKStage2Sampling" ->
      PyStr.startswith (path_join output_dir (name ++ dims_suffix B N K d)) prefix = true) ->
  Forall (writes_under prefix)
    (profile_calls (fst (nsys_driver fs Bs Ns Ks ds kn output_dir csv_name target_script))).
Proof.
  intros Hpre.
  destruct (nsys_driver_fields environ exec str_CalledProcessError output_dir
              target_script fs Bs Ns Ks ds kn csv_name) as (_ & _ & Hc & _).
  rewrite (profile_calls_eq _ _ Hc).
  destruct (nsys_fold_phases environ exec str_CalledProcessError output_dir target_script
              (sweep_points Bs Ns Ks ds) (Profiling.start fs kn) eq_refl)
    as (n & pts1 & pts2 & cs1 & cs2 & rs & _ & _ & Hcs & _ & H1 & H2 & _).
  rewrite Hcs. change (profile_calls (Profiling.start fs kn)) with (@nil call).
  rewrite app_nil_l. apply Forall_app. split.
  - eapply (attempted_writes_under "nsys_easy"); [|exact H1]. intros. apply Hpre. now left.
  - eapply (attempted_writes_under "nsys_easy"); [|exact H2]. intros. apply Hpre. now right.
Qed.

(** How the nsys driver ends: normally, after a profiler run for every
    point, or with the exception of a command that could not be run. *)
Lemma nsys_driver_ends (fs : filesystem) (Bs Ns Ks : list Z) (ds : list string)
    (kn csv_name : string) :
  let st := fst (nsys_driver fs Bs Ns Ks ds kn output_dir csv_name target_script) in
  length (profile_calls st) <= length (sweep_points Bs Ns Ks ds)
  /\ (uncaught st = None -> length (profile_calls st) = length (sweep_points Bs Ns Ks ds))
  /\ (forall e, uncaught st = Some e ->
        exists c, last (calls st) = Some c /\ call_code c = None)
  /\ (always_exits exec -> uncaught st = None).
Proof.
  intros st.
  destruct (nsys_profile_end environ exec str_CalledProcessError output_dir target_script
              fs Bs Ns Ks ds kn csv_name)
    as (n & Hn & Hatt & Hnone & Hsome & Halw & _).
  fold st in Hatt, Hnone, Hsome, Halw.
  pose proof (Forall2_length _ _ _ Hatt) as Hlen. rewrite length_firstn in Hlen.
  split; [lia|]. split; [|split; [|exact Halw]].
  - intros H. destruct (Hnone H) as (-> & _). lia.
  - intros e H. exact (proj2 (Hsome e H)).
Qed.

End SweepExtras.


(** ** The main block *)

Section MainBlock.

Variable environ : gmap string string.
Variable exec : filesystem -> list string -> gmap string string
                -> outcome * filesystem.
Variable str_CalledProcessError : list string -> Z -> string.


End MainBlock.
